(** * ESP ML training pipeline: feature matrix, partitioner, scaler, trainer

    A shallow embedding of the Python sources under [esp_ml_training/]:

    - [feature_engineering/feature_generator.py]  ([get_feature], [generate_features])
    - [preprocessing/data_preprocessor.py]        ([split_data], [scale_features])
    - [model_training/train.py]                   ([ModelTrainer])
    - [data_ingestion/firestore_ingestor.py]      ([fetch_from_firestore])
    - [main_training_pipeline.py]                 ([run_pipeline])
    - [evaluation/evaluator.py]                   ([evaluate_model])

    Python floats are IEEE binary64 numbers, modelled by Rocq's primitive
    floats; Python exceptions are the [Raise] results of an error monad; the
    libraries the sources call (pandas, scikit-learn, keras, xgboost, lightgbm,
    joblib, the Firestore client) are either written out where the code's
    behaviour depends on what they compute (dtype inference, [isnull],
    [fillna], [median], [select_dtypes], [train_test_split]'s sizes) or taken
    as Section variables where it does not (random permutations, the fitted
    mean and standard deviation, [mode], model fitting, file formats). *)

From Stdlib Require Import Floats ZArith.
From stdpp Require Import base option list gmap strings.

#[local] Open Scope string_scope.
#[local] Open Scope Z_scope.

(** ** Python values and exceptions *)

(** The values a Firestore document, or a cell of an object column, holds. *)
#[warnings="-register-all"]
Inductive pyval : Type :=
| PyNone
| PyBool (b : bool)
| PyInt (z : Z)
| PyFloat (f : float)
| PyStr (s : string)
| PyDict (m : gmap string pyval)
| PyList (l : list pyval).

Inductive exn : Type :=
| ValueError (msg : string)
| TypeError (msg : string)
| KeyError (key : string)
| NotFittedError
| ZeroDivisionError (msg : string)
| LibraryError (msg : string).

Inductive result (A : Type) : Type :=
| Ok (a : A)
| Raise (e : exn).
Arguments Ok {A} a.
Arguments Raise {A} e.

#[global] Instance result_ret : MRet result := fun A a => Ok a.
#[global] Instance result_bind : MBind result := fun A B f m =>
  match m with Ok a => f a | Raise e => Raise e end.
#[global] Instance result_fmap : FMap result := fun A B f m =>
  match m with Ok a => Ok (f a) | Raise e => Raise e end.

Definition is_ok {A} (r : result A) : bool :=
  match r with Ok _ => true | Raise _ => false end.

(** Sequencing: the first exception raised ends the computation. *)
Definition rbind {A B} (m : result A) (k : A -> result B) : result B :=
  match m with Ok a => k a | Raise e => Raise e end.

Notation "'let*' x ':=' m 'in' k" := (rbind m (fun x => k))
  (at level 10, x name, m at level 100, k at level 200).

(** ** binary64 helpers *)

Definition np_nan : float := PrimFloat.nan.

(** [float(z)]: the integer rounded to the nearest binary64 number. *)
Definition float_of_Z (z : Z) : float :=
  SF2Prim (binary_normalize prec emax z 0 false).

Definition float_of_bool (b : bool) : float :=
  if b then 1%float else 0%float.

(** [int(f)]: truncation towards zero; [None] on NaN and the infinities. *)
Definition float_trunc (f : float) : option Z :=
  match Prim2SF f with
  | S754_zero _ => Some 0
  | S754_finite s m e =>
      let a := if (0 <=? e) then Z.pos m * 2 ^ e else Z.pos m / 2 ^ (- e) in
      Some (cond_Zopp s a)
  | _ => None
  end.

(** [math.ceil(f)]; [None] on NaN and the infinities. *)
Definition float_ceil (f : float) : option Z :=
  match Prim2SF f with
  | S754_zero _ => Some 0
  | S754_finite s m e =>
      if (0 <=? e) then Some (cond_Zopp s (Z.pos m * 2 ^ e))
      else
        let q := Z.pos m / 2 ^ (- e) in
        let r := Z.pos m mod 2 ^ (- e) in
        Some (if s then - q else if (r =? 0) then q else q + 1)
  | _ => None
  end.

(** ** pandas: Series and DataFrame *)

(** A column with its dtype.  Only [float64] and [object] columns can hold
    missing values. *)
Inductive series : Type :=
| SFloat64 (v : list float)
| SInt64 (v : list Z)
| SBool (v : list bool)
| SObject (v : list pyval).

Definition series_len (s : series) : nat :=
  match s with
  | SFloat64 v => length v
  | SInt64 v => length v
  | SBool v => length v
  | SObject v => length v
  end.

(** The cells as the Python objects that [Series.apply] hands to its function. *)
Definition series_cells (s : series) : list pyval :=
  match s with
  | SFloat64 v => PyFloat <$> v
  | SInt64 v => PyInt <$> v
  | SBool v => PyBool <$> v
  | SObject v => v
  end.

(** [pd.isna] on one object. *)
Definition py_isnull (v : pyval) : bool :=
  match v with
  | PyNone => true
  | PyFloat f => PrimFloat.is_nan f
  | _ => false
  end.

(** [Series.isnull()]. *)
Definition isnull (s : series) : list bool :=
  match s with
  | SFloat64 v => PrimFloat.is_nan <$> v
  | SInt64 v => (fun _ => false) <$> v
  | SBool v => (fun _ => false) <$> v
  | SObject v => py_isnull <$> v
  end.

Definition bool_any (l : list bool) : bool := existsb id l.
Definition bool_all (l : list bool) : bool := forallb id l.

(** [pd.api.types.is_numeric_dtype]: integers, floats and also booleans. *)
Definition is_numeric_dtype (s : series) : bool :=
  match s with
  | SFloat64 _ | SInt64 _ | SBool _ => true
  | SObject _ => false
  end.

(** The dtypes [select_dtypes(include=np.number)] keeps: integers and floats;
    [np.bool_] is no subclass of [np.number]. *)
Definition is_np_number (s : series) : bool :=
  match s with
  | SFloat64 _ | SInt64 _ => true
  | SBool _ | SObject _ => false
  end.

Inductive dtype : Type := float64 | int64 | bool_ | object_.

#[global] Instance dtype_eq_dec : EqDecision dtype.
Proof. solve_decision. Defined.

Definition dtype_of (s : series) : dtype :=
  match s with
  | SFloat64 _ => float64
  | SInt64 _ => int64
  | SBool _ => bool_
  | SObject _ => object_
  end.

(** The two notions of a numeric dtype, on the dtype alone. *)
Definition np_number_dtype (d : dtype) : bool :=
  match d with float64 | int64 => true | _ => false end.

Definition numeric_dtype (d : dtype) : bool :=
  match d with float64 | int64 | bool_ => true | object_ => false end.

(** [float(v)] for the numbers of Python's numeric tower. *)
Definition py_to_float (v : pyval) : result float :=
  match v with
  | PyFloat f => Ok f
  | PyInt z => Ok (float_of_Z z)
  | PyBool b => Ok (float_of_bool b)
  | _ => Raise (TypeError "unsupported operand type(s)")
  end.

(** [Series.astype(np.float64)] ([None] becomes NaN in an object column). *)
Definition astype_float64 (s : series) : result (list float) :=
  match s with
  | SFloat64 v => Ok v
  | SInt64 v => Ok (float_of_Z <$> v)
  | SBool v => Ok (float_of_bool <$> v)
  | SObject v =>
      mapM (fun c => match c with
                     | PyNone => Ok np_nan
                     | PyFloat _ | PyInt _ | PyBool _ => py_to_float c
                     | _ => Raise (ValueError "could not convert to float")
                     end) v
  end.

(** [Series.fillna(x)] on a float column. *)
Definition fillna (x : float) (v : list float) : list float :=
  (fun c => if PrimFloat.is_nan c then x else c) <$> v.

(** [Series.fillna(x)] on an object column. *)
Definition fillna_object (x : pyval) (v : list pyval) : list pyval :=
  (fun c => if py_isnull c then x else c) <$> v.

(** [Series.dropna()] on a float column. *)
Definition dropna (v : list float) : list float :=
  filter (fun c => PrimFloat.is_nan c = false) v.

Fixpoint insert_sorted (x : float) (l : list float) : list float :=
  match l with
  | [] => [x]
  | y :: l' => if PrimFloat.leb x y then x :: l else y :: insert_sorted x l'
  end.

Definition sort_floats (l : list float) : list float :=
  foldr insert_sorted [] l.

(** [Series.median()] ([skipna=True]): the middle of the sorted values that
    are present, the mean of the two middle ones for an even count, NaN when
    nothing is present. *)
Definition median (v : list float) : float :=
  let s := sort_floats (dropna v) in
  let n := length s in
  if (n =? 0)%nat then np_nan
  else if Nat.even n
       then (nth (n / 2 - 1) s np_nan + nth (n / 2) s np_nan) / 2
       else nth (n / 2) s np_nan.

(** What [lib.maybe_convert_objects] saw in the values [Series.apply] collected. *)
Record seen : Type := {
  seen_null : bool;   (* None *)
  seen_nan : bool;    (* a float NaN *)
  seen_float : bool;  (* a float that is not NaN *)
  seen_int : bool;
  seen_bool : bool;
  seen_object : bool  (* anything else: str, dict, list *)
}.

Definition see (v : pyval) (s : seen) : seen :=
  match v with
  | PyNone => {| seen_null := true; seen_nan := seen_nan s; seen_float := seen_float s;
                 seen_int := seen_int s; seen_bool := seen_bool s; seen_object := seen_object s |}
  | PyFloat f =>
      if PrimFloat.is_nan f
      then {| seen_null := seen_null s; seen_nan := true; seen_float := seen_float s;
              seen_int := seen_int s; seen_bool := seen_bool s; seen_object := seen_object s |}
      else {| seen_null := seen_null s; seen_nan := seen_nan s; seen_float := true;
              seen_int := seen_int s; seen_bool := seen_bool s; seen_object := seen_object s |}
  | PyInt _ => {| seen_null := seen_null s; seen_nan := seen_nan s; seen_float := seen_float s;
                  seen_int := true; seen_bool := seen_bool s; seen_object := seen_object s |}
  | PyBool _ => {| seen_null := seen_null s; seen_nan := seen_nan s; seen_float := seen_float s;
                   seen_int := seen_int s; seen_bool := true; seen_object := seen_object s |}
  | _ => {| seen_null := seen_null s; seen_nan := seen_nan s; seen_float := seen_float s;
            seen_int := seen_int s; seen_bool := seen_bool s; seen_object := true |}
  end.

Definition seen_nothing : seen :=
  {| seen_null := false; seen_nan := false; seen_float := false;
     seen_int := false; seen_bool := false; seen_object := false |}.

Definition cell_float (v : pyval) : float :=
  match v with
  | PyFloat f => f
  | PyInt z => float_of_Z z
  | _ => np_nan
  end.

Definition cell_int (v : pyval) : Z := match v with PyInt z => z | _ => 0 end.
Definition cell_bool (v : pyval) : bool := match v with PyBool b => b | _ => false end.

(** The dtype pandas gives the values collected by [Series.apply]: floats (and
    integers or [None] mixed with NaN or floats) make a [float64] column,
    integers alone [int64], booleans alone [bool], everything else (strings,
    containers, booleans mixed with anything, [None] alone) stays [object]. *)
Definition infer_objects (vals : list pyval) : series :=
  let s := foldr see seen_nothing vals in
  if seen_object s then SObject vals
  else if seen_bool s then
    if seen_null s || seen_nan s || seen_float s || seen_int s
    then SObject vals else SBool (cell_bool <$> vals)
  else if seen_nan s || seen_float s then SFloat64 (cell_float <$> vals)
  else if seen_int s then
    if seen_null s then SFloat64 (cell_float <$> vals) else SInt64 (cell_int <$> vals)
  else SObject vals.

(** [Series.apply(f)]. *)
Definition series_apply (f : pyval -> pyval) (s : series) : series :=
  infer_objects (f <$> series_cells s).

Record DataFrame : Type := {
  index : list Z;
  columns : list (string * series)
}.

Definition column_names (df : DataFrame) : list string := (columns df).*1.

(** [df.dtypes]: the column names with their dtypes, in order. *)
Definition dtypes (df : DataFrame) : list (string * dtype) :=
  prod_map id dtype_of <$> columns df.

Fixpoint lookup_column (name : string) (cols : list (string * series)) : option series :=
  match cols with
  | [] => None
  | (n, c) :: cols' => if decide (n = name) then Some c else lookup_column name cols'
  end.

(** [df[name]], [None] when [name not in df.columns]. *)
Definition get_column (name : string) (df : DataFrame) : option series :=
  lookup_column name (columns df).

(** The Python object in row [i] of column [name]. *)
Definition cell_at (df : DataFrame) (name : string) (i : nat) : option pyval :=
  match get_column name df with
  | Some s => series_cells s !! i
  | None => None
  end.

Fixpoint assign (name : string) (s : series) (cols : list (string * series))
  : list (string * series) :=
  match cols with
  | [] => [(name, s)]
  | (n, c) :: cols' =>
      if decide (n = name) then (n, s) :: cols' else (n, c) :: assign name s cols'
  end.

(** [df[name] = s]: an existing column keeps its place, a new one is appended. *)
Definition set_column (name : string) (s : series) (df : DataFrame) : DataFrame :=
  {| index := index df; columns := assign name s (columns df) |}.

(** [df.empty]: no row or no column. *)
Definition df_empty (df : DataFrame) : bool :=
  match index df, columns df with
  | [], _ | _, [] => true
  | _, _ => false
  end.

(** ** feature_engineering/feature_generator.py *)

(** [get_feature(data, feature_name, default)]. *)
Definition get_feature (data : pyval) (feature_name : string) (default : pyval) : pyval :=
  match data with
  | PyDict m => match m !! feature_name with Some v => v | None => default end
  | _ => default
  end.

(** The literal [1e-6] added to the gas cost: the binary64 number nearest to
    one millionth. *)
Definition ratio_epsilon : float := 0x1.0c6f7a0b5ed8dp-20%float.

Definition CORE_TOKENS_PLACEHOLDER : list string :=
  ["WETH_ADDR"; "USDC_ADDR"; "USDT_ADDR"].

(** How one column of [features_df] is computed from the [espInputFeatures]
    column (or, for the ratio, from two columns already assigned). *)
Inductive rule : Type :=
| Get (key : string)           (* apply(get_feature(x, key)), default NaN *)
| Flag (key : string)          (* apply(get_feature(x, key, default=0)).astype(int) *)
| CoreToken (key : string)     (* apply(1 if str in CORE_TOKENS else 0).astype(int) *)
| ProfitToGasRatio.            (* A1 / (A2 + 1e-6) *)

#[global] Instance rule_eq_dec : EqDecision rule.
Proof. solve_decision. Defined.

(** The assignments of [generate_features] that read the feature map, in
    source order, the [for] loops unrolled. *)
Definition feature_rules : list (string * rule) := [
  ("A1_estimatedNetProfitUsd_PreEsp", Get "estimatedNetProfitUsd_PreEsp");
  ("A2_estimatedGasCostUsd_Initial", Get "estimatedGasCostUsd_Initial");
  ("A3_initialProfitToGasRatio", ProfitToGasRatio);
  ("A4_pathLength", Get "pathLength");
  ("A5_usesFlashLoan", Flag "usesFlashLoan");
  ("A6_flashLoanAmountUsd", Get "flashLoanAmountUsd");
  ("A7_flashLoanFeeUsd_Estimate", Get "flashLoanFeeUsd_Estimate");
  ("A8_involvedTokenCount_Unique", Get "involvedTokenCount_Unique");
  ("A9_involvedDexCount_Unique", Get "involvedDexCount_Unique");
  ("A10_tokenIsCore_Token0", CoreToken "pathTokenAddress_0");
  ("A10_tokenIsCore_Token1", CoreToken "pathTokenAddress_1");
  ("A10_tokenIsCore_Token2", CoreToken "pathTokenAddress_2");
  ("A12_minPathLiquidityUsd", Get "minPathLiquidityUsd");
  ("A13_avgPathLiquidityUsd", Get "avgPathLiquidityUsd");
  ("A14_isCrossDexArbitrage", Flag "isCrossDexArbitrage");
  ("A15_opportunityAgeMs", Get "opportunityAgeMs");
  ("B16_currentBlockNumber", Get "currentBlockNumber");
  ("B17_currentBaseFeeGwei", Get "currentBaseFeeGwei");
  ("B18_botProposedMaxFeePerGasGwei", Get "botProposedMaxFeePerGasGwei");
  ("B19_botProposedMaxPriorityFeePerGasGwei", Get "botProposedMaxPriorityFeePerGasGwei");
  ("B20_botProposedSlippageToleranceBps_Swap1", Get "botProposedSlippageToleranceBps_Swap1");
  ("B20_botProposedSlippageToleranceBps_Swap2", Get "botProposedSlippageToleranceBps_Swap2");
  ("C21_mempool_TotalPendingTxCount", Get "mempool_TotalPendingTxCount");
  ("C22_mempool_HighGasTxCount_LastMinute", Get "mempool_HighGasTxCount_LastMinute");
  ("C23_mempool_TargetPool_PendingTxCount_Swap1", Get "mempool_TargetPool_PendingTxCount_Swap1");
  ("C24_mempool_TargetPool_PendingVolumeUsd_Swap1", Get "mempool_TargetPool_PendingVolumeUsd_Swap1");
  ("C23_mempool_TargetPool_PendingTxCount_Swap2", Get "mempool_TargetPool_PendingTxCount_Swap2");
  ("C24_mempool_TargetPool_PendingVolumeUsd_Swap2", Get "mempool_TargetPool_PendingVolumeUsd_Swap2");
  ("C25_mempool_AvgPriorityFeeGwei_Recent", Get "mempool_AvgPriorityFeeGwei_Recent");
  ("C26_mempool_competingMevTxSignatureCount", Get "mempool_competingMevTxSignatureCount");
  ("C27_timeSinceLastBlockMs", Get "timeSinceLastBlockMs");
  ("C28_mempool_gasPriceVolatility_ShortTerm", Get "mempool_gasPriceVolatility_ShortTerm");
  ("D29_ethPriceUsd_Current", Get "ethPriceUsd_Current");
  ("D30_tokenVolatility_StdDevPct_1min_Token0", Get "tokenVolatility_StdDevPct_1min_Token0");
  ("D31_tokenVolatility_StdDevPct_5min_Token0", Get "tokenVolatility_StdDevPct_5min_Token0");
  ("D30_tokenVolatility_StdDevPct_1min_Token1", Get "tokenVolatility_StdDevPct_1min_Token1");
  ("D31_tokenVolatility_StdDevPct_5min_Token1", Get "tokenVolatility_StdDevPct_5min_Token1");
  ("D30_tokenVolatility_StdDevPct_1min_Token2", Get "tokenVolatility_StdDevPct_1min_Token2");
  ("D31_tokenVolatility_StdDevPct_5min_Token2", Get "tokenVolatility_StdDevPct_5min_Token2");
  ("D32_tokenLiquidityDeltaPct_5min_Pool0", Get "tokenLiquidityDeltaPct_5min_Pool0");
  ("D32_tokenLiquidityDeltaPct_5min_Pool1", Get "tokenLiquidityDeltaPct_5min_Pool1");
  ("D33_isNewTokenPair_Opportunistic", Flag "isNewTokenPair_Opportunistic");
  ("E34_bot_HistoricalSuccessRate_SamePathSignature_LastHour",
     Get "bot_HistoricalSuccessRate_SamePathSignature_LastHour");
  ("E35_bot_HistoricalSuccessRate_SameStrategyType_LastHour",
     Get "bot_HistoricalSuccessRate_SameStrategyType_LastHour");
  ("E36_bot_AvgNetProfitUsd_SamePathSignature_Successful_LastDay",
     Get "bot_AvgNetProfitUsd_SamePathSignature_Successful_LastDay");
  ("E37_bot_RecentConsecutiveFailures_ThisStrategy",
     Get "bot_RecentConsecutiveFailures_ThisStrategy");
  ("E38_bot_RelaySuccessRate_LastHour", Get "bot_RelaySuccessRate_LastHour")
].

(** The value each rule yields when the feature map has nothing to offer: the
    missing sentinel, or zero for the flags cast to [int]. *)
Definition declared_default (r : rule) : pyval :=
  match r with
  | Get _ => PyFloat np_nan
  | Flag _ => PyInt 0
  | CoreToken _ => PyInt 0
  | ProfitToGasRatio => PyFloat np_nan
  end.

(** The lambda of the core-token columns. *)
Definition token_is_core (key : string) (x : pyval) : pyval :=
  match get_feature x key (PyFloat np_nan) with
  | PyStr s => if bool_decide (s ∈ CORE_TOKENS_PLACEHOLDER) then PyInt 1 else PyInt 0
  | _ => PyInt 0
  end.

(** [features_df[A1] / (features_df[A2] + 1e-6)]: one unconditional binary64
    addition and division per row. *)
Definition ratio_denominator (gas : float) : float := (gas + ratio_epsilon)%float.

Definition ratio_cell (profit gas : float) : float :=
  (profit / ratio_denominator gas)%float.

(** A record without a feature map: the cell holds no dict (NaN or [None]
    where the document had none, any other non-mapping value), or the empty
    dict the ingestion and the missing-column guard put in its place. *)
Definition lacks_feature_map (x : pyval) : bool :=
  match x with
  | PyDict m => bool_decide (m = ∅)
  | _ => true
  end.

Definition is_object (s : series) : bool :=
  match s with SObject _ => true | _ => false end.

(** The number a Python object is in arithmetic with a float: a float, an
    integer or a boolean (the integers of a document are 64-bit, so that the
    conversion does not overflow). *)
Definition py_number (v : pyval) : option float :=
  match v with
  | PyFloat f => Some f
  | PyInt z => Some (float_of_Z z)
  | PyBool b => Some (float_of_bool b)
  | _ => None
  end.

(** [x + y] and [x / y] in Python, for an object [x] and a float [y]: a
    [TypeError] for an [x] that is no number, a [ZeroDivisionError] for a
    divisor that is zero. *)
Definition py_add (x : pyval) (y : float) : result float :=
  match py_number x with
  | Some f => Ok (f + y)%float
  | None => Raise (TypeError "unsupported operand type(s)")
  end.

Definition py_truediv (x : pyval) (y : float) : result float :=
  match py_number x with
  | Some f =>
      if PrimFloat.eqb y 0 then Raise (ZeroDivisionError "float division by zero")
      else Ok (f / y)%float
  | None => Raise (TypeError "unsupported operand type(s)")
  end.

(** pandas' arithmetic on an object column ([_na_arithmetic_op]): the
    operation is tried on all rows, in order, as Python objects; when that
    raises a [TypeError] it is done again on the rows where both sides are
    present ([_masked_arith_op]), and the other rows are NaN.  Any other
    exception, and a [TypeError] of the second pass, is raised. *)
Definition na_arithmetic_op (op : pyval -> float -> result float)
  (left : list pyval) (right : list float) : result (list float) :=
  let rows := zip left right in
  match mapM (fun r : pyval * float => op r.1 r.2) rows with
  | Raise (TypeError _) =>
      mapM (fun r : pyval * float =>
              if py_isnull r.1 || PrimFloat.is_nan r.2 then Ok np_nan else op r.1 r.2) rows
  | r => r
  end.

(** [features_df[A2] + 1e-6]: binary64 addition on a numeric column, Python
    addition on an object column. *)
Definition add_epsilon (a2 : series) : result (list float) :=
  match a2 with
  | SObject v => na_arithmetic_op py_add v (replicate (length v) ratio_epsilon)
  | _ => let* g := astype_float64 a2 in Ok (ratio_denominator <$> g)
  end.

(** [features_df[A1] / (features_df[A2] + 1e-6)].  Two numeric columns are
    divided as binary64 arrays, which raises nothing (a zero divisor gives an
    infinity or NaN); when one of the columns is an object column the rows are
    divided as Python objects and the result is an object column. *)
Definition profit_to_gas_ratio (a1 a2 : series) : result series :=
  let* denominator := add_epsilon a2 in
  if is_object a1 || is_object a2 then
    let* r := na_arithmetic_op py_truediv (series_cells a1) denominator in
    Ok (SObject (PyFloat <$> r))
  else
    let* p := astype_float64 a1 in
    Ok (SFloat64 (zip_with (fun x d => x / d)%float p denominator)).

Section FeatureGenerator.

(** Python's [int(str)], and pandas' [Series.mode] on an object column (the
    most frequent values that are present, sorted; empty when none is). *)
Variable int_of_str : string -> option Z.
Variable series_mode : list pyval -> list pyval.

(** [pd.to_datetime(errors='coerce')] ([None] is NaT), the [dt] accessors, and
    numpy's sine and cosine. *)
Variable timestamp : Type.
Variable to_datetime : pyval -> option timestamp.
Variable dt_hour dt_dayofweek : timestamp -> Z.
Variable np_sin np_cos : float -> float.

(** [int(v)]. *)
Definition py_int (v : pyval) : result Z :=
  match v with
  | PyInt z => Ok z
  | PyBool b => Ok (Z.b2z b)
  | PyFloat f =>
      match float_trunc f with
      | Some z => Ok z
      | None => Raise (ValueError "cannot convert float NaN or infinity to integer")
      end
  | PyStr s =>
      match int_of_str s with
      | Some z => Ok z
      | None => Raise (ValueError "invalid literal for int() with base 10")
      end
  | _ => Raise (TypeError "int() argument must be a string or a real number")
  end.

(** [Series.astype(int)]. *)
Definition astype_int (s : series) : result series :=
  match s with
  | SInt64 v => Ok (SInt64 v)
  | SBool v => Ok (SInt64 (Z.b2z <$> v))
  | SFloat64 v => SInt64 <$> mapM (fun f => py_int (PyFloat f)) v
  | SObject v => SInt64 <$> mapM py_int v
  end.

(** The right-hand side of one assignment. *)
Definition rule_column (esp : series) (features_df : DataFrame) (r : rule) : result series :=
  match r with
  | Get key => Ok (series_apply (fun x => get_feature x key (PyFloat np_nan)) esp)
  | Flag key => astype_int (series_apply (fun x => get_feature x key (PyInt 0)) esp)
  | CoreToken key => astype_int (series_apply (token_is_core key) esp)
  | ProfitToGasRatio =>
      match get_column "A1_estimatedNetProfitUsd_PreEsp" features_df,
            get_column "A2_estimatedGasCostUsd_Initial" features_df with
      | Some a1, Some a2 => profit_to_gas_ratio a1 a2
      | _, _ => Raise (KeyError "A1_estimatedNetProfitUsd_PreEsp")
      end
  end.

(** One assignment [features_df[name] = ...]. *)
Definition apply_rule (esp : series) (features_df : DataFrame) (nr : string * rule)
  : result DataFrame :=
  let* col := rule_column esp features_df nr.2 in
  Ok (set_column nr.1 col features_df).

Fixpoint apply_rules (esp : series) (features_df : DataFrame) (rules : list (string * rule))
  : result DataFrame :=
  match rules with
  | [] => Ok features_df
  | nr :: rules' =>
      let* df := apply_rule esp features_df nr in
      apply_rules esp df rules'
  end.

Definition np_pi : float := 0x1.921fb54442d18p+1%float.

(** [np.sin(2 * np.pi * hour / 24.0)] and its three siblings, per row; NaN
    where the timestamp did not parse. *)
Definition cyclical (trig : float -> float) (part : timestamp -> Z) (period : float)
  (t : option timestamp) : float :=
  match t with
  | Some ts => trig (2 * np_pi * float_of_Z (part ts) / period)%float
  | None => np_nan
  end.

Definition time_features (raw_df : DataFrame) (features_df : DataFrame) : DataFrame :=
  let n := length (index raw_df) in
  let stamps :=
    match get_column "attemptTimestamp" raw_df with
    | Some s => to_datetime <$> series_cells s
    | None => replicate n None
    end in
  let df := set_column "F39_hourOfDayUTC_Sin"
              (SFloat64 (cyclical np_sin dt_hour 24 <$> stamps)) features_df in
  let df := set_column "F39_hourOfDayUTC_Cos"
              (SFloat64 (cyclical np_cos dt_hour 24 <$> stamps)) df in
  let df := set_column "F40_dayOfWeekUTC_Sin"
              (SFloat64 (cyclical np_sin dt_dayofweek 7 <$> stamps)) df in
  set_column "F40_dayOfWeekUTC_Cos"
    (SFloat64 (cyclical np_cos dt_dayofweek 7 <$> stamps)) df.

(** The target columns are passed through, or default to 0 when absent. *)
Definition pass_target (name : string) (raw_df : DataFrame) (features_df : DataFrame)
  : DataFrame :=
  match get_column name raw_df with
  | Some s => set_column name s features_df
  | None => set_column name (SInt64 (replicate (length (index raw_df)) 0)) features_df
  end.

(** Whether Python can hash the object: mappings and lists are unhashable. *)
Definition py_hashable (v : pyval) : bool :=
  match v with
  | PyDict _ | PyList _ => false
  | _ => true
  end.

(** [Series.mode()] on an object column: the values that are present go
    through a hash table, and the first one that is unhashable raises. *)
Definition object_mode (v : list pyval) : result (list pyval) :=
  match filter (fun c => py_isnull c = false /\ py_hashable c = false) v with
  | PyDict _ :: _ => Raise (TypeError "unhashable type: 'dict'")
  | _ :: _ => Raise (TypeError "unhashable type: 'list'")
  | [] => Ok (series_mode v)
  end.

(** The body of the imputation loop for one column. *)
Definition impute_column (s : series) : result series :=
  if bool_any (isnull s) then
    if is_numeric_dtype s then
      match s with
      | SFloat64 v => let median_val := median v in Ok (SFloat64 (fillna median_val v))
      | _ => Ok s
      end
    else
      match s with
      | SObject v =>
          let* mode_val := object_mode v in
          let fill_val := match mode_val with m :: _ => m | [] => PyStr "missing" end in
          Ok (SObject (fillna_object fill_val v))
      | _ => Ok s
      end
  else Ok s.

(** The imputation loop: the columns in order, the first exception ends it. *)
Definition impute (features_df : DataFrame) : result DataFrame :=
  let* cols := mapM (fun c : string * series =>
                       let* s := impute_column c.2 in Ok (c.1, s))
                 (columns features_df) in
  Ok {| index := index features_df; columns := cols |}.

(** The column the extraction reads: [espInputFeatures], or a column of empty
    dicts when the frame has none. *)
Definition esp_input_column (raw_df : DataFrame) : series :=
  match get_column "espInputFeatures" raw_df with
  | Some s => s
  | None => SObject (replicate (length (index raw_df)) (PyDict ∅))
  end.

(** The columns read from the feature map (sections A to E of the source). *)
Definition feature_map_columns (raw_df : DataFrame) : result DataFrame :=
  let features_df := {| index := index raw_df; columns := [] |} in
  apply_rules (esp_input_column raw_df) features_df feature_rules.

(** The frame before the imputation loop. *)
Definition assemble_features (raw_df : DataFrame) : result DataFrame :=
  let* df := feature_map_columns raw_df in
  let df := time_features raw_df df in
  let df := pass_target "isSuccess_Execution" raw_df df in
  Ok (pass_target "isSuccess_Profitability" raw_df df).

Definition generate_features (raw_df : DataFrame) (feature_list_version : string)
  : result DataFrame :=
  let* features_df := assemble_features raw_df in
  impute features_df.

End FeatureGenerator.

(** ** preprocessing/data_preprocessor.py *)

(** A [pd.Series] with its index (the target vector). *)
Record Series : Type := {
  sindex : list Z;
  values : series
}.

(** Positional selection, [iloc[positions]]. *)
Definition take_rows {A} (positions : list nat) (l : list A) : list A :=
  omap (fun i => l !! i) positions.

Definition series_take (positions : list nat) (s : series) : series :=
  match s with
  | SFloat64 v => SFloat64 (take_rows positions v)
  | SInt64 v => SInt64 (take_rows positions v)
  | SBool v => SBool (take_rows positions v)
  | SObject v => SObject (take_rows positions v)
  end.

Definition iloc (positions : list nat) (df : DataFrame) : DataFrame :=
  {| index := take_rows positions (index df);
     columns := prod_map id (series_take positions) <$> columns df |}.

Definition iloc_series (positions : list nat) (y : Series) : Series :=
  {| sindex := take_rows positions (sindex y);
     values := series_take positions (values y) |}.

(** [reset_index(drop=True)]: the index becomes 0, 1, ..., n-1. *)
Definition reset_index (df : DataFrame) : DataFrame :=
  {| index := seqZ 0 (Z.of_nat (length (index df))); columns := columns df |}.

Definition reset_index_series (y : Series) : Series :=
  {| sindex := seqZ 0 (Z.of_nat (length (sindex y))); values := values y |}.

(** scikit-learn's [_validate_shuffle_split] for a float [test_size] and no
    [train_size]: the test set gets [ceil(test_size * n_samples)] rows, the
    training set the rest, and an empty training set is refused. *)
Definition validate_shuffle_split (n_samples : nat) (test_size : float)
  : result (nat * nat) :=
  if PrimFloat.leb test_size 0 || PrimFloat.leb 1 test_size then
    Raise (ValueError "test_size should be a float in the (0, 1) range")
  else
    match float_ceil (test_size * float_of_Z (Z.of_nat n_samples))%float with
    | None => Raise (ValueError "cannot convert float NaN to integer")
    | Some c =>
        let n_test := Z.to_nat c in
        let n_train := (n_samples - n_test)%nat in
        if (n_train =? 0)%nat
        then Raise (ValueError "the resulting train set will be empty")
        else Ok (n_train, n_test)
    end.

Inductive split_result : Type :=
| TrainTest (X_train X_test : DataFrame) (y_train y_test : Series)
| TrainValTest (X_train X_val X_test : DataFrame) (y_train y_val y_test : Series).

Section Partitioner.

(** numpy's random generator: its state, [RandomState(seed)], and
    [permutation(n)], which returns the shuffled positions and the state it
    leaves behind.  scikit-learn's [StratifiedShuffleSplit] is taken whole: from
    a generator, the class labels and the two sizes it yields the training and
    the test positions, or raises. *)
Variable rng : Type.
Variable RandomState : Z -> rng.
Variable rng_permutation : rng -> nat -> list nat * rng.
Variable stratified_shuffle_split :
  rng -> series -> nat -> nat -> result (list nat * list nat) * rng.

(** [ShuffleSplit]: the first [n_test] shuffled positions are the test set, the
    next [n_train] the training set. *)
Definition shuffle_split (r : rng) (n_samples n_train n_test : nat)
  : result (list nat * list nat) * rng :=
  let (permutation, r') := rng_permutation r n_samples in
  (Ok (take n_train (drop n_test permutation), take n_test permutation), r').

(** [sklearn.model_selection.train_test_split(X, y, test_size=, random_state=,
    stratify=)].  [g] is numpy's global generator, used (and advanced) only
    when [random_state] is [None]. *)
Definition train_test_split (g : rng) (X : DataFrame) (y : Series) (test_size : float)
  (random_state : option Z) (stratify : option series)
  : result (DataFrame * DataFrame * Series * Series) * rng :=
  let n_samples := length (index X) in
  if negb (bool_decide (length (sindex y) = n_samples)) then
    (Raise (ValueError "Found input variables with inconsistent numbers of samples"), g)
  else
    match validate_shuffle_split n_samples test_size with
    | Raise e => (Raise e, g)
    | Ok (n_train, n_test) =>
        let r := match random_state with Some seed => RandomState seed | None => g end in
        let (positions, r') :=
          match stratify with
          | None => shuffle_split r n_samples n_train n_test
          | Some labels => stratified_shuffle_split r labels n_train n_test
          end in
        let g' := match random_state with Some _ => g | None => r' end in
        ((let* p := positions in
          Ok (iloc p.1 X, iloc p.2 X, iloc_series p.1 y, iloc_series p.2 y)), g')
    end.

(** [split_data(X, y, test_size, validation_size, random_state, stratify)]. *)
Definition split_data (g : rng) (X : DataFrame) (y : Series) (test_size : float)
  (validation_size : option float) (random_state : option Z) (stratify : option Series)
  : result split_result * rng :=
  let aligned := bool_decide (index X = sindex y) in
  let X := if aligned then X else reset_index X in
  let y := if aligned then y else reset_index_series y in
  let stratify_array :=
    match stratify with
    | Some s =>
        if bool_decide (sindex s = sindex y) then Some s else Some (reset_index_series s)
    | None => None
    end in
  match train_test_split g X y test_size random_state (values <$> stratify_array) with
  | (Raise e, g1) => (Raise e, g1)
  | (Ok (X_train_val, X_test, y_train_val, y_test), g1) =>
      match validation_size with
      | Some vs =>
          if PrimFloat.ltb 0 vs then
            let stratify_val_array :=
              match stratify_array with Some _ => Some y_train_val | None => None end in
            match train_test_split g1 X_train_val y_train_val vs random_state
                    (values <$> stratify_val_array) with
            | (Raise e, g2) => (Raise e, g2)
            | (Ok (X_train, X_val, y_train, y_val), g2) =>
                (Ok (TrainValTest X_train X_val X_test y_train y_val y_test), g2)
            end
          else (Ok (TrainTest X_train_val X_test y_train_val y_test), g1)
      | None => (Ok (TrainTest X_train_val X_test y_train_val y_test), g1)
      end
  end.

End Partitioner.

(** A scikit-learn scaler: unfitted, or with the parameters that [fit] stored
    for each column it saw ([mean_] and [scale_]; [data_min_], [data_max_],
    [scale_] and [min_]). *)
Record standard_column : Type := {
  col_mean : float;
  col_scale : float
}.

Record minmax_column : Type := {
  col_data_min : float;
  col_data_max : float;
  col_mm_scale : float;
  col_mm_min : float
}.

Inductive scaler : Type :=
| StandardScaler (fitted : option (list standard_column))
| MinMaxScaler (fitted : option (list minmax_column)).

(** The attributes the export reads. *)
Definition mean_ (p : list standard_column) : list float := col_mean <$> p.
Definition scale_ (p : list standard_column) : list float := col_scale <$> p.
Definition data_min_ (p : list minmax_column) : list float := col_data_min <$> p.
Definition data_max_ (p : list minmax_column) : list float := col_data_max <$> p.

(** What [StandardScaler.transform] does to one cell: [X -= mean_; X /= scale_]. *)
Definition standard_cell (mean scale x : float) : float := ((x - mean) / scale)%float.

(** What [MinMaxScaler.transform] does to one cell: [X *= scale_; X += min_]. *)
Definition minmax_cell (scale min x : float) : float := (x * scale + min)%float.

(** [scaler.transform(X)] on the columns of [X]. *)
Definition scaler_transform (sc : scaler) (X : list (list float)) : result (list (list float)) :=
  match sc with
  | StandardScaler None | MinMaxScaler None => Raise NotFittedError
  | StandardScaler (Some p) =>
      if bool_decide (length X = length p) then
        Ok (zip_with (fun c col => standard_cell (col_mean c) (col_scale c) <$> col) p X)
      else Raise (ValueError "X has a different number of features than the scaler")
  | MinMaxScaler (Some p) =>
      if bool_decide (length X = length p) then
        Ok (zip_with (fun c col => minmax_cell (col_mm_scale c) (col_mm_min c) <$> col) p X)
      else Raise (ValueError "X has a different number of features than the scaler")
  end.

(** The scaler's own transform of one value of column [j]. *)
Definition scaler_cell (sc : scaler) (j : nat) (x : float) : option float :=
  match sc with
  | StandardScaler (Some p) =>
      (fun c => standard_cell (col_mean c) (col_scale c) x) <$> p !! j
  | MinMaxScaler (Some p) =>
      (fun c => minmax_cell (col_mm_scale c) (col_mm_min c) x) <$> p !! j
  | _ => None
  end.

(** The binary64 value of row [i] of column [name], as [astype(np.float64)]
    reads it. *)
Definition numeric_at (X : DataFrame) (name : string) (i : nat) : option float :=
  match get_column name X with
  | Some s => match astype_float64 s with Ok v => v !! i | Raise _ => None end
  | None => None
  end.

(** [X.select_dtypes(include=np.number).columns.tolist()]. *)
Definition select_number_columns (X : DataFrame) : list string :=
  (filter (fun c => is_np_number c.2 = true) (columns X)).*1.

(** [X[numeric_cols].astype(np.float64)], column by column. *)
Definition numeric_data (X : DataFrame) (numeric_cols : list string)
  : result (list (list float)) :=
  mapM (fun name => match get_column name X with
                    | Some s => astype_float64 s
                    | None => Raise (KeyError name)
                    end) numeric_cols.

(** The fill of one training column before the fit: zeros when everything is
    missing, the column's own median when something is. *)
Definition prefit_fill (col : list float) : list float :=
  if bool_all (PrimFloat.is_nan <$> col) then (fun _ => 0%float) <$> col
  else if bool_any (PrimFloat.is_nan <$> col) then
    let median_val := median col in fillna median_val col
  else col.

(** [X_scaled[numeric_cols] = values]. *)
Definition assign_columns (names : list string) (cols : list (list float)) (X : DataFrame)
  : DataFrame :=
  foldl (fun df nc => set_column nc.1 (SFloat64 nc.2) df) X (zip names cols).

Section Scaler.

(** What [fit] computes from one (filled) training column: scikit-learn's mean
    and standard deviation, and its minimum, maximum, scale and offset. *)
Variable standard_fit : list float -> standard_column.
Variable minmax_fit : list float -> minmax_column.

Definition scaler_fit (sc : scaler) (X : list (list float)) : scaler :=
  match sc with
  | StandardScaler _ => StandardScaler (Some (standard_fit <$> X))
  | MinMaxScaler _ => MinMaxScaler (Some (minmax_fit <$> X))
  end.

(** The data the new scaler is fitted on. *)
Definition fit_data (X_train : DataFrame) (numeric_cols : list string)
  : result (list (list float)) :=
  let* train_numeric_data := numeric_data X_train numeric_cols in
  Ok (prefit_fill <$> train_numeric_data).

(** [scaler.transform(X[numeric_cols].astype(np.float64).fillna(0))], written
    back into the copy of [X]. *)
Definition transform_frame (sc : scaler) (numeric_cols : list string) (X : DataFrame)
  : result DataFrame :=
  let* data := numeric_data X numeric_cols in
  let* scaled := scaler_transform sc (fillna 0 <$> data) in
  Ok (assign_columns numeric_cols scaled X).

Definition transform_optional (sc : scaler) (numeric_cols : list string)
  (X : option DataFrame) : result (option DataFrame) :=
  match X with
  | Some df => Some <$> transform_frame sc numeric_cols df
  | None => Ok None
  end.

(** [scale_features(X_train, X_test, X_val, scaler_type, existing_scaler)]. *)
Definition scale_features (X_train : DataFrame) (X_test X_val : option DataFrame)
  (scaler_type : string) (existing_scaler : option scaler)
  : result (DataFrame * option DataFrame * option DataFrame * option scaler) :=
  let numeric_cols := select_number_columns X_train in
  match numeric_cols with
  | [] => Ok (X_train, X_test, X_val, None)
  | _ =>
      let* sc :=
        match existing_scaler with
        | Some sc => Ok sc
        | None =>
            let* sc :=
              if decide (scaler_type = "standard") then Ok (StandardScaler None)
              else if decide (scaler_type = "minmax") then Ok (MinMaxScaler None)
              else Raise (ValueError "scaler_type must be 'standard' or 'minmax'") in
            let* train_numeric_data := fit_data X_train numeric_cols in
            Ok (scaler_fit sc train_numeric_data)
        end in
      let* X_train_scaled_df := transform_frame sc numeric_cols X_train in
      let* X_test_scaled_df := transform_optional sc numeric_cols X_test in
      let* X_val_scaled_df := transform_optional sc numeric_cols X_val in
      Ok (X_train_scaled_df, X_test_scaled_df, X_val_scaled_df, Some sc)
  end.

End Scaler.

(** ** model_training/train.py *)

(** Python truthiness, as [if v:] tests it. *)
Definition py_truthy (v : pyval) : bool :=
  match v with
  | PyNone => false
  | PyBool b => b
  | PyInt z => negb (z =? 0)
  | PyFloat f => negb (PrimFloat.eqb f 0)
  | PyStr s => negb (bool_decide (s = ""))
  | PyDict m => negb (bool_decide (m = ∅))
  | PyList l => match l with [] => false | _ => true end
  end.

Definition SUPPORTED_MODEL_TYPES : list string :=
  ["neural_network"; "xgboost"; "lightgbm"].

Section Trainer.

(** The three backends: their model objects, their constructors (which may
    raise on bad hyper-parameters) and their [fit] methods.  [fit] receives the
    validation data and the early-stopping setting the trainer decided to pass. *)
Variables keras_model xgb_model lgbm_model training_history : Type.
Variable keras_build : gmap string pyval -> result keras_model.
Variable xgb_new : option Z -> gmap string pyval -> result xgb_model.
Variable lgbm_new : option Z -> gmap string pyval -> result lgbm_model.
Variable keras_fit :
  keras_model -> gmap string pyval -> DataFrame -> Series ->
  option (DataFrame * Series) -> option pyval -> result (keras_model * training_history).
Variable xgb_fit :
  xgb_model -> gmap string pyval -> DataFrame -> Series ->
  option (DataFrame * Series * pyval) -> result xgb_model.
Variable lgbm_fit :
  lgbm_model -> gmap string pyval -> DataFrame -> Series ->
  option (DataFrame * Series * pyval) -> result lgbm_model.

Inductive model_handle : Type :=
| KerasModel (m : keras_model)
| XGBClassifier (m : xgb_model)
| LGBMClassifier (m : lgbm_model).

Record ModelTrainer : Type := {
  model_type : string;
  model_params : gmap string pyval;
  random_state : option Z;
  model : option model_handle;
  history : option training_history
}.

(** [_build_neural_network]. *)
Definition build_neural_network (self : ModelTrainer) : result ModelTrainer :=
  match model_params self !! "input_dim" with
  | None | Some PyNone =>
      Raise (ValueError "input_dim must be provided in model_params for neural_network before building.")
  | Some _ =>
      let* m := keras_build (model_params self) in
      Ok {| model_type := model_type self; model_params := model_params self;
            random_state := random_state self; model := Some (KerasModel m);
            history := history self |}
  end.

(** [ModelTrainer.__init__(model_type, model_params, random_state)]. *)
Definition ModelTrainer_init (model_type : string) (model_params : option (gmap string pyval))
  (random_state : option Z) : result ModelTrainer :=
  let params := default ∅ model_params in
  let self := {| model_type := model_type; model_params := params;
                 random_state := random_state; model := None; history := None |} in
  if decide (model_type = "neural_network") then
    if py_truthy (default PyNone (params !! "input_dim"))
    then build_neural_network self
    else Ok self
  else if decide (model_type = "xgboost") then
    let params :=
      match params !! "use_label_encoder" with
      | Some _ => params
      | None => <["use_label_encoder" := PyBool false]> params
      end in
    let* m := xgb_new random_state params in
    Ok {| model_type := model_type; model_params := params; random_state := random_state;
          model := Some (XGBClassifier m); history := None |}
  else if decide (model_type = "lightgbm") then
    let* m := lgbm_new random_state params in
    Ok {| model_type := model_type; model_params := params; random_state := random_state;
          model := Some (LGBMClassifier m); history := None |}
  else
    Raise (ValueError ("Unsupported model_type: " +:+ model_type +:+
                       ". Supported types: neural_network, xgboost, lightgbm")).

Definition with_model (self : ModelTrainer) (m : model_handle)
  (h : option training_history) : ModelTrainer :=
  {| model_type := model_type self; model_params := model_params self;
     random_state := random_state self; model := Some m; history := h |}.

(** [ModelTrainer.train(X_train, y_train, X_val, y_val)]: the trainer after the
    call, whose [history] field is what the method returns. *)
Definition train (self : ModelTrainer) (X_train : DataFrame) (y_train : Series)
  (X_val : option DataFrame) (y_val : option Series) : result ModelTrainer :=
  let validation :=
    match X_val, y_val with Some X, Some y => Some (X, y) | _, _ => None end in
  if decide (model_type self = "neural_network") then
    let* self :=
      match model self with
      | Some (KerasModel _) => Ok self
      | _ =>
          build_neural_network
            {| model_type := model_type self;
               model_params := <["input_dim" := PyInt (Z.of_nat (length (columns X_train)))]>
                                 (model_params self);
               random_state := random_state self; model := model self;
               history := history self |}
      end in
    match model self with
    | Some (KerasModel m) =>
        let early_stopping :=
          match validation, model_params self !! "early_stopping_patience" with
          | Some _, Some patience => if py_truthy patience then Some patience else None
          | _, _ => None
          end in
        let* mh := keras_fit m (model_params self) X_train y_train validation early_stopping in
        Ok (with_model self (KerasModel mh.1) (Some mh.2))
    | _ => Raise (TypeError "Model is not a Keras model after build attempt.")
    end
  else if bool_decide (model_type self ∈ ["xgboost"; "lightgbm"]) then
    let early_stopping :=
      match validation, model_params self !! "early_stopping_rounds" with
      | Some (X, y), Some rounds => if py_truthy rounds then Some (X, y, rounds) else None
      | _, _ => None
      end in
    match model self with
    | None =>
        Raise (TypeError ("Model for " +:+ model_type self +:+
                          " does not have a fit method or is not initialized."))
    | Some (KerasModel _) =>
        (* Not a state the constructor or [train] produce under a tree model
           type; Keras's [fit] with its own defaults is not modelled. *)
        Raise (LibraryError "keras fit with library defaults")
    | Some (XGBClassifier m) =>
        let fit_params :=
          if decide (model_type self = "xgboost") then early_stopping else None in
        let* m' := xgb_fit m (model_params self) X_train y_train fit_params in
        Ok (with_model self (XGBClassifier m') (history self))
    | Some (LGBMClassifier m) =>
        let fit_params :=
          if decide (model_type self = "lightgbm") then early_stopping else None in
        let* m' := lgbm_fit m (model_params self) X_train y_train fit_params in
        Ok (with_model self (LGBMClassifier m') (history self))
    end
  else
    Raise (ValueError ("Training logic for model type " +:+ model_type self +:+
                       " not implemented.")).

Definition get_model (self : ModelTrainer) : option model_handle := model self.

End Trainer.

Arguments model_type {keras_model xgb_model lgbm_model training_history} m.
Arguments model {keras_model xgb_model lgbm_model training_history} m.
Arguments get_model {keras_model xgb_model lgbm_model training_history} self.

(** ** data_ingestion/firestore_ingestor.py *)

(** The guard of the ingestion loop: a document whose [espInputFeatures] is
    missing or is no dict gets an empty one. *)
Definition ensure_feature_map (doc_data : gmap string pyval) : gmap string pyval :=
  match doc_data !! "espInputFeatures" with
  | Some (PyDict _) => doc_data
  | _ => <["espInputFeatures" := PyDict ∅]> doc_data
  end.

(** [pd.DataFrame()]. *)
Definition empty_frame : DataFrame := {| index := []; columns := [] |}.

Section Ingestion.

(** The Firestore client: the documents of a collection (at most [limit] of
    them), as dicts, or the exception the transport raised; and pandas'
    [json_normalize]. *)
Variable firestore_stream : string -> string -> option Z -> result (list (gmap string pyval)).
Variable json_normalize : list (gmap string pyval) -> result DataFrame.

(** [if limit:] -- a limit of zero is no limit. *)
Definition effective_limit (limit : option Z) : option Z :=
  match limit with
  | Some l => if (l =? 0) then None else Some l
  | None => None
  end.

(** The query of a run comes back without a record: the collection is empty,
    or the fetch failed. *)
Definition yields_no_record (project_id collection_name : string) (limit : option Z) : Prop :=
  match firestore_stream project_id collection_name (effective_limit limit) with
  | Ok (_ :: _) => False
  | Ok [] | Raise _ => True
  end.

(** [fetch_from_firestore(project_id, collection_name, limit)]: every
    exception ends in the empty frame. *)
Definition fetch_from_firestore (project_id collection_name : string) (limit : option Z)
  : DataFrame :=
  match firestore_stream project_id collection_name (effective_limit limit) with
  | Raise _ => empty_frame
  | Ok docs =>
      let data_list := ensure_feature_map <$> docs in
      match data_list with
      | [] => empty_frame
      | _ => match json_normalize data_list with
             | Ok df => df
             | Raise _ => empty_frame
             end
      end
  end.

End Ingestion.

(** ** main_training_pipeline.py *)

(** [dict(pairs)]: a later pair overrides an earlier one with the same key. *)
Definition py_dict {V} (pairs : list (string * V)) : gmap string V :=
  list_to_map (reverse pairs).

(** The hardcoded configuration of [run_pipeline]. *)
Record Config : Type := {
  gcp_project_id : string;
  firestore_collection_train : string;
  max_documents_to_fetch : option Z;
  test_set_size_ratio : float;
  validation_set_size_ratio : float;
  cfg_model_type : string;
  esp_model_version : string;
  target_variable_execution : string;
  target_variable_profitability : string;
  min_acceptable_profit_post_execution_usd : float;
  feature_list_version : string;
  cfg_random_state : option Z;
  neural_network_params : gmap string pyval;
  xgboost_params : gmap string pyval;
  lightgbm_params : gmap string pyval;
  output_model_name_base : string;
  cfg_scaler_type : string
}.

Definition hardcoded_config (project_id : string) : Config := {|
  gcp_project_id := project_id;
  firestore_collection_train := "v10_trade_attempts";
  max_documents_to_fetch := Some 10000;
  test_set_size_ratio := 0x1.999999999999ap-3%float;       (* 0.2 *)
  validation_set_size_ratio := 0x1.999999999999ap-3%float; (* 0.2 *)
  cfg_model_type := "neural_network";
  esp_model_version := "v1.0.0";
  target_variable_execution := "isSuccess_Execution";
  target_variable_profitability := "isSuccess_Profitability";
  min_acceptable_profit_post_execution_usd := 1%float;
  feature_list_version := "v1_0_SSOT_6_3_2";
  cfg_random_state := Some 42;
  neural_network_params :=
    py_dict [("epochs", PyInt 50); ("batch_size", PyInt 32);
             ("learning_rate", PyFloat 0x1.0624dd2f1a9fcp-10%float);   (* 0.001 *)
             ("early_stopping_patience", PyInt 5); ("keras_verbose", PyInt 1)];
  xgboost_params :=
    py_dict [("n_estimators", PyInt 100);
             ("learning_rate", PyFloat 0x1.999999999999ap-5%float);    (* 0.05 *)
             ("max_depth", PyInt 5); ("eval_metric", PyStr "logloss");
             ("early_stopping_rounds", PyInt 10); ("xgb_verbose", PyBool false)];
  lightgbm_params :=
    py_dict [("n_estimators", PyInt 100);
             ("learning_rate", PyFloat 0x1.999999999999ap-5%float);    (* 0.05 *)
             ("num_leaves", PyInt 31); ("metric", PyStr "binary_logloss");
             ("early_stopping_rounds", PyInt 10); ("lgbm_verbose_eval", PyInt (-1))];
  output_model_name_base := "esp_model";
  cfg_scaler_type := "standard"
|}.

(** [config.get(f"{model_type}_params", {})]. *)
Definition params_of (config : Config) : gmap string pyval :=
  if decide (cfg_model_type config = "neural_network") then neural_network_params config
  else if decide (cfg_model_type config = "xgboost") then xgboost_params config
  else if decide (cfg_model_type config = "lightgbm") then lightgbm_params config
  else ∅.

Definition MODEL_OUTPUT_DIR : string := "trained_models".

(** [os.path.join(MODEL_OUTPUT_DIR, name)]. *)
Definition output_path (name : string) : string := MODEL_OUTPUT_DIR +:+ "/" +:+ name.

(** The scaler block of the metadata: the type tag, the parameter mapping and
    the list of names the parameters are keyed by. *)
Record ScalerExport : Type := {
  scaler_type_tag : string;
  scaler_params : gmap string (gmap string float);
  numeric_features_scaled : list string
}.

(** The numeric columns as the export re-identifies them from [X_features_df]. *)
Definition numeric_cols_scaled (X_features_df : DataFrame) : list string :=
  (filter (fun c => is_numeric_dtype c.2 = true) (columns X_features_df)).*1.

(** "Add scaler parameters to metadata": nothing for no scaler or an unfitted
    one. *)
Definition export_scaler (X_features_df : DataFrame) (sc : option scaler)
  : option ScalerExport :=
  let cols := numeric_cols_scaled X_features_df in
  match sc with
  | Some (StandardScaler (Some p)) =>
      Some {| scaler_type_tag := "standard";
              scaler_params := py_dict [("mean", py_dict (zip cols (mean_ p)));
                                        ("scale", py_dict (zip cols (scale_ p)))];
              numeric_features_scaled := cols |}
  | Some (MinMaxScaler (Some p)) =>
      Some {| scaler_type_tag := "minmax";
              scaler_params := py_dict [("min", py_dict (zip cols (data_min_ p)));
                                        ("max", py_dict (zip cols (data_max_ p)))];
              numeric_features_scaled := cols |}
  | _ => None
  end.

(** [metadata["scaler_params"][kind][feature]]. *)
Definition exported_param (e : ScalerExport) (kind feature : string) : option float :=
  scaler_params e !! kind ≫= (fun m => m !! feature).

Record Metadata : Type := {
  md_model_name : string;
  md_model_type : string;
  md_esp_model_version : string;
  md_feature_list_version : string;
  md_training_timestamp : string;
  md_evaluation_results : gmap string pyval;
  md_scaler_path : string;
  md_tfjs_model_path : option string;
  md_native_model_path : option string;
  md_feature_columns_ordered : list string;
  md_scaler : option ScalerExport
}.

(** The lambdas of the labeling stage. *)
Definition label_execution (x : pyval) : pyval :=
  match x with
  | PyStr s => if decide (s = "SUCCESS_ON_CHAIN") then PyInt 1 else PyInt 0
  | _ => PyInt 0
  end.

Definition label_profitability (threshold : float) (x : pyval) : result pyval :=
  match x with
  | PyNone => Ok (PyInt 0)
  | PyFloat f => Ok (if PrimFloat.ltb threshold f then PyInt 1 else PyInt 0)
  | PyInt z => Ok (if PrimFloat.ltb threshold (float_of_Z z) then PyInt 1 else PyInt 0)
  | PyBool b => Ok (if PrimFloat.ltb threshold (float_of_bool b) then PyInt 1 else PyInt 0)
  | _ => Raise (TypeError "'>' not supported between these instances")
  end.

(** [features_df.drop(columns=names, errors='ignore')]. *)
Definition drop_columns (names : list string) (df : DataFrame) : DataFrame :=
  {| index := index df;
     columns := filter (fun c => c.1 ∉ names) (columns df) |}.

Definition zeros (n : nat) : series := SInt64 (replicate n 0).

(** Stage 2: the two target columns written into [raw_df]. *)
Definition label_stage (config : Config) (raw_df : DataFrame) : result DataFrame :=
  let n := length (index raw_df) in
  let execution :=
    match get_column "executionDetails.executionStatus" raw_df with
    | Some s => series_apply label_execution s
    | None => zeros n
    end in
  let raw_df := set_column (target_variable_execution config) execution raw_df in
  let* profitability :=
    match get_column "executionDetails.actualNetProfitLossUsd" raw_df with
    | Some s =>
        let* cells := mapM (label_profitability
                              (min_acceptable_profit_post_execution_usd config))
                        (series_cells s) in
        Ok (infer_objects cells)
    | None => Ok (zeros n)
    end in
  Ok (set_column (target_variable_profitability config) profitability raw_df).

Section Pipeline.

(** The collaborators of one run, as the sections above name them. *)
Variable int_of_str : string -> option Z.
Variable series_mode : list pyval -> list pyval.
Variable timestamp : Type.
Variable to_datetime : pyval -> option timestamp.
Variable dt_hour dt_dayofweek : timestamp -> Z.
Variable np_sin np_cos : float -> float.
Variable rng : Type.
Variable RandomState : Z -> rng.
Variable rng_permutation : rng -> nat -> list nat * rng.
Variable stratified_shuffle_split :
  rng -> series -> nat -> nat -> result (list nat * list nat) * rng.
Variable standard_fit : list float -> standard_column.
Variable minmax_fit : list float -> minmax_column.
Variables keras_model xgb_model lgbm_model training_history : Type.
Variable keras_build : gmap string pyval -> result keras_model.
Variable xgb_new : option Z -> gmap string pyval -> result xgb_model.
Variable lgbm_new : option Z -> gmap string pyval -> result lgbm_model.
Variable keras_fit :
  keras_model -> gmap string pyval -> DataFrame -> Series ->
  option (DataFrame * Series) -> option pyval -> result (keras_model * training_history).
Variable xgb_fit :
  xgb_model -> gmap string pyval -> DataFrame -> Series ->
  option (DataFrame * Series * pyval) -> result xgb_model.
Variable lgbm_fit :
  lgbm_model -> gmap string pyval -> DataFrame -> Series ->
  option (DataFrame * Series * pyval) -> result lgbm_model.
Variable firestore_stream : string -> string -> option Z -> result (list (gmap string pyval)).
Variable json_normalize : list (gmap string pyval) -> result DataFrame.

(** [evaluator.evaluate_model] (it catches its own exceptions), the
    TensorFlow.js converter (whether it wrote the model), the environment
    variable [GCP_PROJECT_ID], and the two readings of the clock. *)
Variable evaluate_model :
  model_handle keras_model xgb_model lgbm_model -> option DataFrame -> Series -> string ->
  gmap string pyval.
Variable tfjs_save : keras_model -> string -> bool.
Variable env_gcp_project_id : option string.
Variable now_strftime now_isoformat : string.

Abbreviation handle := (model_handle keras_model xgb_model lgbm_model).

(** What a run leaves behind: the stage banners it printed, the halting
    message, and the files it wrote. *)
Inductive artifact : Type :=
| TfjsModel (m : keras_model)
| NativeModel (m : handle)
| ScalerBlob (sc : option scaler)
| MetadataDocument (md : Metadata).

Inductive event : Type :=
| EvMakedirs (path : string)
| EvStage (n : nat) (title : string)
| EvPrint (msg : string)
| EvWrite (path : string) (a : artifact).

Record world : Type := {
  events : list event;
  np_random : rng
}.

(** Effects: a run threads the world and stops at the first exception. *)
Definition io (A : Type) : Type := world -> result A * world.

Definition io_ret {A} (a : A) : io A := fun w => (Ok a, w).

Definition io_bind {A B} (m : io A) (k : A -> io B) : io B :=
  fun w => match m w with
           | (Ok a, w') => k a w'
           | (Raise e, w') => (Raise e, w')
           end.

Notation "'let!' x ':=' m 'in' k" := (io_bind m (fun x => k))
  (at level 10, x name, m at level 100, k at level 200).

Definition emit (e : event) : io unit :=
  fun w => (Ok tt, {| events := events w ++ [e]; np_random := np_random w |}).

Definition lift {A} (r : result A) : io A := fun w => (r, w).

(** A call of [split_data] without a validation fraction, as the run makes it. *)
Definition split_train_test (X : DataFrame) (y : Series) (test_size : float)
  (random_state : option Z) : io (DataFrame * DataFrame * Series * Series) :=
  fun w =>
    let (r, g) := split_data rng RandomState rng_permutation stratified_shuffle_split
                    (np_random w) X y test_size None random_state (Some y) in
    let w' := {| events := events w; np_random := g |} in
    match r with
    | Ok (TrainTest X_train X_test y_train y_test) => (Ok (X_train, X_test, y_train, y_test), w')
    | Ok (TrainValTest _ _ _ _ _ _) => (Raise (ValueError "too many values to unpack"), w')
    | Raise e => (Raise e, w')
    end.

(** Stage 7 for the model: TensorFlow.js for the network, joblib otherwise. *)
Definition save_model (config : Config) (model_name : string) (m : option handle)
  : io (option string * option string) :=
  if decide (cfg_model_type config = "neural_network") then
    let tfjs_model_path := output_path (model_name +:+ "_tfjs") in
    match m with
    | Some (KerasModel _ _ _ km) =>
        if tfjs_save km tfjs_model_path
        then let! _ := emit (EvWrite tfjs_model_path (TfjsModel km)) in
             io_ret (Some tfjs_model_path, None)
        else io_ret (Some tfjs_model_path, None)
    | _ => io_ret (Some tfjs_model_path, None)
    end
  else
    let native_model_path := output_path (model_name +:+ ".joblib") in
    match m with
    | Some h =>
        let! _ := emit (EvWrite native_model_path (NativeModel h)) in
        io_ret (None, Some native_model_path)
    | None => io_ret (None, Some native_model_path)
    end.

(** The stages after ingestion, for a frame that is not empty. *)
Definition run_stages (config : Config) (raw_df : DataFrame) : io unit :=
  let! _ := emit (EvStage 2 "Labeling") in
  let! raw_df := lift (label_stage config raw_df) in
  let! _ := emit (EvStage 3 "Feature Engineering") in
  let! features_df :=
    lift (generate_features int_of_str series_mode timestamp to_datetime
            dt_hour dt_dayofweek np_sin np_cos raw_df (feature_list_version config)) in
  let! y_target_values :=
    lift (match get_column (target_variable_execution config) features_df with
          | Some s => Ok s
          | None => Raise (KeyError (target_variable_execution config))
          end) in
  let y_target_series := {| sindex := index features_df; values := y_target_values |} in
  let X_features_df :=
    drop_columns [target_variable_execution config; target_variable_profitability config]
      features_df in
  let! _ := emit (EvStage 4 "Data Preprocessing") in
  let! s1 := split_train_test X_features_df y_target_series
               (test_set_size_ratio config) (cfg_random_state config) in
  let '(X_train_val, X_temp_test, y_train_val, y_temp_test) := s1 in
  let! s2 := split_train_test X_train_val y_train_val
               (validation_set_size_ratio config) (cfg_random_state config) in
  let '(X_train, X_val, y_train, y_val) := s2 in
  let X_test := X_temp_test in
  let y_test := y_temp_test in
  let! scaled :=
    lift (scale_features standard_fit minmax_fit X_train (Some X_test) (Some X_val)
            (cfg_scaler_type config) None) in
  let '(X_train_scaled, X_test_scaled, X_val_scaled, sc) := scaled in
  let! _ := emit (EvStage 5 "Model Training") in
  let! model_trainer_instance :=
    lift (ModelTrainer_init keras_model xgb_model lgbm_model training_history
            keras_build xgb_new lgbm_new
            (cfg_model_type config) (Some (params_of config)) (cfg_random_state config)) in
  let! model_trainer_instance :=
    lift (train keras_model xgb_model lgbm_model training_history
            keras_build keras_fit xgb_fit lgbm_fit
            model_trainer_instance X_train_scaled y_train X_val_scaled (Some y_val)) in
  let! _ := emit (EvStage 6 "Model Evaluation") in
  let trained_model_instance := get_model model_trainer_instance in
  let evaluation_results :=
    match trained_model_instance with
    | Some m => evaluate_model m X_test_scaled y_test (cfg_model_type config)
    | None => {["error" := PyStr "Model training failed or model not returned."]}
    end in
  let! _ := emit (EvStage 7 "Model Serialization") in
  let model_name :=
    output_model_name_base config +:+ "_" +:+ cfg_model_type config +:+ "_" +:+
    esp_model_version config +:+ "_" +:+ now_strftime in
  let! paths := save_model config model_name trained_model_instance in
  let scaler_path := output_path (model_name +:+ "_scaler.joblib") in
  let! _ := emit (EvWrite scaler_path (ScalerBlob sc)) in
  let metadata := {|
    md_model_name := model_name;
    md_model_type := cfg_model_type config;
    md_esp_model_version := esp_model_version config;
    md_feature_list_version := feature_list_version config;
    md_training_timestamp := now_isoformat;
    md_evaluation_results := evaluation_results;
    md_scaler_path := scaler_path;
    md_tfjs_model_path := paths.1;
    md_native_model_path := paths.2;
    md_feature_columns_ordered := column_names X_features_df;
    md_scaler := export_scaler X_features_df sc
  |} in
  let metadata_path := output_path (model_name +:+ "_metadata.json") in
  let! _ := emit (EvWrite metadata_path (MetadataDocument metadata)) in
  emit (EvPrint "--- ML Training Pipeline Finished (mock execution) ---").

(** [run_pipeline(config_path)]; the path is not read. *)
Definition run_pipeline_with (config : Config) : io unit :=
  let! _ := emit (EvStage 1 "Data Ingestion") in
  let raw_df :=
    fetch_from_firestore firestore_stream json_normalize
      (gcp_project_id config) (firestore_collection_train config)
      (max_documents_to_fetch config) in
  if df_empty raw_df then
    emit (EvPrint "No data fetched (mock response was empty). Exiting.")
  else run_stages config raw_df.

Definition run_pipeline (config_path : string) : io unit :=
  run_pipeline_with (hardcoded_config (default "your-gcp-project-id" env_gcp_project_id)).

(** Running the module as a script: the import creates the output directory,
    then the pipeline runs. *)
Definition main : io unit :=
  let! _ := emit (EvMakedirs MODEL_OUTPUT_DIR) in
  run_pipeline "dummy_config_path_for_now".

(** The files a run wrote. *)
Definition files_written (w : world) : list string :=
  omap (fun e => match e with EvWrite path _ => Some path | _ => None end) (events w).

Definition stages_entered (w : world) : list nat :=
  omap (fun e => match e with EvStage n _ => Some n | _ => None end) (events w).

End Pipeline.


Arguments events {rng keras_model xgb_model lgbm_model} w.
Arguments np_random {rng keras_model xgb_model lgbm_model} w.
Arguments files_written {rng keras_model xgb_model lgbm_model} w.
Arguments stages_entered {rng keras_model xgb_model lgbm_model} w.
Arguments EvMakedirs {keras_model xgb_model lgbm_model} path.
Arguments EvStage {keras_model xgb_model lgbm_model} n title.
Arguments EvPrint {keras_model xgb_model lgbm_model} msg.
Arguments EvWrite {keras_model xgb_model lgbm_model} path a.

(** ** Sample collaborators and data

    Small stand-ins for the libraries, and a handful of documents, on which
    the model runs to a value. *)

Module Sample.

Definition int_of_str (s : string) : option Z := None.

(** The most frequent strings of a column, in order of first appearance. *)
Definition series_mode (v : list pyval) : list pyval :=
  let strs := omap (fun c => match c with PyStr s => Some s | _ => None end) v in
  let count s := length (filter (fun t => t = s) strs) in
  let best := max_list (count <$> strs) in
  PyStr <$> remove_dups (filter (fun s => count s = best) strs).

(** Timestamps as seconds since the epoch (a Thursday); a column with gaps
    holds them as floats. *)
Definition to_datetime (v : pyval) : option Z :=
  match v with
  | PyInt secs => Some secs
  | PyFloat f => float_trunc f
  | _ => None
  end.
Definition dt_hour (secs : Z) : Z := (secs / 3600) mod 24.
Definition dt_dayofweek (secs : Z) : Z := (secs / 86400 + 3) mod 7.

(** Polynomial stand-ins for the sine and the cosine. *)
Definition np_sin (x : float) : float := (x - x * x * x / 6)%float.
Definition np_cos (x : float) : float := (1 - x * x / 2)%float.

(** A generator that counts its draws, and shuffles by rotating. *)
Definition RandomState (seed : Z) : nat := Z.to_nat seed.
Definition rng_permutation (r : nat) (n : nat) : list nat * nat :=
  (rotate r (seq 0 n), S r).
Definition stratified_shuffle_split (r : nat) (labels : series) (n_train n_test : nat)
  : result (list nat * list nat) * nat :=
  let p := rotate r (seq 0 (n_train + n_test)) in
  (Ok (drop n_test p, take n_test p), S r).

Definition float_sum (l : list float) : float := foldr PrimFloat.add 0%float l.
Definition float_len (l : list float) : float := float_of_Z (Z.of_nat (length l)).

Definition standard_fit (col : list float) : standard_column :=
  let mean := (float_sum col / float_len col)%float in
  let var := (float_sum ((fun x => (x - mean) * (x - mean))%float <$> col) / float_len col)%float in
  let std := PrimFloat.sqrt var in
  {| col_mean := mean; col_scale := if PrimFloat.eqb std 0 then 1%float else std |}.

Definition minmax_fit (col : list float) : minmax_column :=
  let lo := foldr (fun x m => if PrimFloat.ltb x m then x else m) infinity col in
  let hi := foldr (fun x m => if PrimFloat.ltb m x then x else m) neg_infinity col in
  let range := (hi - lo)%float in
  let scale := (1 / (if PrimFloat.eqb range 0 then 1 else range))%float in
  {| col_data_min := lo; col_data_max := hi; col_mm_scale := scale;
     col_mm_min := (0 - lo * scale)%float |}.

Definition keras_build (params : gmap string pyval) : result unit := Ok tt.
Definition xgb_new (random_state : option Z) (params : gmap string pyval) : result unit := Ok tt.
Definition lgbm_new (random_state : option Z) (params : gmap string pyval) : result unit := Ok tt.
Definition keras_fit (m : unit) (params : gmap string pyval) (X : DataFrame) (y : Series)
  (validation : option (DataFrame * Series)) (early_stopping : option pyval)
  : result (unit * unit) := Ok (tt, tt).
Definition tree_fit (m : unit) (params : gmap string pyval) (X : DataFrame) (y : Series)
  (early_stopping : option (DataFrame * Series * pyval)) : result unit := Ok tt.
Definition evaluate_model (m : model_handle unit unit unit) (X : option DataFrame) (y : Series)
  (model_type : string) : gmap string pyval := {["accuracy" := PyFloat 1%float]}.
Definition tfjs_save (m : unit) (path : string) : bool := true.

(** [json_normalize] for documents nested one level deep: a field that holds
    a mapping is replaced by one field per entry, named by the dotted path
    (a field that holds the empty mapping disappears); the frame has one
    column per field, with NaN where a document has no such field. *)
Definition flatten_doc (d : gmap string pyval) : list (string * pyval) :=
  mjoin ((fun kv : string * pyval =>
            match kv.2 with
            | PyDict m =>
                (fun e : string * pyval => (kv.1 +:+ "." +:+ e.1, e.2)) <$> map_to_list m
            | _ => [kv]
            end) <$> map_to_list d).

Definition json_normalize (docs : list (gmap string pyval)) : result DataFrame :=
  let records := flatten_doc <$> docs in
  let keys := remove_dups (mjoin ((fun r : list (string * pyval) => r.*1) <$> records)) in
  let column key :=
    infer_objects ((fun r : list (string * pyval) =>
                      default (PyFloat np_nan) ((list_to_map r : gmap string pyval) !! key))
                     <$> records) in
  Ok {| index := seqZ 0 (Z.of_nat (length docs));
        columns := (fun key => (key, column key)) <$> keys |}.

Definition doc (profit gas : float) (status : string) (pnl : float) : gmap string pyval :=
  list_to_map
    [("espInputFeatures",
      PyDict (list_to_map [("estimatedNetProfitUsd_PreEsp", PyFloat profit);
                           ("estimatedGasCostUsd_Initial", PyFloat gas);
                           ("usesFlashLoan", PyBool true);
                           ("pathTokenAddress_0", PyStr "WETH_ADDR")]));
     ("attemptTimestamp", PyInt 1672567200);
     ("executionDetails",
      PyDict (list_to_map [("executionStatus", PyStr status);
                           ("actualNetProfitLossUsd", PyFloat pnl)]))].

(** A document without a feature map. *)
Definition bare_doc (status : string) : gmap string pyval :=
  list_to_map [("executionDetails", PyDict (list_to_map [("executionStatus", PyStr status)]))].

Definition documents : list (gmap string pyval) :=
  [doc 100 10 "SUCCESS_ON_CHAIN" 90; doc 5 8 "REVERTED" (-8);
   doc 40 0 "SUCCESS_ON_CHAIN" 30; bare_doc "DROPPED";
   doc 12 3 "SUCCESS_ON_CHAIN" 7; doc 9 4 "REVERTED" (-4)].

Definition firestore_stream (project_id collection_name : string) (limit : option Z)
  : result (list (gmap string pyval)) :=
  if decide (collection_name = "v10_trade_attempts") then Ok documents
  else if decide (collection_name = "empty") then Ok []
  else Raise (LibraryError "collection not reachable").

Definition raw_df : DataFrame :=
  fetch_from_firestore firestore_stream json_normalize "project" "v10_trade_attempts" None.

(** A raw frame that has a column of feature maps, as a caller of
    [generate_features] can pass it: the second record has no feature map
    (pandas holds NaN there) and the third has a string in its place. *)
Definition ragged_df : DataFrame := {|
  index := [0; 1; 2];
  columns := [("espInputFeatures",
               SObject [PyDict (list_to_map [("estimatedNetProfitUsd_PreEsp", PyFloat 100);
                                             ("estimatedGasCostUsd_Initial", PyFloat 10);
                                             ("usesFlashLoan", PyBool true);
                                             ("pathTokenAddress_0", PyStr "WETH_ADDR")]);
                        PyFloat np_nan;
                        PyStr "n/a"])]
|}.

(** A feature matrix with a float, an integer and a string column, a missing
    value in the first and nothing present in the fourth. *)
Definition X : DataFrame := {|
  index := [0; 1; 2; 3];
  columns := [("profit", SFloat64 [1; np_nan; 3; 8]%float);
              ("hops", SInt64 [2; 3; 2; 4]);
              ("venue", SObject [PyStr "a"; PyStr "b"; PyNone; PyStr "a"]);
              ("age", SFloat64 [np_nan; np_nan; np_nan; np_nan])]
|}.

Definition y : Series := {| sindex := [0; 1; 2; 3]; values := SInt64 [1; 0; 1; 0] |}.

(** The same matrix with a boolean column in front. *)
Definition X_with_bool : DataFrame := {|
  index := [0; 1; 2; 3];
  columns := ("fresh", SBool [true; false; true; true]) :: columns X
|}.

(** The world before a run. *)
Definition start : world nat unit unit unit := {| events := []; np_random := 0%nat |}.

(** A run of the pipeline on the sample collaborators. *)
Definition run (config : Config) : result unit * world nat unit unit unit :=
  run_pipeline_with int_of_str series_mode Z to_datetime dt_hour dt_dayofweek
    np_sin np_cos nat RandomState rng_permutation stratified_shuffle_split
    standard_fit minmax_fit unit unit unit unit
    keras_build xgb_new lgbm_new keras_fit tree_fit tree_fit
    firestore_stream json_normalize evaluate_model tfjs_save
    "20230101_100000" "2023-01-01T10:00:00" config start.

(** The configuration with another model type. *)
Definition with_model_type (mt : string) (c : Config) : Config := {|
  gcp_project_id := gcp_project_id c;
  firestore_collection_train := firestore_collection_train c;
  max_documents_to_fetch := max_documents_to_fetch c;
  test_set_size_ratio := test_set_size_ratio c;
  validation_set_size_ratio := validation_set_size_ratio c;
  cfg_model_type := mt;
  esp_model_version := esp_model_version c;
  target_variable_execution := target_variable_execution c;
  target_variable_profitability := target_variable_profitability c;
  min_acceptable_profit_post_execution_usd := min_acceptable_profit_post_execution_usd c;
  feature_list_version := feature_list_version c;
  cfg_random_state := cfg_random_state c;
  neural_network_params := neural_network_params c;
  xgboost_params := xgboost_params c;
  lightgbm_params := lightgbm_params c;
  output_model_name_base := output_model_name_base c;
  cfg_scaler_type := cfg_scaler_type c
|}.

(** A run on a collection that holds the given documents. *)
Definition run_on (docs : list (gmap string pyval)) (config : Config)
  : result unit * world nat unit unit unit :=
  run_pipeline_with int_of_str series_mode Z to_datetime dt_hour dt_dayofweek
    np_sin np_cos nat RandomState rng_permutation stratified_shuffle_split
    standard_fit minmax_fit unit unit unit unit
    keras_build xgb_new lgbm_new keras_fit tree_fit tree_fit
    (fun _ _ _ => Ok docs) json_normalize evaluate_model tfjs_save
    "20230101_100000" "2023-01-01T10:00:00" config start.

(** A raw frame with one feature map per record. *)
Definition frame_of_maps (maps : list pyval) : DataFrame :=
  {| index := seqZ 0 (Z.of_nat (length maps));
     columns := [("espInputFeatures", SObject maps)] |}.


(** A record without a feature map beside one whose flash-loan flag is null. *)
Definition mixed_df : DataFrame :=
  frame_of_maps [PyFloat np_nan; PyDict {["usesFlashLoan" := PyNone]}].


End Sample.

(** ** evaluation/evaluator.py *)

Module Evaluator.

(** A numpy array as a prediction method returns it: floating or integer, with
    one axis, or with two (its rows, and the length the rows share). *)
Inductive ndarray : Type :=
| FloatArray1 (v : list float)
| IntArray1 (v : list Z)
| FloatArray2 (width : nat) (rows : list (list float))
| IntArray2 (width : nat) (rows : list (list Z)).

(** [np.issubdtype(a.dtype, np.floating)] and [a.ndim]. *)
Definition is_floating (a : ndarray) : bool :=
  match a with
  | FloatArray1 _ | FloatArray2 _ _ => true
  | IntArray1 _ | IntArray2 _ _ => false
  end.

Definition ndim (a : ndarray) : nat :=
  match a with
  | FloatArray1 _ | IntArray1 _ => 1
  | FloatArray2 _ _ | IntArray2 _ _ => 2
  end.

(** [a.ravel()]: the rows one after the other. *)
Definition ravel (a : ndarray) : ndarray :=
  match a with
  | FloatArray2 _ rows => FloatArray1 (concat rows)
  | IntArray2 _ rows => IntArray1 (concat rows)
  | _ => a
  end.

(** The entries of an array, in the order of [ravel]. *)
Definition float_entries (a : ndarray) : list float :=
  match a with
  | FloatArray1 v => v
  | FloatArray2 _ rows => concat rows
  | _ => []
  end.

Definition int_entries (a : ndarray) : list Z :=
  match a with
  | IntArray1 v => v
  | IntArray2 _ rows => concat rows
  | _ => []
  end.

(** [a[:, 1]]: numpy's [IndexError] for an array with one axis, or with fewer
    than two columns. *)
Definition column_1 (a : ndarray) : result ndarray :=
  match a with
  | FloatArray1 _ | IntArray1 _ =>
      Raise (LibraryError
        "too many indices for array: array is 1-dimensional, but 2 were indexed")
  | FloatArray2 width rows =>
      match width with
      | 0%nat => Raise (LibraryError "index 1 is out of bounds for axis 1 with size 0")
      | 1%nat => Raise (LibraryError "index 1 is out of bounds for axis 1 with size 1")
      | _ => Ok (FloatArray1 ((fun row => nth 1 row np_nan) <$> rows))
      end
  | IntArray2 width rows =>
      match width with
      | 0%nat => Raise (LibraryError "index 1 is out of bounds for axis 1 with size 0")
      | 1%nat => Raise (LibraryError "index 1 is out of bounds for axis 1 with size 1")
      | _ => Ok (IntArray1 ((fun row => nth 1 row 0) <$> rows))
      end
  end.

(** One entry of [(a > 0.5).astype(int)]: a comparison with NaN is false; an
    integer is above 0.5 when it is positive. *)
Definition above_half (x : float) : Z := if PrimFloat.ltb 0.5 x then 1 else 0.
Definition int_above_half (z : Z) : Z := if (0 <? z) then 1 else 0.

(** [(a > 0.5).astype(int)]. *)
Definition threshold_classes (a : ndarray) : ndarray :=
  match a with
  | FloatArray1 v => IntArray1 (above_half <$> v)
  | IntArray1 v => IntArray1 (int_above_half <$> v)
  | FloatArray2 width rows => IntArray2 width ((fun row : list float => above_half <$> row) <$> rows)
  | IntArray2 width rows => IntArray2 width ((fun row : list Z => int_above_half <$> row) <$> rows)
  end.

(** [a.astype(float)]. *)
Definition astype_float (a : ndarray) : ndarray :=
  match a with
  | IntArray1 v => FloatArray1 (float_of_Z <$> v)
  | IntArray2 width rows => FloatArray2 width ((fun row : list Z => float_of_Z <$> row) <$> rows)
  | _ => a
  end.

(** One entry of [a == a.astype(bool)]: [bool(x)] is [x != 0], and [True]
    compares as 1. *)
Definition float_is_its_bool (x : float) : bool :=
  PrimFloat.eqb x (if PrimFloat.eqb x 0 then 0 else 1).

Definition int_is_its_bool (z : Z) : bool := (z =? (if (z =? 0) then 0 else 1)).

(** [np.array_equal(a, a.astype(bool))]. *)
Definition array_equal_astype_bool (a : ndarray) : bool :=
  match a with
  | FloatArray1 v => forallb float_is_its_bool v
  | IntArray1 v => forallb int_is_its_bool v
  | FloatArray2 _ rows => forallb float_is_its_bool (concat rows)
  | IntArray2 _ rows => forallb int_is_its_bool (concat rows)
  end.

(** Two floats that [np.unique] keeps as one value: equal (as 0.0 and -0.0
    are), or both NaN. *)
Definition same_float (x y : float) : bool :=
  PrimFloat.eqb x y || (PrimFloat.is_nan x && PrimFloat.is_nan y).

(** The values [np.unique] keeps (it returns them sorted; the evaluator only
    takes their number). *)
Fixpoint unique {A} (same : A -> A -> bool) (v : list A) : list A :=
  match v with
  | [] => []
  | x :: v' =>
      let u := unique same v' in
      if existsb (same x) u then u else x :: u
  end.

(** [len(np.unique(a))]. *)
Definition unique_count (a : ndarray) : nat :=
  if is_floating a then length (unique same_float (float_entries a))
  else length (unique Z.eqb (int_entries a)).

(** [not (np.array_equal(p, p.astype(bool)) and len(np.unique(p)) <= 2)]. *)
Definition is_proba_meaningful (y_pred_proba : ndarray) : bool :=
  negb (array_equal_astype_bool y_pred_proba && (unique_count y_pred_proba <=? 2)%nat).

(** [except ValueError]: scikit-learn's [NotFittedError] is a [ValueError]; a
    [ZeroDivisionError] or an exception of a library's own class is not. *)
Definition is_value_error (e : exn) : bool :=
  match e with
  | ValueError _ | NotFittedError => true
  | TypeError _ | KeyError _ | ZeroDivisionError _ | LibraryError _ => false
  end.

(** The model object that is evaluated: a [keras.Model], which has [predict],
    or another object, which has [predict_proba], [predict], both or neither.
    A method takes [X_test] and returns an array, or raises; a method that
    returns something else than an array makes the evaluator raise where it
    uses the result, and counts as one that raises. *)
Inductive predictor : Type :=
| KerasPredictor
    (predict : option DataFrame -> result ndarray)
    (predict_proba : option (option DataFrame -> result ndarray))
| OtherPredictor
    (predict_proba : option (option DataFrame -> result ndarray))
    (predict : option (option DataFrame -> result ndarray)).

(** The fallback of the evaluator on what [predict] returned. *)
Definition predictions_as_probabilities (y_pred_class_for_proba : ndarray) : ndarray :=
  if is_floating y_pred_class_for_proba then
    if (1 <? ndim y_pred_class_for_proba)%nat
    then ravel y_pred_class_for_proba
    else y_pred_class_for_proba
  else y_pred_class_for_proba.

(** The first part of the first [try] block: [y_pred_proba].  Every branch
    assigns an array to it or raises, so that the [elif] and the [else] after
    [if y_pred_proba is not None] in the source are never taken. *)
Definition predict_probabilities (model : predictor) (X_test : option DataFrame)
  (model_type : string) : result ndarray :=
  match model with
  | KerasPredictor predict predict_proba =>
      if decide (model_type = "neural_network") then
        let* a := predict X_test in Ok (ravel a)
      else
        match predict_proba with
        | Some predict_proba => let* a := predict_proba X_test in column_1 a
        | None =>
            let* y_pred_class_for_proba := predict X_test in
            Ok (predictions_as_probabilities y_pred_class_for_proba)
        end
  | OtherPredictor predict_proba predict =>
      match predict_proba with
      | Some predict_proba => let* a := predict_proba X_test in column_1 a
      | None =>
          match predict with
          | Some predict =>
              let* y_pred_class_for_proba := predict X_test in
              Ok (predictions_as_probabilities y_pred_class_for_proba)
          | None =>
              Raise (ValueError ("Model type " +:+ model_type +:+
                                 " has neither 'predict_proba' nor 'predict' method."))
          end
      end
  end.

(** The confusion matrix as it is stored: four named counts when the matrix
    has four entries, the raw matrix otherwise. *)
Definition confusion_entry (cm : list (list Z)) : pyval :=
  match concat cm with
  | [tn; fp; fn; tp] =>
      PyDict (list_to_map [("tn", PyInt tn); ("fp", PyInt fp);
                           ("fn", PyInt fn); ("tp", PyInt tp)])
  | _ => PyDict {["raw_matrix" := PyList ((fun row => PyList (PyInt <$> row)) <$> cm)]}
  end.

Section Evaluate.

(** scikit-learn's metrics (three of them called with [zero_division=0]), each
    from the true labels and an array of predictions, and Python's [str] on an
    exception. *)
Variable accuracy_score precision_score recall_score f1_score roc_auc_score log_loss :
  Series -> ndarray -> result float.
Variable confusion_matrix : Series -> ndarray -> result (list (list Z)).
Variable exn_str : exn -> string.

(** [results[key] = value] inside the second [try] block, and the statements
    [rest] that follow it: an exception ends the block and leaves its text
    under "error_metrics_calculation", beside what was stored before. *)
Definition store (key : string) (value : result pyval)
  (rest : gmap string pyval -> gmap string pyval) (results : gmap string pyval)
  : gmap string pyval :=
  match value with
  | Ok v => rest (<[key := v]> results)
  | Raise e => <["error_metrics_calculation" := PyStr (exn_str e)]> results
  end.

(** The inner [try] of the branch for hard predictions: a [ValueError] of
    [log_loss] is stored as a text, any other exception ends the outer block. *)
Definition log_loss_of_classes (y_test : Series) (y_pred_class : ndarray) : result pyval :=
  match log_loss y_test (astype_float y_pred_class) with
  | Ok v => Ok (PyFloat v)
  | Raise log_loss_err =>
      if is_value_error log_loss_err then
        Ok (PyStr ("Error: " +:+ exn_str log_loss_err +:+
                   " (likely due to non-probabilistic input)"))
      else Raise log_loss_err
  end.

(** The second [try] block. *)
Definition compute_metrics (y_test : Series) (y_pred_proba y_pred_class : ndarray)
  : gmap string pyval :=
  let confusion :=
    store "confusion_matrix"
      (let* cm := confusion_matrix y_test y_pred_class in Ok (confusion_entry cm)) id in
  let float_of (r : result float) : result pyval := let* v := r in Ok (PyFloat v) in
  store "accuracy" (float_of (accuracy_score y_test y_pred_class))
    (store "precision" (float_of (precision_score y_test y_pred_class))
       (store "recall" (float_of (recall_score y_test y_pred_class))
          (store "f1_score" (float_of (f1_score y_test y_pred_class))
             (if is_proba_meaningful y_pred_proba then
                store "roc_auc" (float_of (roc_auc_score y_test y_pred_proba))
                  (store "log_loss" (float_of (log_loss y_test y_pred_proba)) confusion)
              else
                store "roc_auc" (float_of (roc_auc_score y_test y_pred_class))
                  (store "log_loss" (log_loss_of_classes y_test y_pred_class) confusion)))))
    ∅.

(** [evaluate_model(model, X_test, y_test, model_type)]. *)
Definition evaluate_model (model : predictor) (X_test : option DataFrame) (y_test : Series)
  (model_type : string) : gmap string pyval :=
  match predict_probabilities model X_test model_type with
  | Raise e => {["error_prediction" := PyStr (exn_str e)]}
  | Ok y_pred_proba =>
      let y_pred_class := threshold_classes y_pred_proba in
      compute_metrics y_test y_pred_proba y_pred_class
  end.

End Evaluate.

End Evaluator.
(** * Properties *)

(** ** The error monad and list traversals *)

Lemma rbind_ok {A B} (m : result A) (k : A -> result B) (b : B) :
  rbind m k = Ok b -> exists a, m = Ok a /\ k a = Ok b.
Proof. destruct m as [a|e]; simpl; [eauto | discriminate]. Qed.

Lemma mapM_cons {A B} (f : A -> result B) (x : A) (l : list A) :
  mapM f (x :: l) =
  match f x with
  | Ok y => match mapM f l with Ok k => Ok (y :: k) | Raise e => Raise e end
  | Raise e => Raise e
  end.
Proof. reflexivity. Qed.

Lemma mapM_ok_lookup {A B} (f : A -> result B) (l : list A) (l' : list B) :
  mapM f l = Ok l' ->
  length l' = length l /\
  forall i x, l !! i = Some x -> exists y, f x = Ok y /\ l' !! i = Some y.
Proof.
  revert l'. induction l as [|a l IH]; intros l' H.
  - injection H as <-. split; [reflexivity | intros i x Hx; discriminate].
  - rewrite mapM_cons in H.
    destruct (f a) as [y|e] eqn:Ha; [|discriminate].
    destruct (mapM f l) as [k|e] eqn:Hl; [|discriminate].
    injection H as <-. destruct (IH k eq_refl) as [Hlen Hk].
    split; [simpl; congruence|].
    intros [|i] x Hx; simpl in *.
    + injection Hx as <-. eauto.
    + eauto.
Qed.

Lemma mapM_ok_all {A B} (f : A -> result B) (l : list A) :
  Forall (fun x => is_ok (f x) = true) l -> exists l', mapM f l = Ok l'.
Proof.
  induction 1 as [|a l Ha _ [k Hk]]; [by exists []|].
  rewrite mapM_cons, Hk. destruct (f a) as [y|e]; [eauto | discriminate].
Qed.

(** ** Columns of a frame *)

Lemma lookup_assign_eq name s cols :
  lookup_column name (assign name s cols) = Some s.
Proof.
  induction cols as [|[n c] cols IH]; simpl.
  - by rewrite decide_True.
  - destruct (decide (n = name)) as [->|Hne]; simpl.
    + by rewrite decide_True.
    + by rewrite decide_False.
Qed.

Lemma lookup_assign_ne name name' s cols :
  name <> name' -> lookup_column name' (assign name s cols) = lookup_column name' cols.
Proof.
  intros Hne. induction cols as [|[n c] cols IH]; simpl.
  - by rewrite decide_False.
  - destruct (decide (n = name)) as [->|Hn]; simpl.
    + by rewrite !decide_False.
    + destruct (decide (n = name')); [done | apply IH].
Qed.

Lemma get_set_column_eq name s df : get_column name (set_column name s df) = Some s.
Proof. apply lookup_assign_eq. Qed.

Lemma get_set_column_ne name name' s df :
  name <> name' -> get_column name' (set_column name s df) = get_column name' df.
Proof. apply lookup_assign_ne. Qed.

(** ** binary64 facts *)

Lemma SFeqb_refl_not_nan (f : spec_float) : f <> S754_nan -> SFeqb f f = true.
Proof.
  intros Hf. unfold SFeqb. destruct f as [s|s| |s m e]; simpl; try done.
  - by destruct s.
  - rewrite Z.compare_refl, Pos.compare_cont_refl. by destruct s.
Qed.

(** The primitive floats have one NaN. *)
Lemma is_nan_eq (x : float) : PrimFloat.is_nan x = true -> x = np_nan.
Proof.
  unfold PrimFloat.is_nan. rewrite FloatAxioms.eqb_spec. intros H.
  destruct (Prim2SF x) as [s|s| |s m e] eqn:E;
    try (rewrite SFeqb_refl_not_nan in H; [discriminate | congruence]).
  rewrite <- (SF2Prim_Prim2SF x), E. reflexivity.
Qed.

Lemma np_nan_is_nan : PrimFloat.is_nan np_nan = true.
Proof. reflexivity. Qed.

Lemma float_eqb_zero_cases (x : float) :
  PrimFloat.eqb x 0 = true -> x = 0%float \/ x = (-0)%float.
Proof.
  rewrite FloatAxioms.eqb_spec. intros H.
  rewrite <- (SF2Prim_Prim2SF x).
  destruct (Prim2SF x) as [s|s| |s m e]; try (by destruct s); try done.
  destruct s; [right | left]; reflexivity.
Qed.

(** ** Missing values: [fillna], [dropna], [median] *)

Lemma fillna_lookup (x : float) (v : list float) (i : nat) (c : float) :
  v !! i = Some c -> fillna x v !! i = Some (if PrimFloat.is_nan c then x else c).
Proof. intros H. unfold fillna. by rewrite list_lookup_fmap, H. Qed.


Lemma fillna_no_nan (x : float) (v : list float) :
  bool_any (PrimFloat.is_nan <$> v) = false -> fillna x v = v.
Proof.
  unfold bool_any, fillna. induction v as [|c v IH]; [done|]. simpl.
  destruct (PrimFloat.is_nan c); simpl; [discriminate|]. intros H. f_equal. by apply IH.
Qed.


Lemma dropna_all_nan (v : list float) :
  Forall (fun c => PrimFloat.is_nan c = true) v -> dropna v = [].
Proof.
  induction 1 as [|c v Hc _ IH]; [done|].
  unfold dropna in *. rewrite filter_cons, decide_False; [done | congruence].
Qed.



Lemma median_all_nan (v : list float) :
  Forall (fun c => PrimFloat.is_nan c = true) v -> median v = np_nan.
Proof. intros H. unfold median. by rewrite (dropna_all_nan _ H). Qed.

Lemma fillna_nan_all_nan (v : list float) :
  Forall (fun c => PrimFloat.is_nan c = true) v -> fillna np_nan v = v.
Proof.
  unfold fillna. induction 1 as [|c v Hc _ IH]; [done|].
  simpl. rewrite Hc. f_equal; [symmetry; by apply is_nan_eq | exact IH].
Qed.


Lemma bool_all_true (l : list bool) : bool_all l = true <-> Forall (fun b => b = true) l.
Proof.
  unfold bool_all. rewrite forallb_forall, Forall_forall.
  split; intros H b Hb; apply (H b); by apply list_elem_of_In.
Qed.

(** ** Post-assembly imputation *)

Lemma mapM_raise_elem {A B} (f : A -> result B) (l : list A) (e : exn) :
  mapM f l = Raise e -> exists x, x ∈ l /\ f x = Raise e.
Proof.
  induction l as [|a l IH]; [discriminate|].
  rewrite mapM_cons. destruct (f a) as [y|e'] eqn:Ha.
  - destruct (mapM f l) as [k|e'] eqn:Hl; [discriminate|].
    intros [= <-]. destruct (IH eq_refl) as (x & Hx & Hf).
    exists x. split; [by apply elem_of_cons; right | done].
  - intros [= <-]. exists a. split; [by apply elem_of_cons; left | done].
Qed.

Section Imputation.

Variable series_mode : list pyval -> list pyval.

Lemma impute_column_float (v : list float) :
  impute_column series_mode (SFloat64 v) = Ok (SFloat64 (fillna (median v) v)).
Proof.
  unfold impute_column. simpl.
  destruct (bool_any (PrimFloat.is_nan <$> v)) eqn:H; [done|].
  by rewrite fillna_no_nan.
Qed.

Lemma impute_column_no_null (s : series) :
  bool_any (isnull s) = false -> impute_column series_mode s = Ok s.
Proof. intros H. unfold impute_column. by rewrite H. Qed.

Lemma int_column_no_null (v : list Z) : bool_any (isnull (SInt64 v)) = false.
Proof. unfold bool_any. simpl. induction v; [done | simpl; done]. Qed.


(** The loop body keeps the dtype of the column. *)
Lemma impute_column_dtype (s s' : series) :
  impute_column series_mode s = Ok s' -> dtype_of s' = dtype_of s.
Proof.
  unfold impute_column. destruct (bool_any (isnull s)); [|by intros [= <-]].
  destruct s as [v|v|v|v]; simpl; try (by intros [= <-]).
  destruct (object_mode series_mode v); simpl; [by intros [= <-] | discriminate].
Qed.

(** [mode()] raises exactly when a value that is present cannot be hashed. *)
Lemma object_mode_ok (v : list pyval) :
  Forall (fun c => py_isnull c = true \/ py_hashable c = true) v ->
  object_mode series_mode v = Ok (series_mode v).
Proof.
  intros H. unfold object_mode.
  assert (Hf : filter (fun c => py_isnull c = false /\ py_hashable c = false) v = []).
  { induction H as [|c v Hc _ IH]; [done|]. rewrite filter_cons, decide_False, IH; [done|].
    intros [Hn Hh]. destruct Hc; congruence. }
  by rewrite Hf.
Qed.


(** The frame-level loop imputes each column by itself, in place. *)
Lemma impute_inv (df df' : DataFrame) :
  impute series_mode df = Ok df' ->
  index df' = index df /\
  column_names df' = column_names df /\
  forall name,
    match get_column name df with
    | Some s => exists s', impute_column series_mode s = Ok s' /\ get_column name df' = Some s'
    | None => get_column name df' = None
    end.
Proof.
  unfold impute. intros H. apply rbind_ok in H as (cols & Hcols & [= <-]). simpl.
  split; [done|]. unfold get_column, column_names. simpl.
  revert cols Hcols. induction (columns df) as [|[n c] l IH]; intros cols Hcols.
  { injection Hcols as <-. split; [done|]. by intros name. }
  rewrite mapM_cons in Hcols. simpl in Hcols.
  destruct (impute_column series_mode c) as [c'|e] eqn:Hc; [|discriminate]. simpl in Hcols.
  destruct (mapM _ l) as [k|e] eqn:Hl; [|discriminate]. injection Hcols as <-.
  destruct (IH k eq_refl) as [Hn Hg]. split; [rewrite !fmap_cons; simpl; f_equal; exact Hn|].
  intros name. simpl. destruct (decide (n = name)); [eauto | apply Hg].
Qed.



End Imputation.

(** ** Dtype inference *)

Lemma seen_nan_elem (vals : list pyval) :
  PyFloat np_nan ∈ vals -> seen_nan (foldr see seen_nothing vals) = true.
Proof.
  induction vals as [|v vals IH]; intros H; [by apply elem_of_nil in H|].
  apply elem_of_cons in H as [<-|H]; simpl; [done|].
  specialize (IH H). destruct v as [|b|z|f|s|m|l]; simpl; try done.
  by destruct (PrimFloat.is_nan f).
Qed.

Lemma seen_int_elem (vals : list pyval) (z : Z) :
  PyInt z ∈ vals -> seen_int (foldr see seen_nothing vals) = true.
Proof.
  induction vals as [|v vals IH]; intros H; [by apply elem_of_nil in H|].
  apply elem_of_cons in H as [<-|H]; simpl; [done|].
  specialize (IH H). destruct v as [|b|z'|f|s|m|l]; simpl; try done.
  by destruct (PrimFloat.is_nan f).
Qed.

(** A missing value stays where it is, whatever dtype the column gets. *)
Lemma infer_objects_lookup_nan (vals : list pyval) (i : nat) :
  vals !! i = Some (PyFloat np_nan) ->
  series_cells (infer_objects vals) !! i = Some (PyFloat np_nan).
Proof.
  intros Hi. assert (Hn := seen_nan_elem vals (list_elem_of_lookup_2 _ _ _ Hi)).
  unfold infer_objects. rewrite Hn.
  destruct (seen_object _); [done|].
  destruct (seen_bool _).
  - by rewrite !orb_true_r.
  - simpl. by rewrite list_lookup_fmap, list_lookup_fmap, Hi.
Qed.

Section FeatureExtraction.

Variable int_of_str : string -> option Z.

(** A zero stays a zero through the inference and the cast to [int]. *)
Lemma astype_int_infer_lookup_zero (vals : list pyval) (i : nat) (s : series) :
  vals !! i = Some (PyInt 0) ->
  astype_int int_of_str (infer_objects vals) = Ok s ->
  series_cells s !! i = Some (PyInt 0).
Proof.
  intros Hi. assert (Hn := seen_int_elem vals 0 (list_elem_of_lookup_2 _ _ _ Hi)).
  unfold infer_objects. rewrite Hn.
  destruct (seen_object _).
  { simpl. destruct (mapM _ vals) as [l|e] eqn:Hm; [|discriminate].
    intros [= <-]. destruct (mapM_ok_lookup _ _ _ Hm) as [_ Hl].
    destruct (Hl i _ Hi) as (y & Hy & Hly). injection Hy as <-.
    simpl. by rewrite list_lookup_fmap, Hly. }
  destruct (seen_bool _).
  { rewrite !orb_true_r. simpl.
    destruct (mapM _ vals) as [l|e] eqn:Hm; [|discriminate].
    intros [= <-]. destruct (mapM_ok_lookup _ _ _ Hm) as [_ Hl].
    destruct (Hl i _ Hi) as (y & Hy & Hly). injection Hy as <-.
    simpl. by rewrite list_lookup_fmap, Hly. }
  assert (Hfloat : forall s',
    astype_int int_of_str (SFloat64 (cell_float <$> vals)) = Ok s' ->
    series_cells s' !! i = Some (PyInt 0)).
  { intros s'. simpl. destruct (mapM _ (cell_float <$> vals)) as [l|e] eqn:Hm; [|discriminate].
    intros [= <-]. destruct (mapM_ok_lookup _ _ _ Hm) as [_ Hl].
    destruct (Hl i (cell_float (PyInt 0))) as (y & Hy & Hly).
    { by rewrite list_lookup_fmap, Hi. }
    vm_compute in Hy. injection Hy as <-.
    simpl. by rewrite list_lookup_fmap, Hly. }
  destruct (seen_nan _ || seen_float _); [apply Hfloat|].
  destruct (seen_null _); [apply Hfloat|].
  simpl. intros [= <-]. simpl. by rewrite !list_lookup_fmap, Hi.
Qed.

End FeatureExtraction.

(** ** The assignments of the feature extractor *)

Section FeatureRules.

Variable int_of_str : string -> option Z.

Lemma apply_rules_cons_ok esp df name r rules df' :
  apply_rules int_of_str esp df ((name, r) :: rules) = Ok df' ->
  exists col, rule_column int_of_str esp df r = Ok col /\
              apply_rules int_of_str esp (set_column name col df) rules = Ok df'.
Proof.
  simpl. unfold apply_rule. simpl. intros H.
  apply rbind_ok in H as (df1 & H1 & H2).
  apply rbind_ok in H1 as (col & Hc & [= <-]). eauto.
Qed.

(** Later assignments leave the columns they do not name alone. *)
Lemma apply_rules_preserve esp rules df df' name :
  apply_rules int_of_str esp df rules = Ok df' ->
  name ∉ rules.*1 ->
  get_column name df' = get_column name df.
Proof.
  revert df. induction rules as [|[n r] rules IH]; intros df H Hn.
  - by injection H as <-.
  - apply apply_rules_cons_ok in H as (col & _ & H).
    rewrite fmap_cons, not_elem_of_cons in Hn. destruct Hn as [Hne Hn].
    rewrite (IH _ H Hn). by apply get_set_column_ne.
Qed.

Lemma rule_column_frame_indep esp df1 df2 r :
  r <> ProfitToGasRatio ->
  rule_column int_of_str esp df1 r = rule_column int_of_str esp df2 r.
Proof. by destruct r. Qed.

(** What a column that is assigned once ends up holding. *)
Lemma apply_rules_lookup esp rules df df' name r :
  apply_rules int_of_str esp df rules = Ok df' ->
  NoDup rules.*1 ->
  (name, r) ∈ rules ->
  r <> ProfitToGasRatio ->
  exists col, rule_column int_of_str esp df r = Ok col /\ get_column name df' = Some col.
Proof.
  revert df. induction rules as [|[n r'] rules IH]; intros df H Hnd Hin Hr.
  - by apply elem_of_nil in Hin.
  - apply apply_rules_cons_ok in H as (col & Hcol & H).
    rewrite fmap_cons in Hnd. simpl in Hnd. apply NoDup_cons in Hnd as [Hn Hnd].
    apply elem_of_cons in Hin as [[= -> ->]|Hin].
    + exists col. split; [done|].
      rewrite (apply_rules_preserve _ _ _ _ _ H Hn). apply get_set_column_eq.
    + destruct (IH _ H Hnd Hin Hr) as (c & Hc & Hg).
      exists c. split; [|done]. by rewrite (rule_column_frame_indep _ _ (set_column n col df)).
Qed.

Lemma feature_rules_NoDup : NoDup feature_rules.*1.
Proof. apply (bool_decide_unpack _). by vm_compute. Qed.

(** The ratio is the only derived column, and it is the third assignment:
    it reads the profit and gas-cost columns as they were just extracted. *)
Lemma ratio_column_of_features esp df0 df' :
  apply_rules int_of_str esp df0 feature_rules = Ok df' ->
  let a1 := series_apply (fun x => get_feature x "estimatedNetProfitUsd_PreEsp" (PyFloat np_nan)) esp in
  let a2 := series_apply (fun x => get_feature x "estimatedGasCostUsd_Initial" (PyFloat np_nan)) esp in
  get_column "A1_estimatedNetProfitUsd_PreEsp" df' = Some a1 /\
  get_column "A2_estimatedGasCostUsd_Initial" df' = Some a2 /\
  exists a3, profit_to_gas_ratio a1 a2 = Ok a3 /\
             get_column "A3_initialProfitToGasRatio" df' = Some a3.
Proof.
  intros H a1 a2.
  change feature_rules with
    (("A1_estimatedNetProfitUsd_PreEsp", Get "estimatedNetProfitUsd_PreEsp") ::
     ("A2_estimatedGasCostUsd_Initial", Get "estimatedGasCostUsd_Initial") ::
     ("A3_initialProfitToGasRatio", ProfitToGasRatio) :: drop 3 feature_rules) in H.
  apply apply_rules_cons_ok in H as (c1 & [= <-] & H).
  apply apply_rules_cons_ok in H as (c2 & [= <-] & H).
  apply apply_rules_cons_ok in H as (c3 & H3 & H).
  unfold rule_column in H3.
  rewrite get_set_column_ne, get_set_column_eq, get_set_column_eq in H3 by done.
  assert (Hrest : forall n, n ∈ ["A1_estimatedNetProfitUsd_PreEsp";
                                 "A2_estimatedGasCostUsd_Initial";
                                 "A3_initialProfitToGasRatio"] ->
                            n ∉ (drop 3 feature_rules).*1).
  { apply Forall_forall. apply (bool_decide_unpack _). by vm_compute. }
  rewrite !(apply_rules_preserve _ _ _ _ _ H) by (apply Hrest; set_solver).
  rewrite get_set_column_ne, get_set_column_ne, get_set_column_eq by done.
  rewrite get_set_column_ne, get_set_column_eq by done.
  rewrite get_set_column_eq. eauto.
Qed.

End FeatureRules.

(** ** Records without a feature map *)

Lemma get_feature_lacks (x : pyval) (key : string) (default : pyval) :
  lacks_feature_map x = true -> get_feature x key default = default.
Proof.
  destruct x as [| | | | |m|]; try done. simpl. intros ->%bool_decide_eq_true.
  by rewrite lookup_empty.
Qed.

Lemma token_is_core_lacks (x : pyval) (key : string) :
  lacks_feature_map x = true -> token_is_core key x = PyInt 0.
Proof. intros H. unfold token_is_core. by rewrite get_feature_lacks. Qed.

Lemma ratio_cell_nan : ratio_cell np_nan np_nan = np_nan.
Proof. reflexivity. Qed.

(** NaN absorbs a division. *)
Lemma float_div_nan_r (x : float) : (x / np_nan)%float = np_nan.
Proof.
  rewrite <- (SF2Prim_Prim2SF (x / np_nan)), FloatAxioms.div_spec.
  change (Prim2SF np_nan) with S754_nan.
  by destruct (Prim2SF x) as [[]|[]| |[] m e].
Qed.

Lemma float_div_nan_l (x : float) : (np_nan / x)%float = np_nan.
Proof.
  rewrite <- (SF2Prim_Prim2SF (np_nan / x)), FloatAxioms.div_spec.
  change (Prim2SF np_nan) with S754_nan. reflexivity.
Qed.

Lemma py_number_null (x : pyval) (f : float) :
  py_isnull x = true -> py_number x = Some f -> f = np_nan.
Proof. destruct x; try done. simpl. intros H [= <-]. by apply is_nan_eq. Qed.

(** A cell of a numeric column is a number, the one [astype(np.float64)] gives. *)
Lemma numeric_cell_number (s : series) (i : nat) (x : pyval) :
  is_object s = false ->
  series_cells s !! i = Some x ->
  exists v f, astype_float64 s = Ok v /\ v !! i = Some f /\ py_number x = Some f.
Proof.
  destruct s as [v|v|v|v]; [| | |done]; intros _; simpl; rewrite list_lookup_fmap;
    destruct (v !! i) as [c|] eqn:Hc; simpl; intros [= <-]; eexists _, _;
    (split; [reflexivity|]); rewrite ?list_lookup_fmap, ?Hc; done.
Qed.

(** Row by row, pandas' object arithmetic is the Python operation, or NaN
    where a side is missing. *)
Lemma na_arithmetic_op_lookup (op : pyval -> float -> result float)
  (left : list pyval) (right out : list float) (i : nat) (x : pyval) (y : float) :
  na_arithmetic_op op left right = Ok out ->
  left !! i = Some x -> right !! i = Some y ->
  exists r, out !! i = Some r /\
            (op x y = Ok r \/ (py_isnull x || PrimFloat.is_nan y = true /\ r = np_nan)).
Proof.
  intros H Hx Hy. unfold na_arithmetic_op in H.
  assert (Hz : zip left right !! i = Some (x, y)).
  { rewrite lookup_zip_with, Hx. simpl. by rewrite Hy. }
  destruct (mapM (fun r : pyval * float => op r.1 r.2) (zip left right)) as [l|e] eqn:H1.
  - injection H as <-. destruct (mapM_ok_lookup _ _ _ H1) as [_ Hl].
    destruct (Hl i _ Hz) as (r & Hr & Hi). eauto.
  - destruct e; try discriminate.
    destruct (mapM_ok_lookup _ _ _ H) as [_ Hl].
    destruct (Hl i _ Hz) as (r & Hr & Hi). simpl in Hr. exists r. split; [done|].
    destruct (py_isnull x || PrimFloat.is_nan y); [right; by injection Hr as <- | by left].
Qed.

(** The exception of pandas' object arithmetic is the exception of the
    operation on one of the rows. *)
Lemma na_arithmetic_op_raise (op : pyval -> float -> result float)
  (left : list pyval) (right : list float) (e : exn) :
  na_arithmetic_op op left right = Raise e ->
  exists i x y, left !! i = Some x /\ right !! i = Some y /\ op x y = Raise e.
Proof.
  intros H. unfold na_arithmetic_op in H.
  assert (Hrow : forall f : pyval * float -> result float,
            (forall r, f r = Raise e -> op r.1 r.2 = Raise e) ->
            mapM f (zip left right) = Raise e ->
            exists i x y, left !! i = Some x /\ right !! i = Some y /\ op x y = Raise e).
  { intros f Hf Hm. apply mapM_raise_elem in Hm as ([x y] & Hin & Hxy).
    apply list_elem_of_lookup in Hin as [i Hi].
    rewrite lookup_zip_with in Hi.
    destruct (left !! i) as [x'|] eqn:Hx; [|discriminate]. simpl in Hi.
    destruct (right !! i) as [y'|] eqn:Hy; [|discriminate]. injection Hi as -> ->.
    exists i, x, y. split; [done|]. split; [done|]. by apply (Hf (x, y)). }
  destruct (mapM (fun r : pyval * float => op r.1 r.2) (zip left right)) as [l|e1] eqn:H1;
    [discriminate|].
  assert (Hfirst : e1 = e ->
            exists i x y, left !! i = Some x /\ right !! i = Some y /\ op x y = Raise e).
  { intros ->. exact (Hrow _ (fun r Hr => Hr) H1). }
  destruct e1; try (apply Hfirst; congruence).
  refine (Hrow _ _ H). intros r. simpl. destruct (_ || _); [discriminate | done].
Qed.

(** The denominator of a row: the gas cost plus the constant, NaN when the
    gas cost is missing. *)
Lemma add_epsilon_lookup (a2 : series) (d : list float) (i : nat) (y : pyval) :
  add_epsilon a2 = Ok d ->
  series_cells a2 !! i = Some y ->
  exists di, d !! i = Some di /\
    match py_number y with
    | Some g => di = ratio_denominator g
    | None => di = np_nan
    end.
Proof.
  intros H Hy. destruct (is_object a2) eqn:Ho.
  - destruct a2 as [v|v|v|v]; try done. simpl in *.
    destruct (na_arithmetic_op_lookup _ _ _ _ i y ratio_epsilon H Hy) as (r & Hr & Hop).
    { apply lookup_replicate_2. by apply lookup_lt_Some in Hy. }
    exists r. split; [done|]. unfold py_add in Hop.
    destruct Hop as [Hop|[Hnull ->]].
    + destruct (py_number y); [by injection Hop as <- | discriminate].
    + rewrite orb_false_r in Hnull.
      destruct (py_number y) as [g|] eqn:Hg; [|done].
      by rewrite (py_number_null _ _ Hnull Hg).
  - destruct (numeric_cell_number _ _ _ Ho Hy) as (v & g & Hv & Hi & ->).
    assert (Hd : d = ratio_denominator <$> v).
    { unfold add_epsilon in H. destruct a2; try done; rewrite Hv in H; simpl in H;
        by injection H as <-. }
    subst d. exists (ratio_denominator g). by rewrite list_lookup_fmap, Hi.
Qed.

(** Every row of the ratio column follows the one formula: the profit divided
    by the gas cost plus the constant when both are numbers, NaN when one of
    them is missing. *)
Lemma profit_to_gas_ratio_lookup (a1 a2 a3 : series) (i : nat) (x y : pyval) :
  profit_to_gas_ratio a1 a2 = Ok a3 ->
  series_cells a1 !! i = Some x ->
  series_cells a2 !! i = Some y ->
  series_cells a3 !! i =
    Some (PyFloat match py_number x, py_number y with
                  | Some p, Some g => ratio_cell p g
                  | _, _ => np_nan
                  end).
Proof.
  intros H Hx Hy. unfold profit_to_gas_ratio in H.
  apply rbind_ok in H as (d & Hd & H).
  destruct (add_epsilon_lookup _ _ _ _ Hd Hy) as (di & Hdi & Hden).
  destruct (is_object a1 || is_object a2) eqn:Ho.
  - apply rbind_ok in H as (r & Hr & [= <-]). simpl. rewrite list_lookup_fmap.
    destruct (na_arithmetic_op_lookup _ _ _ _ i x di Hr Hx Hdi) as (ri & -> & Hop).
    simpl. do 2 f_equal. unfold py_truediv in Hop.
    destruct Hop as [Hop|[Hnull ->]].
    + destruct (py_number x) as [p|]; [|discriminate].
      destruct (PrimFloat.eqb di 0); [discriminate|]. injection Hop as <-.
      destruct (py_number y) as [g|]; subst di; [done | apply float_div_nan_r].
    + destruct (py_number x) as [p|] eqn:Hp; [|done].
      destruct (py_number y) as [g|] eqn:Hg; [|done]. unfold ratio_cell. rewrite <- Hden.
      apply orb_true_iff in Hnull as [Hnull|Hnull].
      * rewrite (py_number_null _ _ Hnull Hp). by rewrite float_div_nan_l.
      * rewrite (is_nan_eq _ Hnull). by rewrite float_div_nan_r.
  - apply orb_false_iff in Ho as [Ho1 Ho2].
    apply rbind_ok in H as (p & Hp & [= <-]).
    destruct (numeric_cell_number _ _ _ Ho1 Hx) as (v & f & Hv & Hi & ->).
    rewrite Hv in Hp. injection Hp as <-.
    destruct (numeric_cell_number _ _ _ Ho2 Hy) as (v2 & g & _ & _ & Hg).
    rewrite Hg in Hden |- *. subst di. simpl.
    rewrite list_lookup_fmap, lookup_zip_with, Hi. simpl. by rewrite Hdi.
Qed.

Lemma profit_to_gas_ratio_lookup_nan (a1 a2 a3 : series) (i : nat) :
  series_cells a1 !! i = Some (PyFloat np_nan) ->
  series_cells a2 !! i = Some (PyFloat np_nan) ->
  profit_to_gas_ratio a1 a2 = Ok a3 ->
  series_cells a3 !! i = Some (PyFloat np_nan).
Proof. intros H1 H2 H. by rewrite (profit_to_gas_ratio_lookup _ _ _ _ _ _ H H1 H2). Qed.

(** Two numeric columns are divided without an exception. *)
Lemma profit_to_gas_ratio_numeric (a1 a2 : series) :
  is_object a1 || is_object a2 = false -> is_ok (profit_to_gas_ratio a1 a2) = true.
Proof.
  intros [H1 H2]%orb_false_iff. unfold profit_to_gas_ratio.
  destruct a1, a2; try done.
Qed.

(** A division by zero is raised on a row whose gas cost is a number that
    the addition of the constant turns into zero: such a gas cost is not
    zero. *)
Lemma profit_to_gas_ratio_zero_division (a1 a2 : series) (msg : string) :
  profit_to_gas_ratio a1 a2 = Raise (ZeroDivisionError msg) ->
  exists i y g,
    series_cells a2 !! i = Some y /\ py_number y = Some g /\
    PrimFloat.eqb (ratio_denominator g) 0 = true /\ PrimFloat.eqb g 0 = false.
Proof.
  intros H. unfold profit_to_gas_ratio in H.
  destruct (add_epsilon a2) as [d|e] eqn:Hd; simpl in H.
  2: { injection H as ->. exfalso.
       destruct a2 as [v|v|v|v]; try discriminate. simpl in Hd.
       apply na_arithmetic_op_raise in Hd as (i & x & y & _ & _ & Hop).
       unfold py_add in Hop. by destruct (py_number x). }
  destruct (is_object a1 || is_object a2) eqn:Ho.
  2: { apply orb_false_iff in Ho as [Ho _]. by destruct a1. }
  destruct (na_arithmetic_op py_truediv (series_cells a1) d) as [r|e] eqn:Hr; [discriminate|].
  injection H as ->.
  apply na_arithmetic_op_raise in Hr as (i & x & di & Hx & Hdi & Hop).
  assert (Hz : PrimFloat.eqb di 0 = true).
  { unfold py_truediv in Hop. destruct (py_number x); [|discriminate].
    by destruct (PrimFloat.eqb di 0). }
  assert (Hlen : (i < length (series_cells a2))%nat).
  { apply lookup_lt_Some in Hdi. revert Hd Hdi. clear.
    destruct a2 as [v|v|v|v]; simpl; rewrite ?length_fmap.
    - intros [= <-]. by rewrite length_fmap.
    - intros [= <-]. by rewrite !length_fmap.
    - intros [= <-]. by rewrite !length_fmap.
    - unfold na_arithmetic_op. intros Hd.
      assert (Hl : forall f : pyval * float -> result float,
                mapM f (zip v (replicate (length v) ratio_epsilon)) = Ok d ->
                length d = length v).
      { intros f Hm. destruct (mapM_ok_lookup _ _ _ Hm) as [-> _].
        rewrite length_zip_with, length_replicate. lia. }
      destruct (mapM _ _) as [l|[]] eqn:H1; try discriminate.
      + injection Hd as <-. by rewrite (Hl _ H1).
      + by rewrite (Hl _ Hd). }
  apply lookup_lt_is_Some_2 in Hlen as [y Hy].
  destruct (add_epsilon_lookup _ _ _ _ Hd Hy) as (di' & Hdi' & Hden).
  rewrite Hdi in Hdi'. injection Hdi' as <-.
  destruct (py_number y) as [g|] eqn:Hg; [|by subst di].
  subst di. exists i, y, g. repeat (split; [done|]).
  destruct (PrimFloat.eqb g 0) eqn:Hg0; [|done].
  apply float_eqb_zero_cases in Hg0 as [->| ->]; by vm_compute in Hz.
Qed.

Lemma fmap_const_on {A B} (P : A -> Prop) (f : A -> B) (d : B) (l : list A) :
  Forall P l -> (forall x, P x -> f x = d) -> f <$> l = replicate (length l) d.
Proof.
  intros Hl Hf. induction Hl as [|x l Hx _ IH]; [done|].
  rewrite fmap_cons, (Hf x Hx), IH. done.
Qed.

Lemma infer_objects_replicate_nan (n : nat) :
  infer_objects (replicate n (PyFloat np_nan)) =
  match n with
  | O => SObject []
  | S _ => SFloat64 (replicate n np_nan)
  end.
Proof.
  destruct n as [|n]; [reflexivity|].
  assert (Hs : forall k, foldr see seen_nothing (replicate (S k) (PyFloat np_nan)) =
                  {| seen_null := false; seen_nan := true; seen_float := false;
                     seen_int := false; seen_bool := false; seen_object := false |}).
  { induction k as [|k IH]; [reflexivity|].
    change (replicate (S (S k)) (PyFloat np_nan))
      with (PyFloat np_nan :: replicate (S k) (PyFloat np_nan)).
    simpl foldr. simpl foldr in IH. by rewrite IH. }
  unfold infer_objects. rewrite Hs. simpl. by rewrite fmap_replicate.
Qed.

Lemma infer_objects_replicate_zero (n : nat) :
  infer_objects (replicate n (PyInt 0)) =
  match n with
  | O => SObject []
  | S _ => SInt64 (replicate n 0)
  end.
Proof.
  destruct n as [|n]; [reflexivity|].
  assert (Hs : forall k, foldr see seen_nothing (replicate (S k) (PyInt 0)) =
                  {| seen_null := false; seen_nan := false; seen_float := false;
                     seen_int := true; seen_bool := false; seen_object := false |}).
  { induction k as [|k IH]; [reflexivity|].
    change (replicate (S (S k)) (PyInt 0)) with (PyInt 0 :: replicate (S k) (PyInt 0)).
    simpl foldr. simpl foldr in IH. by rewrite IH. }
  unfold infer_objects. rewrite Hs. simpl. by rewrite fmap_replicate.
Qed.

Section DefaultCompleteness.

Variable int_of_str : string -> option Z.
Variable series_mode : list pyval -> list pyval.
Variable timestamp : Type.
Variable to_datetime : pyval -> option timestamp.
Variable dt_hour dt_dayofweek : timestamp -> Z.
Variable np_sin np_cos : float -> float.

Lemma ratio_rule_name (name : string) :
  (name, ProfitToGasRatio) ∈ feature_rules -> name = "A3_initialProfitToGasRatio".
Proof.
  assert (H : Forall (fun nr : string * rule =>
                        nr.2 = ProfitToGasRatio -> nr.1 = "A3_initialProfitToGasRatio")
                feature_rules).
  { apply (bool_decide_unpack _). by vm_compute. }
  intros Hin. rewrite Forall_forall in H. by apply (H _ Hin).
Qed.

(** Every rule but the ratio succeeds on a frame without feature maps. *)
Lemma rule_column_ok_lacking (esp : series) (df : DataFrame) (r : rule) :
  Forall (fun x => lacks_feature_map x = true) (series_cells esp) ->
  r <> ProfitToGasRatio ->
  is_ok (rule_column int_of_str esp df r) = true.
Proof.
  intros Hall Hr. destruct r as [key|key|key|]; [done| | |done]; simpl; unfold series_apply.
  - rewrite (fmap_const_on _ _ (PyInt 0) _ Hall)
      by (intros; by apply get_feature_lacks).
    rewrite infer_objects_replicate_zero. by destruct (length _).
  - rewrite (fmap_const_on _ _ (PyInt 0) _ Hall)
      by (intros; by apply token_is_core_lacks).
    rewrite infer_objects_replicate_zero. by destruct (length _).
Qed.

Lemma apply_rules_ok_lacking (esp : series) (rules : list (string * rule)) (df : DataFrame) :
  Forall (fun x => lacks_feature_map x = true) (series_cells esp) ->
  Forall (fun nr : string * rule => nr.2 <> ProfitToGasRatio) rules ->
  is_ok (apply_rules int_of_str esp df rules) = true.
Proof.
  intros Hall Hrules. revert df.
  induction Hrules as [|[n r] rules Hr _ IH]; intros df; [done|].
  simpl. unfold apply_rule. simpl.
  pose proof (rule_column_ok_lacking esp df r Hall Hr) as Hok.
  destruct (rule_column _ _ _ _) as [col|e]; [|discriminate]. simpl. apply IH.
Qed.

Lemma feature_map_columns_ok_lacking (raw_df : DataFrame) :
  Forall (fun x => lacks_feature_map x = true) (series_cells (esp_input_column raw_df)) ->
  is_ok (feature_map_columns int_of_str raw_df) = true.
Proof.
  intros Hall. unfold feature_map_columns.
  set (esp := esp_input_column raw_df) in *.
  change feature_rules with
    (("A1_estimatedNetProfitUsd_PreEsp", Get "estimatedNetProfitUsd_PreEsp") ::
     ("A2_estimatedGasCostUsd_Initial", Get "estimatedGasCostUsd_Initial") ::
     ("A3_initialProfitToGasRatio", ProfitToGasRatio) :: drop 3 feature_rules).
  remember (drop 3 feature_rules) as rest eqn:Hrest.
  cbn [apply_rules]. unfold apply_rule at 1 2 3. cbn [rule_column fst snd rbind].
  rewrite get_set_column_ne, get_set_column_eq, get_set_column_eq by done.
  unfold series_apply.
  rewrite !(fmap_const_on _ _ (PyFloat np_nan) _ Hall)
    by (intros; by apply get_feature_lacks).
  rewrite infer_objects_replicate_nan.
  assert (Hratio : forall a, a = match length (series_cells esp) with
                                 | O => SObject []
                                 | S _ => SFloat64 (replicate (length (series_cells esp)) np_nan)
                                 end ->
                             is_ok (profit_to_gas_ratio a a) = true).
  { intros a ->. by destruct (length _). }
  specialize (Hratio _ eq_refl).
  destruct (profit_to_gas_ratio _ _) as [a3|e]; [|discriminate]. simpl.
  apply apply_rules_ok_lacking; [done|].
  subst rest. apply (bool_decide_unpack _). by vm_compute.
Qed.

(** What the extraction leaves for the imputation loop, on a frame without
    feature maps: columns the loop goes through without an exception. *)
Lemma Forall_assign (P : string * series -> Prop) name s cols :
  Forall P cols -> P (name, s) -> Forall P (assign name s cols).
Proof.
  intros Hc Hs. induction Hc as [|[n c] cols Hn Hc IH]; simpl; [by repeat constructor|].
  destruct (decide (n = name)) as [->|]; by constructor.
Qed.

Lemma ratio_column_imputable (a1 a2 a3 : series) :
  profit_to_gas_ratio a1 a2 = Ok a3 -> is_ok (impute_column series_mode a3) = true.
Proof.
  unfold profit_to_gas_ratio. intros H. apply rbind_ok in H as (d & _ & H).
  destruct (is_object a1 || is_object a2).
  - apply rbind_ok in H as (r & _ & [= <-]). unfold impute_column.
    destruct (bool_any _); [|done]. simpl. rewrite object_mode_ok; [done|].
    apply Forall_fmap, Forall_forall. intros f _. by right.
  - apply rbind_ok in H as (p & _ & [= <-]). by rewrite impute_column_float.
Qed.

Lemma astype_int_SInt64 (s col : series) :
  astype_int int_of_str s = Ok col -> exists v, col = SInt64 v.
Proof.
  destruct s as [v|v|v|v]; simpl.
  - destruct (mapM _ v); simpl; [intros [= <-]; eauto | discriminate].
  - intros [= <-]; eauto.
  - intros [= <-]; eauto.
  - destruct (mapM _ v); simpl; [intros [= <-]; eauto | discriminate].
Qed.

Lemma rule_column_imputable_lacking (esp : series) (df : DataFrame) (r : rule) (col : series) :
  Forall (fun x => lacks_feature_map x = true) (series_cells esp) ->
  rule_column int_of_str esp df r = Ok col ->
  is_ok (impute_column series_mode col) = true.
Proof.
  intros Hall. destruct r as [key|key|key|]; simpl; unfold series_apply.
  - rewrite (fmap_const_on _ _ (PyFloat np_nan) _ Hall)
      by (intros; by apply get_feature_lacks).
    rewrite infer_objects_replicate_nan. intros [= <-].
    destruct (length _); [done | by rewrite impute_column_float].
  - intros H. apply astype_int_SInt64 in H as [v ->].
    by rewrite impute_column_no_null by apply int_column_no_null.
  - intros H. apply astype_int_SInt64 in H as [v ->].
    by rewrite impute_column_no_null by apply int_column_no_null.
  - destruct (get_column _ _); [|discriminate]. destruct (get_column _ _); [|discriminate].
    apply ratio_column_imputable.
Qed.

Lemma apply_rules_imputable_lacking (esp : series) (rules : list (string * rule))
  (df df' : DataFrame) :
  Forall (fun x => lacks_feature_map x = true) (series_cells esp) ->
  Forall (fun c : string * series => is_ok (impute_column series_mode c.2) = true) (columns df) ->
  apply_rules int_of_str esp df rules = Ok df' ->
  Forall (fun c : string * series => is_ok (impute_column series_mode c.2) = true) (columns df').
Proof.
  intros Hall. revert df. induction rules as [|[n r] rules IH]; intros df Hdf H.
  { by injection H as <-. }
  simpl in H. unfold apply_rule in H. simpl in H.
  destruct (rule_column int_of_str esp df r) as [col|e] eqn:Hcol; [|discriminate].
  simpl in H. refine (IH _ _ H). simpl. apply Forall_assign; [done|].
  simpl. by eapply rule_column_imputable_lacking.
Qed.

(** C5 (amended): for a record whose feature map is absent or is no mapping,
    every value extracted from the feature map (the assignments of sections A
    to E) is the declared default of its feature (the missing sentinel, or
    zero for the flags cast to [int]) whenever the extraction of the frame
    returns, whatever the other records hold.  A frame of such records is
    extracted without an exception, and goes through the whole of
    [generate_features] when the imputation loop can fill the target columns
    it carries. *)
Theorem C5_default_completeness (raw_df : DataFrame) (i : nat) (x : pyval) :
  series_cells (esp_input_column raw_df) !! i = Some x ->
  lacks_feature_map x = true ->
  (forall df, feature_map_columns int_of_str raw_df = Ok df ->
     forall name r, (name, r) ∈ feature_rules ->
       cell_at df name i = Some (declared_default r)) /\
  (Forall (fun x => lacks_feature_map x = true) (series_cells (esp_input_column raw_df)) ->
   is_ok (feature_map_columns int_of_str raw_df) = true /\
   forall version,
     (forall target s,
        target ∈ ["isSuccess_Execution"; "isSuccess_Profitability"] ->
        get_column target raw_df = Some s ->
        is_ok (impute_column series_mode s) = true) ->
     is_ok (generate_features int_of_str series_mode timestamp to_datetime
              dt_hour dt_dayofweek np_sin np_cos raw_df version) = true).
Proof.
  intros Hi Hx.
  assert (Hget : forall key,
    series_cells (series_apply (fun x => get_feature x key (PyFloat np_nan))
                    (esp_input_column raw_df)) !! i = Some (PyFloat np_nan)).
  { intros key. unfold series_apply. apply infer_objects_lookup_nan.
    rewrite list_lookup_fmap, Hi. simpl. by rewrite get_feature_lacks. }
  split.
  - intros df Hdf name r Hin. unfold feature_map_columns in Hdf. unfold cell_at.
    destruct (decide (r = ProfitToGasRatio)) as [->|Hr].
    + apply ratio_rule_name in Hin as ->.
      destruct (ratio_column_of_features _ _ _ _ Hdf) as (_ & _ & a3 & Ha3 & ->).
      eapply profit_to_gas_ratio_lookup_nan; [apply Hget | apply Hget | exact Ha3].
    + destruct (apply_rules_lookup _ _ _ _ _ _ _ Hdf feature_rules_NoDup Hin Hr)
        as (col & Hcol & ->).
      destruct r as [key|key|key|]; simpl in Hcol; [| | |done].
      * injection Hcol as <-. apply Hget.
      * eapply astype_int_infer_lookup_zero; [|exact Hcol].
        rewrite list_lookup_fmap, Hi. simpl. by rewrite get_feature_lacks.
      * eapply astype_int_infer_lookup_zero; [|exact Hcol].
        rewrite list_lookup_fmap, Hi. simpl. by rewrite token_is_core_lacks.
  - intros Hall.
    pose proof (feature_map_columns_ok_lacking raw_df Hall) as Hok.
    split; [done|]. intros version Htargets.
    unfold generate_features, assemble_features.
    destruct (feature_map_columns int_of_str raw_df) as [df|e] eqn:Hdf; [|done]. simpl.
    set (P := fun c : string * series => is_ok (impute_column series_mode c.2) = true).
    assert (Hcols : Forall P (columns df)).
    { unfold feature_map_columns in Hdf.
      eapply apply_rules_imputable_lacking; [exact Hall| |exact Hdf]. constructor. }
    assert (Hpass : forall target d,
              target ∈ ["isSuccess_Execution"; "isSuccess_Profitability"] ->
              Forall P (columns d) -> Forall P (columns (pass_target target raw_df d))).
    { intros target d Ht Hd. unfold pass_target.
      destruct (get_column target raw_df) as [s|] eqn:Hs; simpl;
        (apply Forall_assign; [done|]); unfold P; simpl.
      - by eapply Htargets.
      - by rewrite impute_column_no_null by apply int_column_no_null. }
    assert (Hall' : Forall P (columns
      (pass_target "isSuccess_Profitability" raw_df
         (pass_target "isSuccess_Execution" raw_df
            (time_features timestamp to_datetime dt_hour dt_dayofweek np_sin np_cos
               raw_df df))))).
    { apply Hpass; [set_solver|]. apply Hpass; [set_solver|]. unfold time_features. simpl.
      repeat (apply Forall_assign; [|unfold P; simpl; by rewrite impute_column_float]).
      done. }
    unfold impute.
    match goal with |- context [mapM ?f ?l] =>
      destruct (mapM_ok_all f l) as [cols ->]; [|done] end.
    eapply Forall_impl; [exact Hall'|]. intros [n c]. unfold P. simpl.
    by destruct (impute_column series_mode c).
Qed.

End DefaultCompleteness.

(** ** Columns that are missing in every record *)

Section AllMissing.

Variable int_of_str : string -> option Z.
Variable series_mode : list pyval -> list pyval.
Variable timestamp : Type.
Variable to_datetime : pyval -> option timestamp.
Variable dt_hour dt_dayofweek : timestamp -> Z.
Variable np_sin np_cos : float -> float.

Lemma impute_all_nan (v : list float) :
  Forall (fun c => PrimFloat.is_nan c = true) v ->
  impute_column series_mode (SFloat64 v) = Ok (SFloat64 v).
Proof.
  intros H. by rewrite impute_column_float, (median_all_nan _ H), fillna_nan_all_nan.
Qed.

Lemma fillna_object_all_null (x : pyval) (v : list pyval) :
  Forall (fun c => py_isnull c = true) v ->
  fillna_object x v = replicate (length v) x.
Proof.
  intros H. unfold fillna_object. apply (fmap_const_on _ _ _ _ H). by intros c ->.
Qed.

Lemma feature_rule_names_apart (name : string) (r : rule) :
  (name, r) ∈ feature_rules ->
  name ∉ ["F39_hourOfDayUTC_Sin"; "F39_hourOfDayUTC_Cos"; "F40_dayOfWeekUTC_Sin";
          "F40_dayOfWeekUTC_Cos"; "isSuccess_Execution"; "isSuccess_Profitability"].
Proof.
  assert (H : Forall (fun nr : string * rule =>
    nr.1 ∉ ["F39_hourOfDayUTC_Sin"; "F39_hourOfDayUTC_Cos"; "F40_dayOfWeekUTC_Sin";
            "F40_dayOfWeekUTC_Cos"; "isSuccess_Execution"; "isSuccess_Profitability"])
    feature_rules).
  { apply (bool_decide_unpack _). by vm_compute. }
  intros Hin. rewrite Forall_forall in H. by apply (H _ Hin).
Qed.

(** The columns of the feature map are not touched between their extraction
    and the imputation loop. *)
Lemma assemble_features_get_column (raw_df df0 df : DataFrame) (name : string) (r : rule) :
  (name, r) ∈ feature_rules ->
  feature_map_columns int_of_str raw_df = Ok df0 ->
  assemble_features int_of_str timestamp to_datetime dt_hour dt_dayofweek np_sin np_cos
    raw_df = Ok df ->
  get_column name df = get_column name df0.
Proof.
  intros Hin H0 H. apply feature_rule_names_apart in Hin.
  unfold assemble_features in H. rewrite H0 in H. simpl in H. injection H as <-.
  assert (Hpass : forall target d, name <> target ->
            get_column name (pass_target target raw_df d) = get_column name d).
  { intros target d Hne. unfold pass_target.
    destruct (get_column target raw_df); by apply get_set_column_ne. }
  rewrite !Hpass by set_solver. unfold time_features.
  rewrite !get_set_column_ne by set_solver. done.
Qed.

(** C10: a numeric feature that is missing in every record comes out of
    [generate_features] as a column that is still missing everywhere: the
    median of a column with nothing present is NaN and filling with NaN changes
    nothing.  Only a non-numeric column with nothing present (for which
    [mode()] is empty) receives the "missing" placeholder. *)
Theorem C10_all_missing_numeric_stays_missing :
  (forall v : list float,
     Forall (fun c => PrimFloat.is_nan c = true) v ->
     median v = np_nan /\ impute_column series_mode (SFloat64 v) = Ok (SFloat64 v)) /\
  (forall (raw_df df : DataFrame) (version name key : string),
     (name, Get key) ∈ feature_rules ->
     series_cells (esp_input_column raw_df) <> [] ->
     Forall (fun x => get_feature x key (PyFloat np_nan) = PyFloat np_nan)
       (series_cells (esp_input_column raw_df)) ->
     generate_features int_of_str series_mode timestamp to_datetime
       dt_hour dt_dayofweek np_sin np_cos raw_df version = Ok df ->
     get_column name df =
       Some (SFloat64 (replicate (length (series_cells (esp_input_column raw_df))) np_nan))) /\
  (forall v : list pyval,
     v <> [] ->
     Forall (fun c => py_isnull c = true) v ->
     series_mode v = [] ->
     impute_column series_mode (SObject v) =
       Ok (SObject (replicate (length v) (PyStr "missing")))).
Proof.
  split; [|split].
  - intros v H. split; [by apply median_all_nan | by apply impute_all_nan].
  - intros raw_df df version name key Hin Hne Hall H.
    unfold generate_features in H.
    destruct (assemble_features _ _ _ _ _ _ _ raw_df) as [df1|e] eqn:H1; [|discriminate].
    simpl in H. destruct (impute_inv _ _ _ H) as (_ & _ & Himp). specialize (Himp name).
    assert (H0 := H1). unfold assemble_features in H0.
    destruct (feature_map_columns int_of_str raw_df) as [df0|e] eqn:Hdf0; [|discriminate].
    clear H0. rewrite (assemble_features_get_column _ _ _ _ _ Hin Hdf0 H1) in Himp.
    destruct (apply_rules_lookup _ _ _ _ _ _ _ Hdf0 (feature_rules_NoDup) Hin ltac:(done))
      as (col & [= <-] & Hcol).
    rewrite Hcol in Himp. destruct Himp as (s' & Hs' & ->). f_equal.
    unfold series_apply in Hs'.
    rewrite (fmap_const_on _ _ (PyFloat np_nan) _ Hall) in Hs' by done.
    rewrite infer_objects_replicate_nan in Hs'.
    destruct (length (series_cells (esp_input_column raw_df))) as [|n] eqn:Hlen.
    { by apply length_zero_iff_nil in Hlen. }
    rewrite impute_all_nan in Hs' by (apply Forall_replicate; reflexivity).
    by injection Hs' as <-.
  - intros v Hne Hnull Hmode. unfold impute_column.
    assert (Hany : bool_any (isnull (SObject v)) = true).
    { destruct Hnull as [|c v Hc _]; [done|]. unfold bool_any. simpl. by rewrite Hc. }
    rewrite Hany. simpl. rewrite object_mode_ok, Hmode.
    + simpl. by rewrite fillna_object_all_null.
    + eapply Forall_impl; [exact Hnull|]. intros c Hc. by left.
Qed.

End AllMissing.

(** ** The imputation loop of [generate_features] *)

Lemma lookup_column_elem_of name (cols : list (string * series)) s :
  lookup_column name cols = Some s -> (name, s) ∈ cols.
Proof.
  induction cols as [|[n c] cols IH]; [done|]. simpl.
  destruct (decide (n = name)) as [->|Hne]; [intros [= ->]; by left|].
  intros H. right. by apply IH.
Qed.

Section ImputationLoop.

Variable int_of_str : string -> option Z.
Variable series_mode : list pyval -> list pyval.
Variable timestamp : Type.
Variable to_datetime : pyval -> option timestamp.
Variable dt_hour dt_dayofweek : timestamp -> Z.
Variable np_sin np_cos : float -> float.

#[local] Abbreviation assemble :=
  (assemble_features int_of_str timestamp to_datetime dt_hour dt_dayofweek np_sin np_cos).
#[local] Abbreviation generate :=
  (generate_features int_of_str series_mode timestamp to_datetime dt_hour dt_dayofweek
     np_sin np_cos).



End ImputationLoop.

(** ** The profit-to-gas ratio *)

Lemma ratio_denominator_zero (gas : float) :
  PrimFloat.eqb gas 0 = true -> ratio_denominator gas = ratio_epsilon.
Proof. intros [->| ->]%float_eqb_zero_cases; reflexivity. Qed.

(** The claim as stated fails: binary64 addition absorbs the constant at a
    gas cost of 2^34, so that the denominator is the raw gas cost, bit for
    bit, and the ratio is the plain quotient. *)
Lemma C7_counterexample_epsilon_absorbed :
  ratio_denominator 17179869184 = 17179869184%float /\
  profit_to_gas_ratio (SFloat64 [1%float]) (SFloat64 [17179869184%float]) =
    Ok (SFloat64 [(1 / 17179869184)%float]).
Proof. split; reflexivity. Qed.

(** C7 (amended): the ratio column is computed from the profit and gas-cost
    columns as they come out of the defaulting extraction.  Whenever it is
    computed, every row follows one formula, with no branch on the gas cost:
    the profit divided by the gas cost plus the constant 1e-6 when both are
    numbers, NaN when one of them is missing.  Two numeric columns are divided
    as binary64 arrays and raise nothing.  With an object column the rows are
    divided by Python, which raises [ZeroDivisionError] on a zero divisor: that
    happens only at a gas cost that the addition turns into zero, and such a
    gas cost is not zero.  For a gas cost of zero (of either sign) the
    denominator is exactly the constant, which is positive, so the division
    is a division by 1e-6. *)
Theorem C7_ratio_epsilon_guard :
  (forall int_of_str esp df0 df',
     apply_rules int_of_str esp df0 feature_rules = Ok df' ->
     exists a3,
       profit_to_gas_ratio
         (series_apply (fun x => get_feature x "estimatedNetProfitUsd_PreEsp" (PyFloat np_nan)) esp)
         (series_apply (fun x => get_feature x "estimatedGasCostUsd_Initial" (PyFloat np_nan)) esp)
       = Ok a3 /\
       get_column "A3_initialProfitToGasRatio" df' = Some a3) /\
  (forall (a1 a2 a3 : series) (i : nat) (x y : pyval),
     profit_to_gas_ratio a1 a2 = Ok a3 ->
     series_cells a1 !! i = Some x ->
     series_cells a2 !! i = Some y ->
     series_cells a3 !! i =
       Some (PyFloat match py_number x, py_number y with
                     | Some profit, Some gas => (profit / (gas + ratio_epsilon))%float
                     | _, _ => np_nan
                     end)) /\
  (forall profit gas : list float,
     profit_to_gas_ratio (SFloat64 profit) (SFloat64 gas) =
       Ok (SFloat64 (zip_with (fun p g => p / (g + ratio_epsilon))%float profit gas))) /\
  (forall a1 a2 : series,
     is_object a1 || is_object a2 = false -> is_ok (profit_to_gas_ratio a1 a2) = true) /\
  (forall (a1 a2 : series) (msg : string),
     profit_to_gas_ratio a1 a2 = Raise (ZeroDivisionError msg) ->
     exists i y gas,
       series_cells a2 !! i = Some y /\ py_number y = Some gas /\
       PrimFloat.eqb (ratio_denominator gas) 0 = true /\ PrimFloat.eqb gas 0 = false) /\
  (forall profit gas : float,
     PrimFloat.eqb gas 0 = true ->
     ratio_denominator gas = ratio_epsilon /\
     ratio_denominator gas <> gas /\
     ratio_cell profit gas = (profit / ratio_epsilon)%float /\
     forall x msg, py_truediv x (ratio_denominator gas) <> Raise (ZeroDivisionError msg)) /\
  PrimFloat.ltb 0 ratio_epsilon = true /\
  PrimFloat.eqb ratio_epsilon 0 = false.
Proof.
  split; [|split; [|split; [|split; [|split; [|split; [|split; reflexivity]]]]]].
  - intros int_of_str esp df0 df' H.
    destruct (ratio_column_of_features _ _ _ _ H) as (_ & _ & a3 & Ha3 & Hg). eauto.
  - intros a1 a2 a3 i x y H Hx Hy. apply (profit_to_gas_ratio_lookup _ _ _ _ _ _ H Hx Hy).
  - intros profit gas. unfold profit_to_gas_ratio. simpl. by rewrite zip_with_fmap_r.
  - apply profit_to_gas_ratio_numeric.
  - apply profit_to_gas_ratio_zero_division.
  - intros profit gas Hz. split; [by apply ratio_denominator_zero|]. split; [|split].
    + apply float_eqb_zero_cases in Hz as [->| ->]; intros H;
        apply (f_equal (fun x => PrimFloat.eqb x 0)) in H; vm_compute in H; discriminate.
    + unfold ratio_cell. by rewrite ratio_denominator_zero.
    + intros x msg. rewrite ratio_denominator_zero by done. unfold py_truediv.
      by destruct (py_number x).
Qed.

(** ** The scaler *)

Lemma numeric_data_lookup (X : DataFrame) (cols : list string) (data : list (list float)) :
  numeric_data X cols = Ok data ->
  length data = length cols /\
  forall j name, cols !! j = Some name ->
    exists s col, get_column name X = Some s /\ astype_float64 s = Ok col /\
                  data !! j = Some col.
Proof.
  intros H. destruct (mapM_ok_lookup _ _ _ H) as [Hlen Hl]. split; [done|].
  intros j name Hj. destruct (Hl j name Hj) as (col & Hc & Hd).
  destruct (get_column name X) as [s|]; [|discriminate]. eauto.
Qed.

Lemma numeric_data_numeric_at (X : DataFrame) (cols : list string) (data : list (list float))
  (j : nat) (name : string) (col : list float) :
  numeric_data X cols = Ok data ->
  cols !! j = Some name ->
  data !! j = Some col ->
  forall i, numeric_at X name i = col !! i.
Proof.
  intros H Hj Hd i. destruct (numeric_data_lookup _ _ _ H) as [_ Hl].
  destruct (Hl j name Hj) as (s & col' & Hs & Hc & Hd').
  unfold numeric_at. rewrite Hs, Hc. congruence.
Qed.

Lemma scaler_transform_lookup (sc : scaler) (D out : list (list float))
  (j i : nat) (col : list float) (x : float) :
  scaler_transform sc D = Ok out ->
  D !! j = Some col ->
  col !! i = Some x ->
  length out = length D /\
  exists col' y, out !! j = Some col' /\ col' !! i = Some y /\ scaler_cell sc j x = Some y.
Proof.
  intros H Hj Hi. destruct sc as [[p|]|[p|]]; simpl in *; try discriminate.
  - case_bool_decide as Hlen; [|discriminate]. injection H as <-.
    split; [rewrite length_zip_with; lia|].
    destruct (lookup_lt_is_Some_2 p j) as [c Hc].
    { rewrite <- Hlen. by eapply lookup_lt_Some. }
    exists (standard_cell (col_mean c) (col_scale c) <$> col),
           (standard_cell (col_mean c) (col_scale c) x).
    rewrite lookup_zip_with, Hc. simpl. rewrite Hj. simpl.
    by rewrite list_lookup_fmap, Hi.
  - case_bool_decide as Hlen; [|discriminate]. injection H as <-.
    split; [rewrite length_zip_with; lia|].
    destruct (lookup_lt_is_Some_2 p j) as [c Hc].
    { rewrite <- Hlen. by eapply lookup_lt_Some. }
    exists (minmax_cell (col_mm_scale c) (col_mm_min c) <$> col),
           (minmax_cell (col_mm_scale c) (col_mm_min c) x).
    rewrite lookup_zip_with, Hc. simpl. rewrite Hj. simpl.
    by rewrite list_lookup_fmap, Hi.
Qed.

Lemma assign_columns_ne (names : list string) (cols : list (list float)) (X : DataFrame)
  (name : string) :
  name ∉ names -> get_column name (assign_columns names cols X) = get_column name X.
Proof.
  unfold assign_columns. revert cols X.
  induction names as [|n names IH]; intros cols X Hn; [done|].
  destruct cols as [|c cols]; [done|]. simpl.
  apply not_elem_of_cons in Hn as [Hne Hn].
  rewrite (IH _ _ Hn). by apply get_set_column_ne.
Qed.

Lemma assign_columns_lookup (names : list string) (cols : list (list float)) (X : DataFrame)
  (j : nat) (name : string) (col : list float) :
  NoDup names ->
  names !! j = Some name ->
  cols !! j = Some col ->
  get_column name (assign_columns names cols X) = Some (SFloat64 col).
Proof.
  unfold assign_columns. revert cols X j.
  induction names as [|n names IH]; intros cols X j Hnd Hj Hc; [done|].
  destruct cols as [|c cols]; [done|]. simpl.
  apply NoDup_cons in Hnd as [Hn Hnd]. destruct j as [|j]; simpl in *.
  - injection Hj as ->. injection Hc as ->.
    pose proof (assign_columns_ne names cols (set_column name (SFloat64 col) X) name Hn) as H.
    unfold assign_columns in H. rewrite H. apply get_set_column_eq.
  - by eapply IH.
Qed.

Lemma assign_columns_index (names : list string) (cols : list (list float)) (X : DataFrame) :
  index (assign_columns names cols X) = index X.
Proof.
  unfold assign_columns. revert cols X.
  induction names as [|n names IH]; intros cols X; [done|].
  destruct cols as [|c cols]; [done|]. simpl. by rewrite IH.
Qed.

Lemma select_number_columns_NoDup (X : DataFrame) :
  NoDup (column_names X) -> NoDup (select_number_columns X).
Proof.
  unfold column_names, select_number_columns.
  induction (columns X) as [|[n c] cols IH]; [done|].
  rewrite fmap_cons. simpl. intros [Hn Hnd]%NoDup_cons.
  rewrite filter_cons. case_decide; [|by apply IH].
  rewrite fmap_cons. simpl. apply NoDup_cons. split; [|by apply IH].
  intros Hin. apply Hn. apply list_elem_of_fmap in Hin as ([n' c'] & -> & Hin).
  apply list_elem_of_filter in Hin as [_ Hin].
  apply list_elem_of_fmap. by exists (n', c').
Qed.

Lemma fillna_zero_lookup (col : list float) (i : nat) (x : float) :
  col !! i = Some x -> fillna 0 col !! i = Some (if PrimFloat.is_nan x then 0%float else x).
Proof. apply fillna_lookup. Qed.

Section ScalerFacts.

Variable standard_fit : list float -> standard_column.
Variable minmax_fit : list float -> minmax_column.

(** What a transformed frame holds in a scaled column: the scaler's transform
    of the value, or of zero where the value is missing. *)
Lemma transform_frame_lookup (sc : scaler) (cols : list string) (X X' : DataFrame)
  (j i : nat) (name : string) (x : float) :
  NoDup cols ->
  transform_frame sc cols X = Ok X' ->
  cols !! j = Some name ->
  numeric_at X name i = Some x ->
  exists col' y,
    get_column name X' = Some (SFloat64 col') /\ col' !! i = Some y /\
    scaler_cell sc j (if PrimFloat.is_nan x then 0%float else x) = Some y.
Proof.
  intros Hnd H Hj Hx. unfold transform_frame in H.
  apply rbind_ok in H as (data & Hdata & H).
  apply rbind_ok in H as (scaled & Hsc & [= <-]).
  destruct (numeric_data_lookup _ _ _ Hdata) as [Hlen Hl].
  destruct (Hl j name Hj) as (s & col & Hs & Hc & Hd).
  rewrite (numeric_data_numeric_at _ _ _ _ _ _ Hdata Hj Hd) in Hx.
  assert (Hfd : (fillna 0 <$> data) !! j = Some (fillna 0 col)).
  { by rewrite list_lookup_fmap, Hd. }
  destruct (scaler_transform_lookup _ _ _ _ _ _ _ Hsc Hfd (fillna_zero_lookup _ _ _ Hx))
    as (_ & col' & y & Hout & Hy & Hcell).
  exists col', y. split; [|done]. by eapply assign_columns_lookup.
Qed.

(** The stages of [scale_features] when it fits a new scaler. *)
Lemma scale_features_fit_inv (X_train : DataFrame) (X_test X_val : option DataFrame)
  (scaler_type : string) X_train_s X_test_s X_val_s (sc : option scaler) :
  scale_features standard_fit minmax_fit X_train X_test X_val scaler_type None =
    Ok (X_train_s, X_test_s, X_val_s, sc) ->
  (select_number_columns X_train = [] /\ sc = None /\
   X_train_s = X_train /\ X_test_s = X_test /\ X_val_s = X_val) \/
  (select_number_columns X_train <> [] /\
   exists sc0 data fitted,
     (scaler_type = "standard" /\ sc0 = StandardScaler None \/
      scaler_type = "minmax" /\ sc0 = MinMaxScaler None) /\
     numeric_data X_train (select_number_columns X_train) = Ok data /\
     fitted = scaler_fit standard_fit minmax_fit sc0 (prefit_fill <$> data) /\
     sc = Some fitted /\
     transform_frame fitted (select_number_columns X_train) X_train = Ok X_train_s /\
     transform_optional fitted (select_number_columns X_train) X_test = Ok X_test_s /\
     transform_optional fitted (select_number_columns X_train) X_val = Ok X_val_s).
Proof.
  unfold scale_features. intros H.
  destruct (select_number_columns X_train) as [|c cols] eqn:Hcols.
  { injection H as <- <- <- <-. left. done. }
  right. split; [done|].
  apply rbind_ok in H as (fitted & Hfit & H).
  apply rbind_ok in H as (Xtr & Htr & H).
  apply rbind_ok in H as (Xte & Hte & H).
  apply rbind_ok in H as (Xva & Hva & [= <- <- <- <-]).
  apply rbind_ok in Hfit as (sc0 & Hsc0 & Hfit).
  apply rbind_ok in Hfit as (filled & Hfilled & [= <-]).
  unfold fit_data in Hfilled. apply rbind_ok in Hfilled as (data & Hdata & [= <-]).
  exists sc0, data, (scaler_fit standard_fit minmax_fit sc0 (prefit_fill <$> data)).
  split; [|done].
  destruct (decide (scaler_type = "standard")); [left; split; congruence|].
  destruct (decide (scaler_type = "minmax")); [right; split; congruence | discriminate].
Qed.

End ScalerFacts.

Lemma prefit_fill_all_nan (col : list float) :
  bool_all (PrimFloat.is_nan <$> col) = true ->
  prefit_fill col = replicate (length col) 0%float.
Proof.
  intros H. unfold prefit_fill. rewrite H.
  induction col as [|c col IH]; [done|]. simpl. f_equal. apply IH.
  unfold bool_all in *. simpl in H. by apply andb_true_iff in H as [_ H].
Qed.

Lemma prefit_fill_lookup (col : list float) (i : nat) (x : float) :
  bool_all (PrimFloat.is_nan <$> col) = false ->
  col !! i = Some x ->
  prefit_fill col !! i = Some (if PrimFloat.is_nan x then median col else x).
Proof.
  intros H Hi. unfold prefit_fill. rewrite H.
  destruct (bool_any (PrimFloat.is_nan <$> col)) eqn:Hany.
  - by apply fillna_lookup.
  - rewrite <- (fillna_no_nan (median col) col Hany) at 1. by apply fillna_lookup.
Qed.

Section ScalerClaims.

Variable standard_fit : list float -> standard_column.
Variable minmax_fit : list float -> minmax_column.

(** C4: when [scale_features] fits a new scaler, the scaler is fitted on the
    numeric training columns after this fill: a column with every value missing
    becomes all zeros, and in any other column each missing value becomes
    that column's own median (the values present are kept); whereas the three
    frames that are returned hold, in every scaled column, the fitted scaler's
    transform of the value itself, or of zero (not of the median) where the
    value is missing. *)
Theorem C4_fit_and_transform_imputation
  (X_train : DataFrame) (X_test X_val : option DataFrame) (scaler_type : string)
  (X_train_s : DataFrame) (X_test_s X_val_s : option DataFrame) (sc : scaler) :
  NoDup (column_names X_train) ->
  scale_features standard_fit minmax_fit X_train X_test X_val scaler_type None =
    Ok (X_train_s, X_test_s, X_val_s, Some sc) ->
  let numeric_cols := select_number_columns X_train in
  exists (data : list (list float)) (sc0 : scaler),
    numeric_data X_train numeric_cols = Ok data /\
    sc = scaler_fit standard_fit minmax_fit sc0 (prefit_fill <$> data) /\
    (forall col, col ∈ data ->
       (bool_all (PrimFloat.is_nan <$> col) = true ->
        prefit_fill col = replicate (length col) 0%float) /\
       (bool_all (PrimFloat.is_nan <$> col) = false ->
        forall i x, col !! i = Some x ->
          prefit_fill col !! i = Some (if PrimFloat.is_nan x then median col else x))) /\
    (forall X Xs,
       X = X_train /\ Xs = X_train_s \/
       X_test = Some X /\ X_test_s = Some Xs \/
       X_val = Some X /\ X_val_s = Some Xs ->
       forall j name i x,
         numeric_cols !! j = Some name ->
         numeric_at X name i = Some x ->
         exists col' y,
           get_column name Xs = Some (SFloat64 col') /\ col' !! i = Some y /\
           scaler_cell sc j (if PrimFloat.is_nan x then 0%float else x) = Some y).
Proof.
  intros Hnd H numeric_cols.
  apply scale_features_fit_inv in H as [(_ & [=] & _)|(Hne & sc0 & data & fitted & _ & Hdata
    & Hfit & [= Hsc] & Htr & Hte & Hva)].
  subst fitted sc. exists data, sc0. split; [done|]. split; [done|]. split.
  - intros col _. split; [apply prefit_fill_all_nan|].
    intros Hb i x. by apply prefit_fill_lookup.
  - pose proof (select_number_columns_NoDup _ Hnd) as Hcols.
    intros X Xs [[HX HXs]|[[HX HXs]|[HX HXs]]] j name i x Hj Hx; subst.
    + by eapply transform_frame_lookup.
    + simpl in Hte. destruct (transform_frame _ _ X) as [X'|e] eqn:HX; [|discriminate].
      injection Hte as <-. by eapply transform_frame_lookup.
    + simpl in Hva. destruct (transform_frame _ _ X) as [X'|e] eqn:HX; [|discriminate].
      injection Hva as <-. by eapply transform_frame_lookup.
Qed.

Section TrainerClaims.

Variables keras_model xgb_model lgbm_model training_history : Type.
Variable keras_build : gmap string pyval -> result keras_model.
Variable xgb_new : option Z -> gmap string pyval -> result xgb_model.
Variable lgbm_new : option Z -> gmap string pyval -> result lgbm_model.

Lemma ModelTrainer_init_supported mt params rs t :
  ModelTrainer_init keras_model xgb_model lgbm_model training_history
    keras_build xgb_new lgbm_new mt params rs = Ok t ->
  model_type t = mt /\ mt ∈ SUPPORTED_MODEL_TYPES.
Proof.
  unfold ModelTrainer_init, SUPPORTED_MODEL_TYPES.
  destruct (decide (mt = "neural_network")) as [->|H1].
  { intros H. split; [|set_solver].
    destruct (py_truthy _); [|by injection H as <-].
    unfold build_neural_network in H. simpl in H.
    destruct (default ∅ params !! "input_dim") as [[]|]; try discriminate;
      by apply rbind_ok in H as (m0 & _ & [= <-]). }
  destruct (decide (mt = "xgboost")) as [->|H2].
  { intros H. apply rbind_ok in H as (m & _ & [= <-]). split; [done | set_solver]. }
  destruct (decide (mt = "lightgbm")) as [->|H3].
  { intros H. apply rbind_ok in H as (m & _ & [= <-]). split; [done | set_solver]. }
  discriminate.
Qed.

(** C8: a model type outside the three supported ones makes the constructor
    of [ModelTrainer] raise [ValueError]; no trainer object exists on which
    [train] could be called, and every trainer that was constructed has a
    supported type.  [scale_features], when it has numeric columns to scale and
    no existing scaler, raises [ValueError] for a scaler type outside
    "standard" and "minmax", before anything is fitted or transformed. *)
Theorem C8_configuration_errors_fail_fast :
  (forall mt params rs,
     mt ∉ SUPPORTED_MODEL_TYPES ->
     ModelTrainer_init keras_model xgb_model lgbm_model training_history
       keras_build xgb_new lgbm_new mt params rs =
     Raise (ValueError ("Unsupported model_type: " +:+ mt +:+
                        ". Supported types: neural_network, xgboost, lightgbm"))) /\
  (forall mt params rs t,
     ModelTrainer_init keras_model xgb_model lgbm_model training_history
       keras_build xgb_new lgbm_new mt params rs = Ok t ->
     model_type t ∈ SUPPORTED_MODEL_TYPES) /\
  (forall X_train X_test X_val scaler_type,
     select_number_columns X_train <> [] ->
     scaler_type ∉ ["standard"; "minmax"] ->
     scale_features standard_fit minmax_fit X_train X_test X_val scaler_type None =
     Raise (ValueError "scaler_type must be 'standard' or 'minmax'")).
Proof.
  split; [|split].
  - intros mt params rs Hn.
    unfold ModelTrainer_init, SUPPORTED_MODEL_TYPES in *.
    rewrite !decide_False by set_solver. done.
  - intros mt params rs t H.
    apply ModelTrainer_init_supported in H as [-> H]. done.
  - intros X_train X_test X_val scaler_type Hne Hn. unfold scale_features.
    destruct (select_number_columns X_train); [done|].
    rewrite !decide_False by set_solver. done.
Qed.

End TrainerClaims.

End ScalerClaims.

(** ** The exported scaler parameters *)

Lemma select_number_columns_dtypes (X : DataFrame) :
  select_number_columns X = (filter (fun c => np_number_dtype c.2 = true) (dtypes X)).*1.
Proof.
  unfold select_number_columns, dtypes.
  induction (columns X) as [|[n c] cols IH]; [done|].
  rewrite fmap_cons, !filter_cons.
  destruct c; cbn [snd prod_map dtype_of is_np_number np_number_dtype id fst];
    repeat case_decide; try done; rewrite ?fmap_cons; cbn [fst]; by rewrite IH.
Qed.

Lemma numeric_cols_scaled_dtypes (X : DataFrame) :
  numeric_cols_scaled X = (filter (fun c => numeric_dtype c.2 = true) (dtypes X)).*1.
Proof.
  unfold numeric_cols_scaled, dtypes.
  induction (columns X) as [|[n c] cols IH]; [done|].
  rewrite fmap_cons, !filter_cons.
  destruct c; cbn [snd prod_map dtype_of is_numeric_dtype numeric_dtype id fst];
    repeat case_decide; try done; rewrite ?fmap_cons; cbn [fst]; by rewrite IH.
Qed.

(** Without a boolean column the export names exactly the scaled columns. *)
Lemma numeric_cols_scaled_no_bool (X : DataFrame) :
  Forall (fun c : string * dtype => c.2 <> bool_) (dtypes X) ->
  numeric_cols_scaled X = select_number_columns X.
Proof.
  rewrite numeric_cols_scaled_dtypes, select_number_columns_dtypes.
  induction 1 as [|[n d] l Hd _ IH]; [done|].
  rewrite !filter_cons. cbn [snd] in *.
  destruct d; cbn [numeric_dtype np_number_dtype];
    repeat case_decide; try done; rewrite ?fmap_cons; by rewrite ?IH.
Qed.

Lemma NoDup_zip_fst {A} (names : list string) (vals : list A) :
  NoDup names -> NoDup (zip names vals).*1.
Proof.
  revert vals. induction names as [|n names IH]; intros vals Hnd; [constructor|].
  destruct vals as [|v vals]; [constructor|].
  apply NoDup_cons in Hnd as [Hn Hnd]. simpl. apply NoDup_cons. split; [|by apply IH].
  intros Hin. apply Hn. apply list_elem_of_fmap in Hin as ([n' v'] & -> & Hin).
  simpl. by apply elem_of_zip_l in Hin.
Qed.

(** [dict(zip(names, values))[name]] for names without repetition. *)
Lemma py_dict_zip_lookup {A} (names : list string) (vals : list A) (j : nat)
  (name : string) (v : A) :
  NoDup names ->
  names !! j = Some name ->
  vals !! j = Some v ->
  py_dict (zip names vals) !! name = Some v.
Proof.
  intros Hnd Hn Hv. unfold py_dict. apply elem_of_list_to_map.
  - rewrite fmap_reverse, reverse_Permutation. by apply NoDup_zip_fst.
  - apply elem_of_reverse. apply (list_elem_of_lookup_2 _ j).
    rewrite lookup_zip_with, Hn. simpl. by rewrite Hv.
Qed.

Lemma exported_param_standard (X : DataFrame) (p : list standard_column) (e : ScalerExport)
  (kind name : string) :
  export_scaler X (Some (StandardScaler (Some p))) = Some e ->
  exported_param e "mean" name = py_dict (zip (numeric_cols_scaled X) (mean_ p)) !! name /\
  exported_param e "scale" name = py_dict (zip (numeric_cols_scaled X) (scale_ p)) !! name.
Proof.
  intros [= <-]. unfold exported_param, py_dict. simpl.
  rewrite lookup_insert_ne, !lookup_insert_eq by done. done.
Qed.

Section ExportClaims.

Variable standard_fit : list float -> standard_column.
Variable minmax_fit : list float -> minmax_column.

(** Fidelity of the exported parameters.  For a run that fits the
    standardization scaler on a feature matrix without a boolean column (and
    without a repeated column name), the metadata's scaler block maps each
    scaled feature name to the mean and the scale that [fit] stored for that
    column, and recomputing [(x - mean) / scale] from the exported pair gives,
    bit for bit, what the scaler's own transform gives for a value of that
    column; it is also the value found in the scaled held-out frame wherever
    the raw value is present. *)
Theorem export_faithful_without_boolean_column
  (X_features_df X_train X_test : DataFrame) (X_val : option DataFrame)
  (X_train_s X_test_s : DataFrame) (X_val_s : option DataFrame) (sc : scaler) :
  NoDup (column_names X_features_df) ->
  Forall (fun c : string * dtype => c.2 <> bool_) (dtypes X_features_df) ->
  dtypes X_train = dtypes X_features_df ->
  scale_features standard_fit minmax_fit X_train (Some X_test) X_val "standard" None =
    Ok (X_train_s, Some X_test_s, X_val_s, Some sc) ->
  exists e,
    export_scaler X_features_df (Some sc) = Some e /\
    scaler_type_tag e = "standard" /\
    numeric_features_scaled e = select_number_columns X_train /\
    forall j name,
      select_number_columns X_train !! j = Some name ->
      exists mean scale,
        exported_param e "mean" name = Some mean /\
        exported_param e "scale" name = Some scale /\
        (forall x, scaler_cell sc j x = Some ((x - mean) / scale)%float) /\
        (forall i x,
           numeric_at X_test name i = Some x ->
           PrimFloat.is_nan x = false ->
           exists col', get_column name X_test_s = Some (SFloat64 col') /\
                        col' !! i = Some ((x - mean) / scale)%float).
Proof.
  intros Hnd Hbool Hdt H.
  assert (Hcols : numeric_cols_scaled X_features_df = select_number_columns X_train).
  { rewrite (numeric_cols_scaled_no_bool _ Hbool).
    by rewrite !select_number_columns_dtypes, Hdt. }
  assert (Hnd' : NoDup (select_number_columns X_train)).
  { rewrite <- Hcols, (numeric_cols_scaled_no_bool _ Hbool).
    by apply select_number_columns_NoDup. }
  apply scale_features_fit_inv in H as [(_ & [=] & _)|(Hne & sc0 & data & fitted & Hty & Hdata
    & Hfit & [= Hsc] & Htr & Hte & Hva)].
  destruct Hty as [[_ ->]|[[=] _]]. subst fitted sc. simpl in *.
  eexists. split; [reflexivity|]. split; [done|]. split; [done|].
  intros j name Hj.
  destruct (numeric_data_lookup _ _ _ Hdata) as [Hlen Hl].
  destruct (Hl j name Hj) as (s & col & Hs & Hc & Hd).
  set (c := standard_fit (prefit_fill col)).
  assert (Hp : (standard_fit <$> (prefit_fill <$> data)) !! j = Some c).
  { by rewrite !list_lookup_fmap, Hd. }
  exists (col_mean c), (col_scale c).
  unfold exported_param, py_dict at 1 3. simpl.
  rewrite lookup_insert_ne, !lookup_insert_eq by done. simpl. rewrite Hcols.
  split; [|split; [|split]].
  - apply (py_dict_zip_lookup _ _ j); [done..|].
    unfold mean_. by rewrite list_lookup_fmap, Hp.
  - apply (py_dict_zip_lookup _ _ j); [done..|].
    unfold scale_. by rewrite list_lookup_fmap, Hp.
  - intros x. by rewrite Hp.
  - intros i x Hx Hnan.
    destruct (transform_frame _ _ X_test) as [X'|e] eqn:HX; [|discriminate].
    injection Hte as <-.
    destruct (transform_frame_lookup _ _ _ _ _ _ _ _ Hnd' HX Hj Hx) as (col' & y & Hg & Hy & Hcell).
    rewrite Hnan in Hcell. simpl in Hcell. rewrite Hp in Hcell. simpl in Hcell.
    injection Hcell as <-. eauto.
Qed.

End ExportClaims.

(** ** The partitioner *)

Lemma take_rows_seq {A} (l : list A) : take_rows (seq 0 (length l)) l = l.
Proof.
  unfold take_rows. induction l as [|x l IH]; [done|].
  simpl. f_equal. rewrite <- fmap_S_seq.
  rewrite <- IH at 2. clear IH. generalize (seq 0 (length l)).
  intros p. induction p as [|i p IHp]; [done|]. rewrite fmap_cons. simpl.
  by rewrite IHp.
Qed.

Lemma take_rows_length {A} (p : list nat) (l : list A) :
  Forall (fun i => (i < length l)%nat) p -> length (take_rows p l) = length p.
Proof.
  unfold take_rows. induction 1 as [|i p Hi _ IH]; [done|].
  simpl. destruct (lookup_lt_is_Some_2 l i Hi) as [x ->]. simpl. f_equal. exact IH.
Qed.

(** Positions that cover the rows of a list select a rearrangement of it. *)
Lemma take_rows_cover {A} (p q : list nat) (l : list A) :
  p ++ q ≡ₚ seq 0 (length l) ->
  take_rows p l ++ take_rows q l ≡ₚ l.
Proof.
  intros H. trans (take_rows (seq 0 (length l)) l); [|by rewrite take_rows_seq].
  unfold take_rows. rewrite <- omap_app. by apply omap_Permutation.
Qed.

Lemma cover_in_range (p q : list nat) (n : nat) :
  p ++ q ≡ₚ seq 0 n ->
  Forall (fun i => (i < n)%nat) p /\ Forall (fun i => (i < n)%nat) q.
Proof.
  intros H. rewrite <- Forall_app. rewrite H. apply Forall_forall.
  intros i Hi%elem_of_seq. lia.
Qed.

Lemma validate_shuffle_split_sum (n : nat) (test_size : float) (n_train n_test : nat) :
  validate_shuffle_split n test_size = Ok (n_train, n_test) ->
  (n_train + n_test = n)%nat /\ (0 < n_train)%nat.
Proof.
  unfold validate_shuffle_split.
  destruct (_ || _); [discriminate|].
  destruct (float_ceil _) as [c|]; [|discriminate].
  destruct (Nat.eqb_spec (n - Z.to_nat c) 0); [discriminate|].
  intros [= <- <-]. lia.
Qed.

Section PartitionerFacts.

Variable rng : Type.
Variable RandomState : Z -> rng.
Variable rng_permutation : rng -> nat -> list nat * rng.
Variable stratified_shuffle_split :
  rng -> series -> nat -> nat -> result (list nat * list nat) * rng.

Abbreviation tts := (train_test_split rng RandomState rng_permutation stratified_shuffle_split).
Abbreviation split := (split_data rng RandomState rng_permutation stratified_shuffle_split).

(** With a seed the split draws from a fresh generator: the global one is
    neither read nor advanced. *)
Lemma train_test_split_seeded (g g0 : rng) X y test_size (seed : Z) stratify :
  tts g X y test_size (Some seed) stratify =
  ((tts g0 X y test_size (Some seed) stratify).1, g).
Proof.
  unfold train_test_split.
  destruct (negb _); [done|].
  destruct (validate_shuffle_split _ _) as [[n_train n_test]|e]; [|done].
  destruct stratify as [labels|].
  - by destruct (stratified_shuffle_split _ _ _ _) as [positions r'].
  - unfold shuffle_split. by destruct (rng_permutation _ _) as [permutation r'].
Qed.

(** C2: two calls of [split_data] with the same frame, labels, fractions and
    integer seed return the same partitions, whatever state numpy's global
    generator is in at either call (and they leave that state alone). *)
Theorem C2_split_determinism (g1 g2 : rng) (X : DataFrame) (y : Series)
  (test_size : float) (validation_size : option float) (seed : Z)
  (stratify : option Series) :
  (split g1 X y test_size validation_size (Some seed) stratify).1 =
  (split g2 X y test_size validation_size (Some seed) stratify).1 /\
  (split g1 X y test_size validation_size (Some seed) stratify).2 = g1.
Proof.
  unfold split_data.
  set (X' := if bool_decide (index X = sindex y) then X else reset_index X).
  set (y' := if bool_decide (index X = sindex y) then y else reset_index_series y).
  set (st := match stratify with
             | Some s => if bool_decide (sindex s = sindex y') then Some s
                         else Some (reset_index_series s)
             | None => None
             end).
  rewrite (train_test_split_seeded g1 g2), (train_test_split_seeded g2 g2).
  destruct (tts g2 X' y' test_size (Some seed) (values <$> st)) as [[[[[Xtv Xte] ytv] yte]|e] g'];
    simpl; [|done].
  destruct validation_size as [vs|]; [|done].
  destruct (PrimFloat.ltb 0 vs); [|done].
  rewrite (train_test_split_seeded g1 g2), (train_test_split_seeded g2 g2).
  by destruct (tts g2 Xtv ytv vs (Some seed) _) as [[[[[Xtr Xva] ytr] yva]|e] g''].
Qed.

(** What the two external shufflers are relied on for: [permutation(n)] is a
    permutation of [range(n)], and a stratified split that succeeds returns
    training and test positions that together are one. *)
Hypothesis permutation_spec :
  forall r n, (rng_permutation r n).1 ≡ₚ seq 0 n.
Hypothesis stratified_spec :
  forall r labels n_train n_test tr te r',
    stratified_shuffle_split r labels n_train n_test = (Ok (tr, te), r') ->
    tr ++ te ≡ₚ seq 0 (n_train + n_test) /\ length te = n_test.

Lemma train_test_split_partition g X y test_size random_state stratify
  X_train X_test y_train y_test g' :
  tts g X y test_size random_state stratify = (Ok (X_train, X_test, y_train, y_test), g') ->
  exists p_train p_test n_train n_test,
    validate_shuffle_split (length (index X)) test_size = Ok (n_train, n_test) /\
    p_train ++ p_test ≡ₚ seq 0 (length (index X)) /\
    length p_test = n_test /\
    length (sindex y) = length (index X) /\
    X_train = iloc p_train X /\ X_test = iloc p_test X /\
    y_train = iloc_series p_train y /\ y_test = iloc_series p_test y.
Proof using permutation_spec stratified_spec.
  unfold train_test_split.
  case_bool_decide as Hlen; simpl; [|intros [=]].
  destruct (validate_shuffle_split _ _) as [[n_train n_test]|e] eqn:Hv; [|intros [=]].
  destruct (validate_shuffle_split_sum _ _ _ _ Hv) as [Hsum Hpos].
  set (r := match random_state with Some seed => RandomState seed | None => g end).
  destruct stratify as [labels|].
  - destruct (stratified_shuffle_split r labels n_train n_test) as [[[tr te]|e] r'] eqn:Hs;
      simpl; intros [= <- <- <- <- _].
    destruct (stratified_spec _ _ _ _ _ _ _ Hs) as [Hp Hl]. rewrite Hsum in Hp.
    by exists tr, te, n_train, n_test.
  - unfold shuffle_split. pose proof (permutation_spec r (length (index X))) as Hp.
    destruct (rng_permutation r (length (index X))) as [permutation r']. simpl in *.
    intros [= <- <- <- <- _].
    assert (Hlp : length permutation = length (index X)).
    { by rewrite Hp, length_seq. }
    exists (take n_train (drop n_test permutation)), (take n_test permutation), n_train, n_test.
    split; [done|]. split; [|split; [rewrite length_take; lia | done]].
    rewrite take_ge by (rewrite length_drop; lia).
    rewrite <- Hp. rewrite (comm (++)). by rewrite take_drop.
Qed.

(** The partitions of a call that returns three of them. *)
Lemma split_data_partitions g X y test_size validation_size random_state
  stratify X_train X_val X_test y_train y_val y_test g' :
  index X = sindex y ->
  split g X y test_size (Some validation_size) random_state stratify =
    (Ok (TrainValTest X_train X_val X_test y_train y_val y_test), g') ->
  exists n_rest n_test n_train n_val,
    validate_shuffle_split (length (index X)) test_size = Ok (n_rest, n_test) /\
    validate_shuffle_split n_rest validation_size = Ok (n_train, n_val) /\
    length (index X_test) = n_test /\
    length (index X_val) = n_val /\
    length (index X_train) = n_train /\
    (n_train + n_val + n_test = length (index X))%nat /\
    index X_train ++ index X_val ++ index X_test ≡ₚ index X /\
    (NoDup (index X) ->
       (forall k, k ∈ index X_train -> (k ∉ index X_val) /\ (k ∉ index X_test)) /\
       (forall k, k ∈ index X_val -> k ∉ index X_test)) /\
    sindex y_train = index X_train /\ sindex y_val = index X_val /\
    sindex y_test = index X_test /\
    exists p_rest p_test q_train q_val,
      p_rest ++ p_test ≡ₚ seq 0 (length (index X)) /\
      q_train ++ q_val ≡ₚ seq 0 n_rest /\
      X_test = iloc p_test X /\ y_test = iloc_series p_test y /\
      X_train = iloc q_train (iloc p_rest X) /\
      y_train = iloc_series q_train (iloc_series p_rest y) /\
      X_val = iloc q_val (iloc p_rest X) /\
      y_val = iloc_series q_val (iloc_series p_rest y).
Proof using permutation_spec stratified_spec.
  intros Hidx. unfold split_data. rewrite bool_decide_eq_true_2 by done.
  set (st := match stratify with
             | Some s => if bool_decide (sindex s = sindex y) then Some s
                         else Some (reset_index_series s)
             | None => None
             end).
  destruct (tts g X y test_size random_state (values <$> st))
    as [[[[[Xtv Xte] ytv] yte]|e] g1] eqn:H1; [|intros [=]].
  destruct (PrimFloat.ltb 0 validation_size); [|intros [=]].
  destruct (tts g1 Xtv ytv validation_size random_state _)
    as [[[[[Xtr Xva] ytr] yva]|e] g2] eqn:H2; intros [= <- <- <- <- <- <- <-].
  apply train_test_split_partition in H1
    as (p_rest & p_test & n_rest & n_test & Hv1 & Hp1 & Hl1 & Hy1 & -> & -> & -> & ->).
  destruct (cover_in_range _ _ _ Hp1) as [Hr1 Ht1].
  assert (Hrest : length (take_rows p_rest (index X)) = n_rest).
  { rewrite take_rows_length by done.
    pose proof (Permutation_length Hp1) as Hlen.
    rewrite length_app, length_seq in Hlen.
    destruct (validate_shuffle_split_sum _ _ _ _ Hv1). lia. }
  apply train_test_split_partition in H2
    as (q_train & q_val & n_train & n_val & Hv2 & Hp2 & Hl2 & Hy2 & -> & -> & -> & ->).
  simpl in Hv2, Hp2. rewrite Hrest in Hv2, Hp2.
  destruct (cover_in_range _ _ _ Hp2) as [Hr2 Ht2].
  destruct (validate_shuffle_split_sum _ _ _ _ Hv1) as [Hs1 _].
  destruct (validate_shuffle_split_sum _ _ _ _ Hv2) as [Hs2 _].
  assert (Hperm : take_rows q_train (take_rows p_rest (index X)) ++
                  take_rows q_val (take_rows p_rest (index X)) ++
                  take_rows p_test (index X) ≡ₚ index X).
  { rewrite (assoc (++)). rewrite take_rows_cover by (by rewrite Hrest).
    by apply take_rows_cover. }
  exists n_rest, n_test, n_train, n_val. simpl.
  split; [done|]. split; [done|].
  split; [by rewrite take_rows_length|].
  split; [rewrite take_rows_length; [done | by rewrite Hrest]|].
  split.
  { rewrite take_rows_length by (by rewrite Hrest).
    pose proof (Permutation_length Hp2) as Hlen.
    rewrite length_app, length_seq in Hlen. lia. }
  split; [lia|]. split; [done|]. split.
  { intros Hnd. rewrite <- Hperm in Hnd.
    apply NoDup_app in Hnd as (_ & Hd1 & Hnd). apply NoDup_app in Hnd as (_ & Hd2 & _).
    split; [|done]. intros k Hk. specialize (Hd1 k Hk).
    rewrite elem_of_app in Hd1. tauto. }
  rewrite <- Hidx. split; [done|]. split; [done|]. split; [done|].
  exists p_rest, p_test, q_train, q_val. done.
Qed.

(** Without stratification a split returns as soon as it would not leave the
    training part empty. *)
Lemma train_test_split_returns g X y test_size random_state n_train n_test :
  length (sindex y) = length (index X) ->
  validate_shuffle_split (length (index X)) test_size = Ok (n_train, n_test) ->
  exists p_train p_test g',
    tts g X y test_size random_state None =
      (Ok (iloc p_train X, iloc p_test X, iloc_series p_train y, iloc_series p_test y), g') /\
    length (take_rows p_train (index X)) = n_train /\
    length (take_rows p_train (sindex y)) = n_train.
Proof using permutation_spec.
  intros Hlen Hv. unfold train_test_split.
  rewrite bool_decide_eq_true_2 by done. simpl. rewrite Hv. unfold shuffle_split.
  set (r := match random_state with Some seed => RandomState seed | None => g end).
  pose proof (permutation_spec r (length (index X))) as Hp.
  destruct (rng_permutation r (length (index X))) as [permutation r']. simpl in *.
  destruct (validate_shuffle_split_sum _ _ _ _ Hv) as [Hs _].
  assert (Hlp : length permutation = length (index X)) by (by rewrite Hp, length_seq).
  assert (Hin : Forall (fun i => (i < length (index X))%nat)
                  (take n_train (drop n_test permutation))).
  { apply Forall_take, Forall_drop. rewrite Hp. apply Forall_forall.
    intros i Hi%elem_of_seq. lia. }
  eexists _, _, _. split; [reflexivity|].
  rewrite !take_rows_length by (by rewrite ?Hlen).
  rewrite length_take, length_drop. lia.
Qed.

Lemma split_data_returns g X y test_size validation_size random_state
  n_rest n_test n_train n_val :
  index X = sindex y ->
  validate_shuffle_split (length (index X)) test_size = Ok (n_rest, n_test) ->
  validate_shuffle_split n_rest validation_size = Ok (n_train, n_val) ->
  PrimFloat.ltb 0 validation_size = true ->
  exists X_train X_val X_test y_train y_val y_test g',
    split g X y test_size (Some validation_size) random_state None =
      (Ok (TrainValTest X_train X_val X_test y_train y_val y_test), g').
Proof using permutation_spec.
  intros Hidx Hv1 Hv2 Hpos. unfold split_data.
  rewrite bool_decide_eq_true_2 by done. simpl.
  destruct (train_test_split_returns g X y test_size random_state _ _
              ltac:(by rewrite Hidx) Hv1) as (p_rest & p_test & g1 & -> & Hl1 & Hl2).
  rewrite Hpos.
  destruct (train_test_split_returns g1 (iloc p_rest X) (iloc_series p_rest y)
              validation_size random_state n_train n_val) as (q_train & q_val & g2 & -> & _).
  { simpl. by rewrite Hl1, Hl2. }
  { simpl. by rewrite Hl1. }
  eauto 10.
Qed.

(** C3 (amended): when the features and the labels carry the same index and
    [split_data] is given a validation fraction, every call that returns
    yields three partitions taken from disjoint sets of rows that together
    are all the rows: their indexes, one after the other, are a rearrangement
    of the index of [X] (so they are pairwise disjoint as soon as the index has
    no repeated label), and the labels are cut at the same rows.  The test set
    is cut first, with [ceil(test_size * n)] of the [n] rows, and the
    validation set out of the [n_rest] rows that are left, with
    [ceil(validation_size * n_rest)] of them.  Without stratification the
    call returns whenever neither split would leave its training part
    empty; otherwise scikit-learn refuses the split and the call raises. *)
Theorem C3_partitions_disjoint_exhaustive g X y test_size validation_size random_state :
  index X = sindex y ->
  (forall stratify X_train X_val X_test y_train y_val y_test g',
     split g X y test_size (Some validation_size) random_state stratify =
       (Ok (TrainValTest X_train X_val X_test y_train y_val y_test), g') ->
     exists n_rest n_test n_train n_val,
       validate_shuffle_split (length (index X)) test_size = Ok (n_rest, n_test) /\
       validate_shuffle_split n_rest validation_size = Ok (n_train, n_val) /\
       length (index X_test) = n_test /\
       length (index X_val) = n_val /\
       length (index X_train) = n_train /\
       (n_train + n_val + n_test = length (index X))%nat /\
       index X_train ++ index X_val ++ index X_test ≡ₚ index X /\
       (NoDup (index X) ->
          (forall k, k ∈ index X_train -> (k ∉ index X_val) /\ (k ∉ index X_test)) /\
          (forall k, k ∈ index X_val -> k ∉ index X_test)) /\
       sindex y_train = index X_train /\ sindex y_val = index X_val /\
       sindex y_test = index X_test /\
       exists p_rest p_test q_train q_val,
         p_rest ++ p_test ≡ₚ seq 0 (length (index X)) /\
         q_train ++ q_val ≡ₚ seq 0 n_rest /\
         X_test = iloc p_test X /\ y_test = iloc_series p_test y /\
         X_train = iloc q_train (iloc p_rest X) /\
         y_train = iloc_series q_train (iloc_series p_rest y) /\
         X_val = iloc q_val (iloc p_rest X) /\
         y_val = iloc_series q_val (iloc_series p_rest y)) /\
  (forall n_rest n_test n_train n_val,
     validate_shuffle_split (length (index X)) test_size = Ok (n_rest, n_test) ->
     validate_shuffle_split n_rest validation_size = Ok (n_train, n_val) ->
     PrimFloat.ltb 0 validation_size = true ->
     exists X_train X_val X_test y_train y_val y_test g',
       split g X y test_size (Some validation_size) random_state None =
         (Ok (TrainValTest X_train X_val X_test y_train y_val y_test), g')).
Proof using permutation_spec stratified_spec.
  intros Hidx. split.
  - intros. by eapply split_data_partitions.
  - intros. by eapply split_data_returns.
Qed.

End PartitionerFacts.

(** ** A run without records *)

Section EmptyRun.

Variable int_of_str : string -> option Z.
Variable series_mode : list pyval -> list pyval.
Variable timestamp : Type.
Variable to_datetime : pyval -> option timestamp.
Variable dt_hour dt_dayofweek : timestamp -> Z.
Variable np_sin np_cos : float -> float.
Variable rng : Type.
Variable RandomState : Z -> rng.
Variable rng_permutation : rng -> nat -> list nat * rng.
Variable stratified_shuffle_split :
  rng -> series -> nat -> nat -> result (list nat * list nat) * rng.
Variable standard_fit : list float -> standard_column.
Variable minmax_fit : list float -> minmax_column.
Variables keras_model xgb_model lgbm_model training_history : Type.
Variable keras_build : gmap string pyval -> result keras_model.
Variable xgb_new : option Z -> gmap string pyval -> result xgb_model.
Variable lgbm_new : option Z -> gmap string pyval -> result lgbm_model.
Variable keras_fit :
  keras_model -> gmap string pyval -> DataFrame -> Series ->
  option (DataFrame * Series) -> option pyval -> result (keras_model * training_history).
Variable xgb_fit :
  xgb_model -> gmap string pyval -> DataFrame -> Series ->
  option (DataFrame * Series * pyval) -> result xgb_model.
Variable lgbm_fit :
  lgbm_model -> gmap string pyval -> DataFrame -> Series ->
  option (DataFrame * Series * pyval) -> result lgbm_model.
Variable firestore_stream : string -> string -> option Z -> result (list (gmap string pyval)).
Variable json_normalize : list (gmap string pyval) -> result DataFrame.
Variable evaluate_model :
  model_handle keras_model xgb_model lgbm_model -> option DataFrame -> Series -> string ->
  gmap string pyval.
Variable tfjs_save : keras_model -> string -> bool.
Variable env_gcp_project_id : option string.
Variable now_strftime now_isoformat : string.

Abbreviation run_with :=
  (run_pipeline_with int_of_str series_mode timestamp to_datetime dt_hour dt_dayofweek
     np_sin np_cos rng RandomState rng_permutation stratified_shuffle_split
     standard_fit minmax_fit keras_model xgb_model lgbm_model training_history
     keras_build xgb_new lgbm_new keras_fit xgb_fit lgbm_fit
     firestore_stream json_normalize evaluate_model tfjs_save
     now_strftime now_isoformat).

Lemma fetch_no_record (project_id collection_name : string) (limit : option Z) :
  yields_no_record firestore_stream project_id collection_name limit ->
  fetch_from_firestore firestore_stream json_normalize project_id collection_name limit
  = empty_frame.
Proof.
  unfold yields_no_record, fetch_from_firestore.
  destruct (firestore_stream _ _ _) as [[|d docs]|e]; done.
Qed.

(** C9: when the ingestion of a run comes back without a record (an empty
    collection, or a fetch that failed), the pipeline prints the banner of
    stage 1 and "No data fetched (mock response was empty). Exiting.", and
    returns: no later stage is entered and no file is written, neither a
    model, nor a scaler, nor a metadata document. *)
Theorem C9_zero_records_halts (config : Config)
  (w : world rng keras_model xgb_model lgbm_model) :
  yields_no_record firestore_stream (gcp_project_id config)
    (firestore_collection_train config) (max_documents_to_fetch config) ->
  exists w',
    run_with config w = (Ok tt, w') /\
    events w' = (events w ++
      [EvStage 1 "Data Ingestion";
       EvPrint "No data fetched (mock response was empty). Exiting."])%list /\
    np_random w' = np_random w /\
    files_written w' = files_written w /\
    stages_entered w' = (stages_entered w ++ [1%nat])%list.
Proof.
  intros H. unfold run_pipeline_with. rewrite (fetch_no_record _ _ _ H).
  eexists. split; [reflexivity|]. simpl. rewrite <- (assoc (++)). simpl.
  split; [done|]. split; [done|].
  unfold files_written, stages_entered. simpl.
  rewrite !omap_app. simpl. by rewrite app_nil_r.
Qed.

End EmptyRun.

(** * Concrete runs

    The theorems above at sample inputs, and the inputs at which a claim, read
    to the letter, does not hold. *)

Lemma rotate_Permutation {A} (n : nat) (l : list A) : rotate n l ≡ₚ l.
Proof. unfold rotate. rewrite (comm (++)). by rewrite take_drop. Qed.

Lemma sample_permutation_spec (r n : nat) : (Sample.rng_permutation r n).1 ≡ₚ seq 0 n.
Proof. apply rotate_Permutation. Qed.

Lemma sample_stratified_spec (r : nat) (labels : series) (n_train n_test : nat)
  (tr te : list nat) (r' : nat) :
  Sample.stratified_shuffle_split r labels n_train n_test = (Ok (tr, te), r') ->
  tr ++ te ≡ₚ seq 0 (n_train + n_test) /\ length te = n_test.
Proof.
  unfold Sample.stratified_shuffle_split. intros [= <- <- _]. split.
  - rewrite (comm (++)), take_drop. apply rotate_Permutation.
  - rewrite length_take. pose proof (Permutation_length (rotate_Permutation r
      (seq 0 (n_train + n_test)))) as H. rewrite length_seq in H. lia.
Qed.

(** C3, the claim as stated fails: it promises three partitions for every
    input with aligned indices, every valid test fraction and every positive
    validation fraction, but scikit-learn refuses a fraction outside (0, 1)
    and a split that would leave the training part empty.  Four rows with a
    test fraction of 0.2 and a validation fraction of 1.5; and two rows with
    0.2 and 0.25, where the test set takes one row and the validation set the
    other: [split_data] raises instead of returning partitions. *)
Lemma C3_counterexample_split_refused :
  index Sample.X = sindex Sample.y /\
  PrimFloat.ltb 0 1.5 = true /\
  split_data nat Sample.RandomState Sample.rng_permutation Sample.stratified_shuffle_split
    0%nat Sample.X Sample.y 0x1.999999999999ap-3 (Some 1.5%float) (Some 42) None =
  (Raise (ValueError "test_size should be a float in the (0, 1) range"), 0%nat) /\
  index (iloc [0; 1]%nat Sample.X) = sindex (iloc_series [0; 1]%nat Sample.y) /\
  validate_shuffle_split 2 0x1.999999999999ap-3 = Ok (1, 1)%nat /\
  split_data nat Sample.RandomState Sample.rng_permutation Sample.stratified_shuffle_split
    0%nat (iloc [0; 1]%nat Sample.X) (iloc_series [0; 1]%nat Sample.y)
    0x1.999999999999ap-3 (Some 0.25%float) (Some 42) None =
  (Raise (ValueError "the resulting train set will be empty"), 0%nat).
Proof. repeat split; vm_compute; reflexivity. Qed.

(** C3 at the four sample rows, test fraction 0.2 and validation fraction
    0.25: the call returns. *)
Lemma C3_witness :
  index Sample.X = sindex Sample.y /\
  exists X_train X_val X_test y_train y_val y_test g',
    split_data nat Sample.RandomState Sample.rng_permutation Sample.stratified_shuffle_split
      0%nat Sample.X Sample.y 0x1.999999999999ap-3 (Some 0.25%float) (Some 42) None =
    (Ok (TrainValTest X_train X_val X_test y_train y_val y_test), g').
Proof.
  split; [reflexivity|].
  destruct (C3_partitions_disjoint_exhaustive nat Sample.RandomState
              Sample.rng_permutation Sample.stratified_shuffle_split
              sample_permutation_spec sample_stratified_spec
              0%nat Sample.X Sample.y 0x1.999999999999ap-3 0.25%float (Some 42)
              eq_refl) as [_ H].
  apply (H 3 1 2 1)%nat; reflexivity.
Defined.

(** C4 at the sample matrix: "age" has nothing present and is fitted on
    zeros, "profit" is fitted with its median 3 in the place of the missing
    value, and the scaled frame holds the transform of zero there. *)
Lemma C4_witness :
  NoDup (column_names Sample.X) /\
  prefit_fill [1; np_nan; 3; 8]%float = [1; 3; 3; 8]%float /\
  prefit_fill [np_nan; np_nan; np_nan; np_nan] = [0; 0; 0; 0]%float /\
  exists X_train_s sc data sc0,
    scale_features Sample.standard_fit Sample.minmax_fit
      Sample.X None None "standard" None = Ok (X_train_s, None, None, Some sc) /\
    numeric_data Sample.X (select_number_columns Sample.X) = Ok data /\
    sc = scaler_fit Sample.standard_fit Sample.minmax_fit sc0 (prefit_fill <$> data) /\
    cell_at X_train_s "profit" 1 = PyFloat <$> scaler_cell sc 0 0.
Proof.
  assert (Hnd : NoDup (column_names Sample.X)).
  { apply (bool_decide_unpack _). vm_compute. exact I. }
  split; [exact Hnd|]. split; [reflexivity|]. split; [reflexivity|].
  destruct (scale_features Sample.standard_fit Sample.minmax_fit
              Sample.X None None "standard" None)
    as [[[[Xs [Xt|]] [Xv|]] [sc|]]|err] eqn:H;
    try (vm_compute in H; discriminate).
  destruct (C4_fit_and_transform_imputation Sample.standard_fit Sample.minmax_fit
              Sample.X None None "standard" Xs None None sc Hnd H)
    as (data & sc0 & Hdata & Hsc & _ & Hcells).
  exists Xs, sc, data, sc0. split; [reflexivity|]. split; [exact Hdata|].
  split; [exact Hsc|].
  destruct (Hcells Sample.X Xs (or_introl (conj eq_refl eq_refl))
              0%nat "profit" 1%nat np_nan eq_refl eq_refl) as (col' & y & Hcol & Hy & Hs).
  unfold cell_at. rewrite Hcol. change (is_nan np_nan) with true in Hs.
  cbn [series_cells]. rewrite list_lookup_fmap, Hy, Hs. reflexivity.
Defined.

(** C5 at a frame whose third record holds a string where the feature map
    should be: its row holds the missing sentinel for the profit, the gas cost
    and the ratio, and zero for the flash-loan flag and the core-token flag,
    although the first record sets them. *)
Lemma C5_witness :
  series_cells (esp_input_column Sample.ragged_df) !! 2%nat = Some (PyStr "n/a") /\
  lacks_feature_map (PyStr "n/a") = true /\
  exists df,
    feature_map_columns Sample.int_of_str Sample.ragged_df = Ok df /\
    cell_at df "A1_estimatedNetProfitUsd_PreEsp" 2 = Some (PyFloat np_nan) /\
    cell_at df "A3_initialProfitToGasRatio" 2 = Some (PyFloat np_nan) /\
    cell_at df "A5_usesFlashLoan" 2 = Some (PyInt 0) /\
    cell_at df "A10_tokenIsCore_Token0" 2 = Some (PyInt 0) /\
    cell_at df "A5_usesFlashLoan" 0 = Some (PyInt 1).
Proof.
  assert (Hcell : series_cells (esp_input_column Sample.ragged_df) !! 2%nat =
                  Some (PyStr "n/a")) by (vm_compute; reflexivity).
  split; [exact Hcell|]. split; [reflexivity|].
  destruct (feature_map_columns Sample.int_of_str Sample.ragged_df) as [df|e] eqn:H;
    [|vm_compute in H; discriminate].
  exists df. split; [reflexivity|].
  destruct (C5_default_completeness Sample.int_of_str Sample.series_mode Z
              Sample.to_datetime Sample.dt_hour Sample.dt_dayofweek
              Sample.np_sin Sample.np_cos Sample.ragged_df 2%nat (PyStr "n/a")
              Hcell eq_refl) as [Hdef _].
  assert (Hin : forall name r,
            bool_decide ((name, r) ∈ feature_rules) = true ->
            cell_at df name 2 = Some (declared_default r)).
  { intros name r Hb. apply (Hdef df H). apply (bool_decide_unpack _).
    rewrite Hb. exact I. }
  split; [apply (Hin _ (Get "estimatedNetProfitUsd_PreEsp")); vm_compute; reflexivity|].
  split; [apply (Hin _ ProfitToGasRatio); vm_compute; reflexivity|].
  split; [apply (Hin _ (Flag "usesFlashLoan")); vm_compute; reflexivity|].
  split; [apply (Hin _ (CoreToken "pathTokenAddress_0")); vm_compute; reflexivity|].
  vm_compute in H. injection H as <-. vm_compute. reflexivity.
Defined.

(** C5, the claim as stated fails: the extraction works on whole columns,
    so a record without a feature map is extracted only if every other record
    can be.  Beside a record whose flash-loan flag is present but null, the
    cast of the flag column to [int] raises, and no value is extracted for the
    record without a feature map either. *)
Lemma C5_counterexample_other_record_raises :
  series_cells (esp_input_column Sample.mixed_df) !! 0%nat = Some (PyFloat np_nan) /\
  lacks_feature_map (PyFloat np_nan) = true /\
  feature_map_columns Sample.int_of_str Sample.mixed_df =
    Raise (ValueError "cannot convert float NaN or infinity to integer") /\
  generate_features Sample.int_of_str Sample.series_mode Z Sample.to_datetime
    Sample.dt_hour Sample.dt_dayofweek Sample.np_sin Sample.np_cos
    Sample.mixed_df "v1" =
    Raise (ValueError "cannot convert float NaN or infinity to integer").
Proof. repeat split; vm_compute; reflexivity. Qed.



(** C7 at a gas cost of zero and a profit of 5: the denominator is the
    constant and the ratio is 5 / 1e-6, a finite number, in a float column as
    in an object column, where a missing profit gives NaN. *)
Lemma C7_witness :
  PrimFloat.eqb 0 0 = true /\
  ratio_denominator 0 = ratio_epsilon /\
  ratio_cell 5 0 = (5 / ratio_epsilon)%float /\
  profit_to_gas_ratio (SFloat64 [5%float]) (SFloat64 [0%float]) =
    Ok (SFloat64 [(5 / ratio_epsilon)%float]) /\
  profit_to_gas_ratio (SObject [PyInt 5; PyNone]) (SFloat64 [0; 3]%float) =
    Ok (SObject [PyFloat (5 / ratio_epsilon); PyFloat np_nan]) /\
  PrimFloat.ltb 4999999 (5 / ratio_epsilon) = true /\
  PrimFloat.ltb (5 / ratio_epsilon) 5000001 = true.
Proof.
  destruct C7_ratio_epsilon_guard as (_ & _ & Hcol & _ & _ & Hzero & _).
  destruct (Hzero 5%float 0%float eq_refl) as (Hden & _ & Hcell & _).
  split; [reflexivity|]. split; [exact Hden|]. split; [exact Hcell|].
  split; [rewrite Hcol; reflexivity|]. split; [reflexivity|]. split; reflexivity.
Defined.

(** C8 at the model type "random_forest" and the scaler type "robust". *)
Lemma C8_witness :
  ("random_forest" ∉ SUPPORTED_MODEL_TYPES) /\
  ModelTrainer_init unit unit unit unit Sample.keras_build Sample.xgb_new Sample.lgbm_new
    "random_forest" None (Some 42) =
  Raise (ValueError "Unsupported model_type: random_forest. Supported types: neural_network, xgboost, lightgbm") /\
  select_number_columns Sample.X <> [] /\
  ("robust" ∉ ["standard"; "minmax"]) /\
  scale_features Sample.standard_fit Sample.minmax_fit Sample.X None None "robust" None =
  Raise (ValueError "scaler_type must be 'standard' or 'minmax'").
Proof.
  destruct (C8_configuration_errors_fail_fast Sample.standard_fit Sample.minmax_fit
              unit unit unit unit Sample.keras_build Sample.xgb_new Sample.lgbm_new)
    as (Hinit & _ & Hscale).
  assert (H1 : "random_forest" ∉ SUPPORTED_MODEL_TYPES).
  { apply (bool_decide_unpack _). vm_compute. exact I. }
  assert (H2 : select_number_columns Sample.X <> []) by discriminate.
  assert (H3 : "robust" ∉ ["standard"; "minmax"]).
  { apply (bool_decide_unpack _). vm_compute. exact I. }
  split; [exact H1|]. split; [exact (Hinit "random_forest" None (Some 42) H1)|].
  split; [exact H2|]. split; [exact H3|].
  exact (Hscale Sample.X None None "robust" H2 H3).
Defined.

(** C9 at the default configuration, on a collection that cannot be reached
    and on an empty one: the run returns after stage 1 and has written
    nothing. *)
Lemma C9_witness :
  yields_no_record (fun _ _ _ => Raise (LibraryError "credentials not found"))
    "project" "v10_trade_attempts" (Some 10000) /\
  exists w',
    run_pipeline_with Sample.int_of_str Sample.series_mode Z Sample.to_datetime
      Sample.dt_hour Sample.dt_dayofweek Sample.np_sin Sample.np_cos
      nat Sample.RandomState Sample.rng_permutation Sample.stratified_shuffle_split
      Sample.standard_fit Sample.minmax_fit unit unit unit unit
      Sample.keras_build Sample.xgb_new Sample.lgbm_new
      Sample.keras_fit Sample.tree_fit Sample.tree_fit
      (fun _ _ _ => Raise (LibraryError "credentials not found"))
      Sample.json_normalize Sample.evaluate_model Sample.tfjs_save
      "20230101_100000" "2023-01-01T10:00:00"
      (hardcoded_config "project") Sample.start = (Ok tt, w') /\
    files_written w' = [] /\ stages_entered w' = [1%nat].
Proof.
  assert (H : yields_no_record (fun _ _ _ => Raise (LibraryError "credentials not found"))
                "project" "v10_trade_attempts" (Some 10000)) by exact I.
  split; [exact H|].
  destruct (C9_zero_records_halts Sample.int_of_str Sample.series_mode Z
              Sample.to_datetime Sample.dt_hour Sample.dt_dayofweek
              Sample.np_sin Sample.np_cos
              nat Sample.RandomState Sample.rng_permutation Sample.stratified_shuffle_split
              Sample.standard_fit Sample.minmax_fit unit unit unit unit
              Sample.keras_build Sample.xgb_new Sample.lgbm_new
              Sample.keras_fit Sample.tree_fit Sample.tree_fit
              (fun _ _ _ => Raise (LibraryError "credentials not found"))
              Sample.json_normalize Sample.evaluate_model Sample.tfjs_save
              "20230101_100000" "2023-01-01T10:00:00"
              (hardcoded_config "project") Sample.start H)
    as (w' & Hrun & _ & _ & Hfiles & Hstages).
  exists w'. split; [exact Hrun|]. split; [exact Hfiles | exact Hstages].
Defined.

(** C10 at the sample collection, where no document gives a path length: the
    column "A4_pathLength" of the returned matrix is missing in all six rows;
    and a string column with nothing present is filled with "missing". *)
Lemma C10_witness :
  (exists df,
     generate_features Sample.int_of_str Sample.series_mode Z Sample.to_datetime
       Sample.dt_hour Sample.dt_dayofweek Sample.np_sin Sample.np_cos
       Sample.raw_df "v1" = Ok df /\
     get_column "A4_pathLength" df = Some (SFloat64 (replicate 6 np_nan))) /\
  impute_column Sample.series_mode (SFloat64 [np_nan; np_nan]) =
    Ok (SFloat64 [np_nan; np_nan]) /\
  impute_column Sample.series_mode (SObject [PyNone; PyNone]) =
    Ok (SObject [PyStr "missing"; PyStr "missing"]).
Proof.
  destruct (C10_all_missing_numeric_stays_missing Sample.int_of_str Sample.series_mode Z
              Sample.to_datetime Sample.dt_hour Sample.dt_dayofweek
              Sample.np_sin Sample.np_cos) as (Hnum & Hgen & Hobj).
  split; [|split].
  - destruct (generate_features Sample.int_of_str Sample.series_mode Z Sample.to_datetime
                Sample.dt_hour Sample.dt_dayofweek Sample.np_sin Sample.np_cos
                Sample.raw_df "v1") as [df|e] eqn:H; [|vm_compute in H; discriminate].
    exists df. split; [reflexivity|].
    apply (Hgen Sample.raw_df df "v1" "A4_pathLength" "pathLength").
    + apply (bool_decide_unpack _). vm_compute. exact I.
    + vm_compute. discriminate.
    + set (cells := series_cells _). vm_compute in cells. subst cells.
      repeat (apply Forall_cons_2; [vm_compute; reflexivity|]). apply Forall_nil_2.
    + exact H.
  - apply (Hnum [np_nan; np_nan]). repeat constructor.
  - apply (Hobj [PyNone; PyNone]); [discriminate | repeat constructor | reflexivity].
Defined.

(** ** Contrasts *)

(** A feature matrix with a boolean column in front, which no run of the
    pipeline builds (the matrix of a run holds columns of floats and integers
    only) but a caller of [scale_features] can pass: the scaler is fitted on
    the three columns [select_dtypes(include=np.number)] keeps, the
    export pairs the four names [is_numeric_dtype] accepts with the three
    fitted parameters, and so shifts them by one: "profit" is exported with
    the mean and scale fitted for "hops", the boolean column with those of
    "profit", and "age" with none.  Recomputing the transform of 8 in column
    "profit" from the exported pair does not give the scaler's own value. *)
Lemma boolean_column_shifts_exported_parameters :
  select_number_columns Sample.X_with_bool = ["profit"; "hops"; "age"] /\
  numeric_cols_scaled Sample.X_with_bool = ["fresh"; "profit"; "hops"; "age"] /\
  exists X_train_s X_test_s p e,
    scale_features Sample.standard_fit Sample.minmax_fit
      Sample.X_with_bool (Some Sample.X_with_bool) None "standard" None =
      Ok (X_train_s, Some X_test_s, None, Some (StandardScaler (Some p))) /\
    mean_ p = [3.75; 2.75; 0]%float /\
    export_scaler Sample.X_with_bool (Some (StandardScaler (Some p))) = Some e /\
    exported_param e "mean" "fresh" = Some 3.75%float /\
    exported_param e "mean" "profit" = Some 2.75%float /\
    exported_param e "mean" "hops" = Some 0%float /\
    exported_param e "mean" "age" = None /\
    exists mean scale own,
      exported_param e "mean" "profit" = Some mean /\
      exported_param e "scale" "profit" = Some scale /\
      scaler_cell (StandardScaler (Some p)) 0 8 = Some own /\
      PrimFloat.ltb own 2 = true /\
      PrimFloat.ltb 6 ((8 - mean) / scale) = true.
Proof.
  split; [reflexivity|]. split; [reflexivity|].
  destruct (scale_features Sample.standard_fit Sample.minmax_fit
              Sample.X_with_bool (Some Sample.X_with_bool) None "standard" None)
    as [[[[Xs [Xt|]] [Xv|]] [[[p|]|[q|]]|]]|err] eqn:H;
    try (vm_compute in H; discriminate).
  exists Xs, Xt, p. eexists. split; [reflexivity|].
  assert (Hp : p = [ {| col_mean := 3.75; col_scale := col_scale (Sample.standard_fit [1; 3; 3; 8]%float) |};
                     {| col_mean := 2.75; col_scale := col_scale (Sample.standard_fit [2; 3; 2; 4]%float) |};
                     {| col_mean := 0; col_scale := 1 |} ]%float).
  { vm_compute in H. injection H as _ _ <-. vm_compute. reflexivity. }
  subst p. split; [reflexivity|]. split; [reflexivity|].
  repeat (split; [vm_compute; reflexivity|]).
  eexists _, _, _.
  repeat (split; [vm_compute; reflexivity|]). vm_compute. reflexivity.
Qed.

(** A run that does fetch records goes through the seven stages and writes
    the model, the scaler and the metadata document. *)
Lemma sample_run_writes_three_artifacts :
  let r := Sample.run (hardcoded_config "project") in
  r.1 = Ok tt /\
  stages_entered r.2 = [1; 2; 3; 4; 5; 6; 7]%nat /\
  files_written r.2 =
    ["trained_models/esp_model_neural_network_v1.0.0_20230101_100000_tfjs";
     "trained_models/esp_model_neural_network_v1.0.0_20230101_100000_scaler.joblib";
     "trained_models/esp_model_neural_network_v1.0.0_20230101_100000_metadata.json"].
Proof. vm_compute. repeat split; reflexivity. Qed.

(** Without a seed the partitions come from the global generator, and two
    calls on the same input differ with its state. *)
Lemma split_unseeded_follows_global_state :
  exists X_train X_train' X_val X_val' X_test X_test' y_train y_train'
         y_val y_val' y_test y_test' g g',
    split_data nat Sample.RandomState Sample.rng_permutation Sample.stratified_shuffle_split
      0%nat Sample.X Sample.y 0x1.999999999999ap-3 (Some 0.25%float) None None =
      (Ok (TrainValTest X_train X_val X_test y_train y_val y_test), g) /\
    split_data nat Sample.RandomState Sample.rng_permutation Sample.stratified_shuffle_split
      1%nat Sample.X Sample.y 0x1.999999999999ap-3 (Some 0.25%float) None None =
      (Ok (TrainValTest X_train' X_val' X_test' y_train' y_val' y_test'), g') /\
    index X_test = [0] /\ index X_test' = [1] /\ g = 2%nat /\ g' = 3%nat.
Proof. repeat eexists; vm_compute; reflexivity. Qed.

(** The seeded call on the sample rows: one test row, one validation row out
    of the three that remain, two training rows. *)
Lemma split_seeded_sample :
  exists X_train X_val X_test y_train y_val y_test,
    split_data nat Sample.RandomState Sample.rng_permutation Sample.stratified_shuffle_split
      0%nat Sample.X Sample.y 0x1.999999999999ap-3 (Some 0.25%float) (Some 42) None =
      (Ok (TrainValTest X_train X_val X_test y_train y_val y_test), 0%nat) /\
    index X_train = [0; 1] /\ index X_val = [3] /\ index X_test = [2].
Proof. repeat eexists; vm_compute; reflexivity. Qed.

(** [main] creates the output directory on import, before the run: the only
    trace of a run without records. *)
Lemma main_without_records :
  (main Sample.int_of_str Sample.series_mode Z Sample.to_datetime
     Sample.dt_hour Sample.dt_dayofweek Sample.np_sin Sample.np_cos
     nat Sample.RandomState Sample.rng_permutation Sample.stratified_shuffle_split
     Sample.standard_fit Sample.minmax_fit unit unit unit unit
     Sample.keras_build Sample.xgb_new Sample.lgbm_new
     Sample.keras_fit Sample.tree_fit Sample.tree_fit
     (fun _ _ _ => Ok []) Sample.json_normalize Sample.evaluate_model Sample.tfjs_save
     None "20230101_100000" "2023-01-01T10:00:00" Sample.start).2 =
  {| events := [EvMakedirs "trained_models"; EvStage 1 "Data Ingestion";
                EvPrint "No data fetched (mock response was empty). Exiting."];
     np_random := 0%nat |}.
Proof. vm_compute. reflexivity. Qed.

(** * Further properties of the sources *)

(** ** [split_data]: the two-way split, misaligned inputs, the test set *)

Lemma reset_index_length (X : DataFrame) :
  length (index (reset_index X)) = length (index X).
Proof. unfold reset_index. simpl. rewrite length_seqZ. lia. Qed.

Lemma reset_index_series_length (y : Series) :
  length (sindex (reset_index_series y)) = length (sindex y).
Proof. unfold reset_index_series. simpl. rewrite length_seqZ. lia. Qed.

Lemma reset_index_idemp (X : DataFrame) : reset_index (reset_index X) = reset_index X.
Proof. unfold reset_index. simpl. by rewrite length_seqZ, Nat2Z.id. Qed.

Lemma reset_index_series_idemp (y : Series) :
  reset_index_series (reset_index_series y) = reset_index_series y.
Proof. unfold reset_index_series. simpl. by rewrite length_seqZ, Nat2Z.id. Qed.

Lemma iloc_index_aligned (p : list nat) (X : DataFrame) (y : Series) :
  index X = sindex y -> index (iloc p X) = sindex (iloc_series p y).
Proof. intros H. simpl. by rewrite H. Qed.

Section SplitFacts.

Variable rng : Type.
Variable RandomState : Z -> rng.
Variable rng_permutation : rng -> nat -> list nat * rng.
Variable stratified_shuffle_split :
  rng -> series -> nat -> nat -> result (list nat * list nat) * rng.

Abbreviation tts := (train_test_split rng RandomState rng_permutation stratified_shuffle_split).
Abbreviation split := (split_data rng RandomState rng_permutation stratified_shuffle_split).

(** A validation fraction that is not positive (zero, negative, NaN) is no
    validation fraction. *)
Lemma split_data_validation_not_positive g X y test_size vs random_state stratify :
  PrimFloat.ltb 0 vs = false ->
  split g X y test_size (Some vs) random_state stratify =
  split g X y test_size None random_state stratify.
Proof.
  intros Hvs. unfold split_data.
  destruct (train_test_split _ _ _ _ _ _ _ _ _ _) as [[[[[Xtv Xte] ytv] yte]|e] g1]; [|done].
  by rewrite Hvs.
Qed.

(** Misaligned inputs are split as their re-indexed copies. *)
Lemma split_data_misaligned g X y test_size validation_size random_state stratify :
  index X <> sindex y ->
  split g X y test_size validation_size random_state stratify =
  split g (reset_index X) (reset_index_series y) test_size validation_size
    random_state stratify.
Proof.
  intros Hne. unfold split_data at 1 2.
  rewrite (bool_decide_eq_false_2 (index X = sindex y)) by done.
  case_bool_decide as Hal; [done|].
  by rewrite reset_index_idemp, reset_index_series_idemp.
Qed.

Hypothesis permutation_spec :
  forall r n, (rng_permutation r n).1 ≡ₚ seq 0 n.
Hypothesis stratified_spec :
  forall r labels n_train n_test tr te r',
    stratified_shuffle_split r labels n_train n_test = (Ok (tr, te), r') ->
    tr ++ te ≡ₚ seq 0 (n_train + n_test) /\ length te = n_test.

(** The shape of what [train_test_split] returns: rows of its inputs. *)
Lemma train_test_split_rows g X y test_size random_state stratify
  X_train X_test y_train y_test g' :
  tts g X y test_size random_state stratify = (Ok (X_train, X_test, y_train, y_test), g') ->
  exists p_train p_test,
    X_train = iloc p_train X /\ X_test = iloc p_test X /\
    y_train = iloc_series p_train y /\ y_test = iloc_series p_test y.
Proof.
  unfold train_test_split.
  destruct (negb _); [intros [=]|].
  destruct (validate_shuffle_split _ _) as [[n_train n_test]|e]; [|intros [=]].
  destruct (match stratify with Some _ => _ | None => _ end) as [[[tr te]|e] r'];
    simpl; intros [= <- <- <- <- _]. by exists tr, te.
Qed.

(** The rows of a two-way split. *)
Lemma split_data_two_way_rows g X y test_size random_state stratify r g' :
  index X = sindex y ->
  split g X y test_size None random_state stratify = (Ok r, g') ->
  exists X_train X_test y_train y_test n_train n_test p_train p_test,
    r = TrainTest X_train X_test y_train y_test /\
    validate_shuffle_split (length (index X)) test_size = Ok (n_train, n_test) /\
    length (index X_train) = n_train /\ length (index X_test) = n_test /\
    index X_train ++ index X_test ≡ₚ index X /\
    (NoDup (index X) -> forall k, k ∈ index X_train -> k ∉ index X_test) /\
    sindex y_train = index X_train /\ sindex y_test = index X_test /\
    p_train ++ p_test ≡ₚ seq 0 (length (index X)) /\
    X_train = iloc p_train X /\ X_test = iloc p_test X /\
    y_train = iloc_series p_train y /\ y_test = iloc_series p_test y.
Proof using permutation_spec stratified_spec.
  intros Hidx. unfold split_data.
  rewrite bool_decide_eq_true_2 by done.
  destruct (train_test_split _ _ _ _ _ _ _ _ _ _) as [[[[[Xtr Xte] ytr] yte]|e] g1] eqn:H1;
    [|intros [=]].
  intros [= <- <-].
  apply (train_test_split_partition rng RandomState rng_permutation
           stratified_shuffle_split permutation_spec stratified_spec) in H1
    as (p_train & p_test & n_train & n_test & Hv & Hp & Hl & Hy & -> & -> & -> & ->).
  destruct (cover_in_range _ _ _ Hp) as [Hr Ht].
  destruct (validate_shuffle_split_sum _ _ _ _ Hv) as [Hs _].
  pose proof (Permutation_length Hp) as Hlen. rewrite length_app, length_seq in Hlen.
  assert (Hperm : take_rows p_train (index X) ++ take_rows p_test (index X) ≡ₚ index X)
    by (by apply take_rows_cover).
  exists (iloc p_train X), (iloc p_test X), (iloc_series p_train y), (iloc_series p_test y),
    n_train, n_test, p_train, p_test. simpl.
  split; [done|]. split; [done|].
  split; [rewrite take_rows_length by done; lia|].
  split; [by rewrite take_rows_length|].
  split; [done|]. split.
  { intros Hnd k Hk. rewrite <- Hperm in Hnd. apply NoDup_app in Hnd as (_ & Hd & _).
    by apply Hd. }
  rewrite <- Hidx. done.
Qed.

(** Without a validation fraction, or with one that is not positive (zero,
    negative, NaN), [split_data] makes one split and returns two partitions:
    for inputs with the same index, the training and the test rows are disjoint
    and together all the rows, the test set has [ceil(test_size * n)] of them,
    and the labels are cut at the same rows.  Without stratification the call
    returns whenever the split leaves a training row. *)
Theorem split_data_two_way g X y test_size validation_size random_state :
  index X = sindex y ->
  match validation_size with Some vs => PrimFloat.ltb 0 vs = false | None => True end ->
  (forall stratify r g',
     split g X y test_size validation_size random_state stratify = (Ok r, g') ->
     exists X_train X_test y_train y_test n_train n_test p_train p_test,
       r = TrainTest X_train X_test y_train y_test /\
       validate_shuffle_split (length (index X)) test_size = Ok (n_train, n_test) /\
       length (index X_train) = n_train /\ length (index X_test) = n_test /\
       index X_train ++ index X_test ≡ₚ index X /\
       (NoDup (index X) -> forall k, k ∈ index X_train -> k ∉ index X_test) /\
       sindex y_train = index X_train /\ sindex y_test = index X_test /\
       p_train ++ p_test ≡ₚ seq 0 (length (index X)) /\
       X_train = iloc p_train X /\ X_test = iloc p_test X /\
       y_train = iloc_series p_train y /\ y_test = iloc_series p_test y) /\
  (forall n_train n_test,
     validate_shuffle_split (length (index X)) test_size = Ok (n_train, n_test) ->
     exists X_train X_test y_train y_test g',
       split g X y test_size validation_size random_state None =
         (Ok (TrainTest X_train X_test y_train y_test), g')).
Proof using permutation_spec stratified_spec.
  intros Hidx Hvs.
  assert (Hnone : forall stratify,
            split g X y test_size validation_size random_state stratify =
            split g X y test_size None random_state stratify).
  { intros stratify. destruct validation_size as [vs|]; [|done].
    by apply split_data_validation_not_positive. }
  split.
  - intros stratify r g'. rewrite Hnone. by apply split_data_two_way_rows.
  - intros n_train n_test Hv. rewrite Hnone. unfold split_data.
    rewrite bool_decide_eq_true_2 by done. simpl.
    destruct (train_test_split_returns rng RandomState rng_permutation
                stratified_shuffle_split permutation_spec g X y test_size random_state
                _ _ ltac:(by rewrite Hidx) Hv) as (p_train & p_test & g1 & -> & _).
    eauto 10.
Qed.

(** When the index of [X] is not that of [y], both are re-indexed before the
    split: inputs of different lengths are refused by scikit-learn, and the
    partitions of a call that returns carry the positions 0, ..., n-1 as their
    index labels (each once), not the labels of [X]. *)
Theorem split_data_misaligned_inputs g X y test_size validation_size random_state stratify :
  index X <> sindex y ->
  (length (index X) <> length (sindex y) ->
   split g X y test_size validation_size random_state stratify =
     (Raise (ValueError "Found input variables with inconsistent numbers of samples"), g)) /\
  (forall r g',
     split g X y test_size validation_size random_state stratify = (Ok r, g') ->
     let n := Z.of_nat (length (index X)) in
     match r with
     | TrainTest X_train X_test y_train y_test =>
         index X_train ++ index X_test ≡ₚ seqZ 0 n /\
         sindex y_train = index X_train /\ sindex y_test = index X_test
     | TrainValTest X_train X_val X_test y_train y_val y_test =>
         index X_train ++ index X_val ++ index X_test ≡ₚ seqZ 0 n /\
         sindex y_train = index X_train /\ sindex y_val = index X_val /\
         sindex y_test = index X_test
     end).
Proof using permutation_spec stratified_spec.
  intros Hne. rewrite split_data_misaligned by done. split.
  - intros Hlen. unfold split_data.
    assert (Hidx : index (reset_index X) <> sindex (reset_index_series y)).
    { intros H. apply Hlen. apply (f_equal length) in H.
      by rewrite reset_index_length, reset_index_series_length in H. }
    rewrite bool_decide_eq_false_2 by done.
    rewrite reset_index_idemp, reset_index_series_idemp.
    unfold train_test_split.
    rewrite reset_index_length, reset_index_series_length.
    rewrite bool_decide_eq_false_2 by done. done.
  - intros r g' H n.
    destruct (decide (length (index X) = length (sindex y))) as [Hlen|Hlen]; last first.
    { exfalso. revert H. unfold split_data.
      assert (Hidx : index (reset_index X) <> sindex (reset_index_series y)).
      { intros H. apply Hlen. apply (f_equal length) in H.
        by rewrite reset_index_length, reset_index_series_length in H. }
      rewrite bool_decide_eq_false_2 by done.
      rewrite reset_index_idemp, reset_index_series_idemp.
      unfold train_test_split.
      rewrite reset_index_length, reset_index_series_length.
      rewrite bool_decide_eq_false_2 by done. done. }
    assert (Hidx : index (reset_index X) = sindex (reset_index_series y)).
    { simpl. by rewrite Hlen. }
    destruct validation_size as [vs|]; [destruct (PrimFloat.ltb 0 vs) eqn:Hvs|].
    + assert (exists a b c d e f, r = TrainValTest a b c d e f) as (a & b & c & d & e & f & ->).
      { revert H. unfold split_data.
        destruct (train_test_split _ _ _ _ _ _ _ _ _ _) as [[[[[? ?] ?] ?]|?] ?]; [|intros [=]].
        rewrite Hvs.
        destruct (train_test_split _ _ _ _ _ _ _ _ _ _) as [[[[[? ?] ?] ?]|?] ?];
          intros [= <- <-]. eauto 10. }
      apply (split_data_partitions rng RandomState rng_permutation stratified_shuffle_split
               permutation_spec stratified_spec) in H
        as (? & ? & ? & ? & _ & _ & _ & _ & _ & _ & Hp & _ & ? & ? & ? & _); [|done].
      done.
    + rewrite split_data_validation_not_positive in H by done.
      apply split_data_two_way_rows in H
        as (? & ? & ? & ? & ? & ? & ? & ? & -> & _ & _ & _ & Hp & _ & ? & ? & _); [|done].
      done.
    + apply split_data_two_way_rows in H
        as (? & ? & ? & ? & ? & ? & ? & ? & -> & _ & _ & _ & Hp & _ & ? & ? & _); [|done].
      done.
Qed.

(** The test set is cut before anything else: asking for a validation set
    leaves the test partition as it is without one, and the training and
    validation partitions are cut out of what the two-way call returns as its
    training partition. *)
Theorem split_data_test_set_first g X y test_size vs random_state stratify
  X_train X_val X_test y_train y_val y_test g' :
  split g X y test_size (Some vs) random_state stratify =
    (Ok (TrainValTest X_train X_val X_test y_train y_val y_test), g') ->
  exists X_train_val y_train_val g1 q_train q_val,
    split g X y test_size None random_state stratify =
      (Ok (TrainTest X_train_val X_test y_train_val y_test), g1) /\
    q_train ++ q_val ≡ₚ seq 0 (length (index X_train_val)) /\
    X_train = iloc q_train X_train_val /\ X_val = iloc q_val X_train_val /\
    y_train = iloc_series q_train y_train_val /\ y_val = iloc_series q_val y_train_val /\
    index X_train ++ index X_val ≡ₚ index X_train_val.
Proof using permutation_spec stratified_spec.
  unfold split_data.
  destruct (train_test_split _ _ _ _ _ _ _ _ _ _) as [[[[[Xtv Xte] ytv] yte]|e] g1]; [|intros [=]].
  destruct (PrimFloat.ltb 0 vs); [|intros [=]].
  destruct (train_test_split _ _ _ _ _ _ _ _ _ _)
    as [[[[[Xtr Xva] ytr] yva]|e] g2] eqn:H2; intros [= <- <- <- <- <- <- <-].
  apply (train_test_split_partition rng RandomState rng_permutation
           stratified_shuffle_split permutation_spec stratified_spec) in H2
    as (q_train & q_val & n_train & n_val & Hv & Hp & Hl & Hy & -> & -> & -> & ->).
  exists Xtv, ytv, g1, q_train, q_val. repeat (split; [done|]).
  simpl. by apply take_rows_cover.
Qed.

End SplitFacts.

(** ** The two splits of a run *)

Section RunSplits.

Variable rng : Type.
Variable RandomState : Z -> rng.
Variable rng_permutation : rng -> nat -> list nat * rng.
Variable stratified_shuffle_split :
  rng -> series -> nat -> nat -> result (list nat * list nat) * rng.
Variables keras_model xgb_model lgbm_model : Type.

Abbreviation split := (split_data rng RandomState rng_permutation stratified_shuffle_split).
Abbreviation split2 :=
  (split_train_test rng RandomState rng_permutation stratified_shuffle_split
     keras_model xgb_model lgbm_model).
Abbreviation bind := (io_bind rng keras_model xgb_model lgbm_model).
Abbreviation ret := (io_ret rng keras_model xgb_model lgbm_model).

(** Stage 4 calls [split_data] twice, each time without a validation fraction
    and stratified by the labels it passes: first on all rows with the test
    fraction, then on the training part with the validation fraction.  For a
    positive validation fraction the two calls together are one call of
    [split_data] with both fractions: the same three partitions, the same
    exception, the same state of the global generator. *)
Theorem run_splits_are_one_three_way_split
  (w : world rng keras_model xgb_model lgbm_model)
  (X : DataFrame) (y : Series) (test_size vs : float) (random_state : option Z) :
  index X = sindex y ->
  PrimFloat.ltb 0 vs = true ->
  bind (split2 X y test_size random_state)
    (fun s1 => bind (split2 s1.1.1.1 s1.1.2 vs random_state)
       (fun s2 => ret (TrainValTest s2.1.1.1 s2.1.1.2 s1.1.1.2 s2.1.2 s2.2 s1.2))) w =
  ((split (np_random w) X y test_size (Some vs) random_state (Some y)).1,
   {| events := events w;
      np_random := (split (np_random w) X y test_size (Some vs) random_state (Some y)).2 |}).
Proof.
  intros Hidx Hvs. unfold io_bind, split_train_test, split_data.
  rewrite !(bool_decide_eq_true_2 (index X = sindex y)) by done.
  rewrite !(bool_decide_eq_true_2 (sindex y = sindex y)) by done. simpl.
  destruct (train_test_split _ _ _ _ _ _ _ _ _ _) as [[[[[Xtv Xte] ytv] yte]|e] g1] eqn:H1;
    [|done].
  rewrite Hvs. simpl.
  apply train_test_split_rows in H1 as (p & q & -> & -> & -> & ->).
  rewrite !(bool_decide_eq_true_2 (index (iloc p X) = sindex (iloc_series p y)))
    by (by apply iloc_index_aligned).
  rewrite !(bool_decide_eq_true_2 (sindex (iloc_series p y) = sindex (iloc_series p y)))
    by done.
  simpl.
  by destruct (train_test_split _ _ _ _ _ _ _ _ _ _) as [[[[[Xtr Xva] ytr] yva]|e] g2].
Qed.

End RunSplits.

(** ** [scale_features]: what it leaves alone, an existing scaler, a frame
    that lacks a column *)

Lemma lookup_column_Some_elem name cols s :
  lookup_column name cols = Some s -> name ∈ cols.*1.
Proof.
  induction cols as [|[n c] cols IH]; [done|]. simpl.
  destruct (decide (n = name)) as [->|Hne]; [intros _; left|].
  intros H. right. by apply IH.
Qed.

Lemma lookup_column_elem name (cols : list (string * series)) :
  name ∈ cols.*1 -> is_Some (lookup_column name cols).
Proof.
  induction cols as [|[n c] cols IH]; [by intros ?%elem_of_nil|]. simpl.
  destruct (decide (n = name)) as [->|Hne]; [by eexists|].
  intros [?|?]%elem_of_cons; [done | by apply IH].
Qed.

Lemma assign_names name s (cols : list (string * series)) :
  name ∈ cols.*1 -> (assign name s cols).*1 = cols.*1.
Proof.
  induction cols as [|[n c] cols IH]; [by intros ?%elem_of_nil|]. simpl.
  destruct (decide (n = name)) as [->|Hne]; [done|].
  intros [?|?]%elem_of_cons; [done|]. simpl. f_equal. by apply IH.
Qed.

Lemma set_column_names name s df :
  name ∈ column_names df -> column_names (set_column name s df) = column_names df.
Proof. apply assign_names. Qed.

(** Writing columns that exist keeps the names and their order; the columns
    written are float columns. *)
Lemma assign_columns_names (names : list string) (cols : list (list float)) (X : DataFrame) :
  Forall (fun n => n ∈ column_names X) names ->
  column_names (assign_columns names cols X) = column_names X.
Proof.
  unfold assign_columns. revert cols X.
  induction names as [|n names IH]; intros cols X Hall; [done|].
  destruct cols as [|c cols]; [done|]. simpl.
  apply Forall_cons in Hall as [Hn Hall].
  rewrite IH; [by apply set_column_names|].
  eapply Forall_impl; [exact Hall|]. intros m Hm. simpl in Hm.
  by rewrite set_column_names.
Qed.

Lemma assign_columns_float (names : list string) (cols : list (list float)) (X : DataFrame)
  (name : string) :
  length cols = length names ->
  name ∈ names ->
  exists v, get_column name (assign_columns names cols X) = Some (SFloat64 v).
Proof.
  unfold assign_columns. revert cols X.
  induction names as [|n names IH]; intros cols X Hlen Hin; [by apply elem_of_nil in Hin|].
  destruct cols as [|c cols]; [done|]. simpl in *.
  destruct (decide (name ∈ names)) as [Hin'|Hnin].
  - apply IH; [congruence | done].
  - apply elem_of_cons in Hin as [->|?]; [|done].
    exists c. pose proof (assign_columns_ne names cols (set_column n (SFloat64 c) X) n Hnin) as H.
    unfold assign_columns in H. rewrite H. apply get_set_column_eq.
Qed.

Lemma mapM_raise {A B} (f : A -> result B) (l : list A) (x : A) :
  x ∈ l -> is_ok (f x) = false -> is_ok (mapM f l) = false.
Proof.
  induction l as [|a l IH]; [by intros ?%elem_of_nil|].
  intros Hin Hx. rewrite mapM_cons.
  destruct (f a) as [y|e] eqn:Ha; [|done].
  apply elem_of_cons in Hin as [->|Hin]; [by rewrite Ha in Hx|].
  specialize (IH Hin Hx). by destruct (mapM f l).
Qed.

Lemma select_number_columns_elem (X : DataFrame) (name : string) :
  name ∈ select_number_columns X -> name ∈ column_names X.
Proof.
  unfold select_number_columns, column_names.
  intros ([n c] & -> & [_ Hin]%list_elem_of_filter)%list_elem_of_fmap.
  apply list_elem_of_fmap. by exists (n, c).
Qed.

Lemma scaler_transform_length (sc : scaler) (D out : list (list float)) :
  scaler_transform sc D = Ok out -> length out = length D.
Proof.
  destruct sc as [[p|]|[p|]]; simpl; try discriminate;
    case_bool_decide as Hlen; try discriminate; intros [= <-];
    rewrite length_zip_with; lia.
Qed.

(** What [transform_frame] changes in a frame, and what it does not. *)
Lemma transform_frame_shape (sc : scaler) (cols : list string) (X X' : DataFrame) :
  transform_frame sc cols X = Ok X' ->
  column_names X' = column_names X /\
  index X' = index X /\
  (forall name, name ∉ cols -> get_column name X' = get_column name X) /\
  (forall name, name ∈ cols -> exists v, get_column name X' = Some (SFloat64 v)).
Proof.
  unfold transform_frame. intros H.
  apply rbind_ok in H as (data & Hdata & H).
  apply rbind_ok in H as (scaled & Hsc & [= <-]).
  destruct (numeric_data_lookup _ _ _ Hdata) as [Hlen Hl].
  apply scaler_transform_length in Hsc. rewrite length_fmap in Hsc.
  split; [|split; [apply assign_columns_index|split]].
  - apply assign_columns_names. apply Forall_forall. intros name Hin.
    apply list_elem_of_lookup in Hin as [j Hj].
    destruct (Hl j name Hj) as (s & col & Hs & _).
    by eapply lookup_column_Some_elem.
  - intros name Hn. by apply assign_columns_ne.
  - intros name Hin. apply assign_columns_float; [congruence | done].
Qed.

Section ScaleFacts.

Variable standard_fit : list float -> standard_column.
Variable minmax_fit : list float -> minmax_column.

Abbreviation scale := (scale_features standard_fit minmax_fit).

(** The stages of [scale_features] for any call that returns. *)
Lemma scale_features_inv (X_train : DataFrame) (X_test X_val : option DataFrame)
  (scaler_type : string) (existing : option scaler) X_train_s X_test_s X_val_s
  (sc : option scaler) :
  scale X_train X_test X_val scaler_type existing = Ok (X_train_s, X_test_s, X_val_s, sc) ->
  (select_number_columns X_train = [] /\ sc = None /\
   X_train_s = X_train /\ X_test_s = X_test /\ X_val_s = X_val) \/
  (select_number_columns X_train <> [] /\
   exists fitted,
     sc = Some fitted /\
     (forall ex, existing = Some ex -> fitted = ex) /\
     transform_frame fitted (select_number_columns X_train) X_train = Ok X_train_s /\
     transform_optional fitted (select_number_columns X_train) X_test = Ok X_test_s /\
     transform_optional fitted (select_number_columns X_train) X_val = Ok X_val_s).
Proof.
  unfold scale_features. intros H.
  destruct (select_number_columns X_train) as [|c cols] eqn:Hcols.
  { injection H as <- <- <- <-. left. done. }
  right. split; [done|].
  apply rbind_ok in H as (fitted & Hfit & H).
  apply rbind_ok in H as (Xtr & Htr & H).
  apply rbind_ok in H as (Xte & Hte & H).
  apply rbind_ok in H as (Xva & Hva & [= <- <- <- <-]).
  exists fitted. split; [done|]. split; [|done].
  intros ex ->. by injection Hfit.
Qed.

Lemma transform_optional_shape (sc : scaler) (cols : list string)
  (X X' : option DataFrame) :
  transform_optional sc cols X = Ok X' ->
  match X, X' with
  | Some df, Some df' =>
      column_names df' = column_names df /\ index df' = index df /\
      (forall name, name ∉ cols -> get_column name df' = get_column name df) /\
      (forall name, name ∈ cols -> exists v, get_column name df' = Some (SFloat64 v))
  | None, None => True
  | _, _ => False
  end.
Proof.
  destruct X as [df|]; simpl; [|by intros [= <-]].
  destruct (transform_frame sc cols df) as [df'|e] eqn:H; simpl; [|discriminate].
  intros [= <-]. by apply (transform_frame_shape sc).
Qed.

(** Scaling changes values, not the shape of a frame: each frame that
    [scale_features] returns has the index, the column names and the column
    order of the frame it was given; every column that is not one of the
    numeric training columns (strings, booleans) is returned as it was; and
    every numeric training column comes back as a float column, an integer
    column included.  A frame that was not given (None) is not returned. *)
Theorem scale_features_keeps_shape (X_train : DataFrame) (X_test X_val : option DataFrame)
  (scaler_type : string) (existing : option scaler) X_train_s X_test_s X_val_s sc :
  scale X_train X_test X_val scaler_type existing = Ok (X_train_s, X_test_s, X_val_s, sc) ->
  let numeric_cols := select_number_columns X_train in
  let same_shape (X Xs : DataFrame) :=
    column_names Xs = column_names X /\ index Xs = index X /\
    (forall name, name ∉ numeric_cols -> get_column name Xs = get_column name X) /\
    (forall name, name ∈ numeric_cols -> exists v, get_column name Xs = Some (SFloat64 v)) in
  same_shape X_train X_train_s /\
  match X_test, X_test_s with
  | Some X, Some Xs => same_shape X Xs
  | None, None => True
  | _, _ => False
  end /\
  match X_val, X_val_s with
  | Some X, Some Xs => same_shape X Xs
  | None, None => True
  | _, _ => False
  end.
Proof.
  intros H numeric_cols same_shape.
  apply scale_features_inv in H
    as [(Hnil & -> & -> & -> & ->)|(Hne & fitted & _ & _ & Htr & Hte & Hva)].
  - subst same_shape numeric_cols. rewrite Hnil.
    assert (Hsame : forall X : DataFrame,
              column_names X = column_names X /\ index X = index X /\
              (forall name, name ∉ @nil string -> get_column name X = get_column name X) /\
              (forall name, name ∈ @nil string ->
                 exists v, get_column name X = Some (SFloat64 v))).
    { intros X. repeat split. by intros name ?%elem_of_nil. }
    split; [apply Hsame|]. split; [by destruct X_test | by destruct X_val].
  - split; [by apply (transform_frame_shape fitted)|].
    split; [exact (transform_optional_shape _ _ _ _ Hte)
           | exact (transform_optional_shape _ _ _ _ Hva)].
Qed.

(** The numeric training columns of a frame without a repeated column name
    convert to floats without an exception. *)
Lemma numeric_data_train (X : DataFrame) :
  NoDup (column_names X) ->
  exists data, numeric_data X (select_number_columns X) = Ok data.
Proof.
  intros Hnd. apply mapM_ok_all. apply Forall_forall. intros name Hin.
  unfold select_number_columns in Hin.
  apply list_elem_of_fmap in Hin as ([n c] & -> & [Hnum Hin]%list_elem_of_filter).
  simpl in *.
  assert (Hget : get_column n X = Some c).
  { unfold get_column, column_names in *. clear Hnum.
    induction (columns X) as [|[n' c'] cols IH]; [by apply elem_of_nil in Hin|].
    rewrite fmap_cons in Hnd. apply NoDup_cons in Hnd as [Hn' Hnd]. simpl.
    apply elem_of_cons in Hin as [[= <- <-]|Hin]; [by rewrite decide_True|].
    rewrite decide_False; [by apply IH|].
    intros ->. apply Hn'. apply list_elem_of_fmap. by exists (n, c). }
  rewrite Hget. by destruct c.
Qed.

(** With an existing scaler [scale_features] fits nothing: [scaler_type] is not
    looked at (an unknown one raises nothing), and the scaler that is returned
    is the one that was passed.  The scaler is used as it is: one that was
    never fitted makes the call raise [NotFittedError], one fitted on another
    number of columns a [ValueError].  Only when the training frame has no
    numeric column is the scaler put aside and [None] returned in its place. *)
Theorem scale_features_existing_scaler (X_train : DataFrame) (X_test X_val : option DataFrame)
  (ex : scaler) :
  (forall t1 t2, scale X_train X_test X_val t1 (Some ex) = scale X_train X_test X_val t2 (Some ex)) /\
  (forall t X_train_s X_test_s X_val_s sc,
     scale X_train X_test X_val t (Some ex) = Ok (X_train_s, X_test_s, X_val_s, sc) ->
     sc = if decide (select_number_columns X_train = []) then None else Some ex) /\
  (NoDup (column_names X_train) -> select_number_columns X_train <> [] ->
   forall t,
     match ex with
     | StandardScaler None | MinMaxScaler None =>
         scale X_train X_test X_val t (Some ex) = Raise NotFittedError
     | StandardScaler (Some p) =>
         length p <> length (select_number_columns X_train) ->
         scale X_train X_test X_val t (Some ex) =
           Raise (ValueError "X has a different number of features than the scaler")
     | MinMaxScaler (Some p) =>
         length p <> length (select_number_columns X_train) ->
         scale X_train X_test X_val t (Some ex) =
           Raise (ValueError "X has a different number of features than the scaler")
     end).
Proof.
  split; [|split].
  - intros t1 t2. unfold scale_features. by destruct (select_number_columns X_train).
  - intros t Xs Xt Xv sc H.
    apply scale_features_inv in H as [(Hnil & -> & _)|(Hne & fitted & -> & Hex & _)].
    + by rewrite decide_True.
    + rewrite decide_False by done. by rewrite (Hex ex).
  - intros Hnd Hne t. destruct (numeric_data_train X_train Hnd) as [data Hdata].
    destruct (numeric_data_lookup _ _ _ Hdata) as [Hlen _].
    unfold scale_features.
    destruct (select_number_columns X_train) as [|c cols] eqn:Hcols; [done|].
    simpl. unfold transform_frame. rewrite Hdata. simpl.
    destruct ex as [[p|]|[p|]]; simpl; try done.
    + intros Hp. rewrite length_fmap, Hlen. rewrite bool_decide_eq_false_2; [done|].
      simpl in *. congruence.
    + intros Hp. rewrite length_fmap, Hlen. rewrite bool_decide_eq_false_2; [done|].
      simpl in *. congruence.
Qed.

(** A held-out frame must have every numeric training column: when the test
    frame (or the validation frame) lacks one of them, [scale_features] raises
    and returns nothing; the column is not skipped. *)
Theorem scale_features_missing_column (X_train : DataFrame) (X_test X_val : option DataFrame)
  (scaler_type : string) (existing : option scaler) (X : DataFrame) (name : string) :
  X_test = Some X \/ X_val = Some X ->
  name ∈ select_number_columns X_train ->
  get_column name X = None ->
  is_ok (scale X_train X_test X_val scaler_type existing) = false.
Proof.
  intros HX Hin Hget.
  destruct (scale X_train X_test X_val scaler_type existing)
    as [[[[Xs Xt] Xv] sc]|e] eqn:H; [|done].
  exfalso.
  apply scale_features_inv in H as [(Hnil & _)|(_ & fitted & _ & _ & _ & Hte & Hva)].
  { rewrite Hnil in Hin. by apply elem_of_nil in Hin. }
  assert (Hfail : forall Xo, transform_optional fitted (select_number_columns X_train)
                               (Some X) <> Ok Xo).
  { intros Xo Ho. simpl in Ho.
    destruct (transform_frame _ _ X) as [X'|e] eqn:Htf; [|discriminate].
    unfold transform_frame in Htf. apply rbind_ok in Htf as (data & Hdata & _).
    pose proof (mapM_raise
      (fun name => match get_column name X with
                   | Some s => astype_float64 s
                   | None => Raise (KeyError name)
                   end) _ name Hin) as Hr.
    simpl in Hr. rewrite Hget in Hr. specialize (Hr eq_refl).
    unfold numeric_data in Hdata. by rewrite Hdata in Hr. }
  destruct HX as [->| ->]; by eapply Hfail.
Qed.

End ScaleFacts.

(** ** [generate_features]: the schema, the time features, the targets, what
    stays missing, a flag that is null *)

Lemma assign_names_new name s (cols : list (string * series)) :
  name ∉ cols.*1 -> (assign name s cols).*1 = (cols.*1 ++ [name])%list.
Proof.
  induction cols as [|[n c] cols IH]; [done|]. simpl.
  intros [Hne Hn]%not_elem_of_cons.
  rewrite decide_False by done. simpl. f_equal. by apply IH.
Qed.

Lemma set_column_names_new name s df :
  name ∉ column_names df ->
  column_names (set_column name s df) = (column_names df ++ [name])%list.
Proof. apply assign_names_new. Qed.

Lemma seen_null_elem (vals : list pyval) :
  PyNone ∈ vals -> seen_null (foldr see seen_nothing vals) = true.
Proof.
  induction vals as [|v vals IH]; intros H; [by apply elem_of_nil in H|].
  apply elem_of_cons in H as [<-|H]; simpl; [done|].
  specialize (IH H). destruct v as [|b|z|f|s|m|l]; simpl; try done.
  by destruct (PrimFloat.is_nan f).
Qed.

Section FeatureFacts.

Variable int_of_str : string -> option Z.
Variable series_mode : list pyval -> list pyval.
Variable timestamp : Type.
Variable to_datetime : pyval -> option timestamp.
Variable dt_hour dt_dayofweek : timestamp -> Z.
Variable np_sin np_cos : float -> float.

Abbreviation assemble :=
  (assemble_features int_of_str timestamp to_datetime dt_hour dt_dayofweek np_sin np_cos).
Abbreviation generate :=
  (generate_features int_of_str series_mode timestamp to_datetime dt_hour dt_dayofweek
     np_sin np_cos).

(** Assignments to names that are all new and distinct append their columns
    in order. *)
Lemma apply_rules_names esp rules df df' :
  apply_rules int_of_str esp df rules = Ok df' ->
  NoDup (column_names df ++ rules.*1)%list ->
  column_names df' = (column_names df ++ rules.*1)%list /\ index df' = index df.
Proof.
  revert df. induction rules as [|[n r] rules IH]; intros df H Hnd.
  - injection H as <-. by rewrite app_nil_r.
  - apply apply_rules_cons_ok in H as (col & _ & H).
    rewrite fmap_cons in Hnd. simpl in Hnd.
    assert (Hn : n ∉ column_names df).
    { apply NoDup_app in Hnd as (_ & Hd & _). intros Hin. apply (Hd n Hin). by left. }
    destruct (IH _ H) as [Hnames Hidx].
    { rewrite set_column_names_new by done. by rewrite <- (assoc (++)). }
    rewrite Hnames, set_column_names_new by done.
    rewrite fmap_cons. simpl. by rewrite <- (assoc (++)).
Qed.

Lemma impute_names (df df' : DataFrame) :
  impute series_mode df = Ok df' ->
  column_names df' = column_names df /\ index df' = index df.
Proof. intros H. by destruct (impute_inv _ _ _ H) as (? & ? & _). Qed.

Lemma impute_get_column (df df' : DataFrame) (name : string) (s : series) :
  impute series_mode df = Ok df' ->
  get_column name df = Some s ->
  exists s', impute_column series_mode s = Ok s' /\ get_column name df' = Some s'.
Proof.
  intros H Hs. destruct (impute_inv _ _ _ H) as (_ & _ & Hcol).
  specialize (Hcol name). by rewrite Hs in Hcol.
Qed.

Lemma pass_target_names target raw_df df :
  target ∉ column_names df ->
  column_names (pass_target target raw_df df) = (column_names df ++ [target])%list /\
  index (pass_target target raw_df df) = index df.
Proof.
  intros Hn. unfold pass_target.
  destruct (get_column target raw_df); split; try done; by apply set_column_names_new.
Qed.

(** The index and the column names of the matrix that is returned. *)
Lemma generate_features_names (raw_df df : DataFrame) (version : string) :
  generate raw_df version = Ok df ->
  index df = index raw_df /\
  column_names df =
    (feature_rules.*1 ++
     ["F39_hourOfDayUTC_Sin"; "F39_hourOfDayUTC_Cos";
      "F40_dayOfWeekUTC_Sin"; "F40_dayOfWeekUTC_Cos"] ++
     ["isSuccess_Execution"; "isSuccess_Profitability"])%list.
Proof.
  unfold generate_features. intros H.
  destruct (assemble raw_df) as [df1|e] eqn:H1; [|discriminate]. simpl in H.
  destruct (impute_names _ _ H) as [Hin Hii]. rewrite Hin, Hii. clear Hin Hii H.
  unfold assemble_features in H1.
  destruct (feature_map_columns int_of_str raw_df) as [df0|e] eqn:H0; [|discriminate].
  injection H1 as <-.
  apply apply_rules_names in H0 as [Hnames Hidx]; [|apply feature_rules_NoDup].
  simpl in Hnames, Hidx.
  assert (Hnew : forall names name s d,
            column_names d = names -> bool_decide (name ∉ names) = true ->
            column_names (set_column name s d) = (names ++ [name])%list).
  { intros names name s d <- Hb. apply set_column_names_new.
    by apply bool_decide_eq_true in Hb. }
  assert (Hpass : forall names target d,
            column_names d = names -> bool_decide (target ∉ names) = true ->
            column_names (pass_target target raw_df d) = (names ++ [target])%list).
  { intros names target d <- Hb. apply pass_target_names.
    by apply bool_decide_eq_true in Hb. }
  assert (Hindex : index (pass_target "isSuccess_Profitability" raw_df
                            (pass_target "isSuccess_Execution" raw_df
                               (time_features timestamp to_datetime dt_hour dt_dayofweek
                                  np_sin np_cos raw_df df0))) = index raw_df).
  { unfold pass_target, time_features.
    by repeat (destruct (get_column _ raw_df); simpl). }
  split; [exact Hindex|]. clear Hindex.
  unfold time_features.
  repeat match goal with
  | |- context [set_column ?n ?s ?d0] =>
      lazymatch d0 with
      | set_column _ _ _ => fail
      | _ =>
          let d := fresh "d" in
          let N := fresh "N" in
          set (d := set_column n s d0);
          assert (N : column_names d = (column_names d0 ++ [n])%list)
            by (subst d; eapply Hnew; [reflexivity|];
                rewrite ?Hnames;
                repeat match goal with H : column_names _ = _ |- _ => rewrite H end;
                by vm_compute);
          clearbody d
      end
  end.
  assert (Hall : column_names
            (pass_target "isSuccess_Profitability" raw_df
               (pass_target "isSuccess_Execution" raw_df d2)) =
          (feature_rules.*1 ++
           ["F39_hourOfDayUTC_Sin"; "F39_hourOfDayUTC_Cos";
            "F40_dayOfWeekUTC_Sin"; "F40_dayOfWeekUTC_Cos"] ++
           ["isSuccess_Execution"; "isSuccess_Profitability"])%list).
  { rewrite N1, N0, N, Hnames in N2.
    erewrite Hpass; [|erewrite Hpass; [reflexivity | exact N2 | by vm_compute] | by vm_compute].
    reflexivity. }
  exact Hall.
Qed.

(** The schema of the feature matrix does not depend on the records: whenever
    [generate_features] returns, its frame has the index of [raw_df] and the
    same 53 columns in the same order, the 47 read from the feature map, the
    four cyclical time features and the two targets. *)
Theorem generate_features_schema (raw_df df : DataFrame) (version : string) :
  generate raw_df version = Ok df ->
  index df = index raw_df /\
  column_names df =
    (feature_rules.*1 ++
     ["F39_hourOfDayUTC_Sin"; "F39_hourOfDayUTC_Cos";
      "F40_dayOfWeekUTC_Sin"; "F40_dayOfWeekUTC_Cos"] ++
     ["isSuccess_Execution"; "isSuccess_Profitability"])%list /\
  length (columns df) = 53%nat.
Proof.
  intros H. destruct (generate_features_names _ _ _ H) as [Hidx Hnames].
  split; [exact Hidx|]. split; [exact Hnames|].
  transitivity (length (column_names df)).
  - unfold column_names. by rewrite length_fmap.
  - by rewrite Hnames.
Qed.

Lemma pass_target_ne target raw_df d name :
  name <> target -> get_column name (pass_target target raw_df d) = get_column name d.
Proof.
  intros Hne. unfold pass_target.
  destruct (get_column target raw_df); by apply get_set_column_ne.
Qed.

Lemma assemble_features_inv raw_df df1 :
  assemble raw_df = Ok df1 ->
  exists df0,
    feature_map_columns int_of_str raw_df = Ok df0 /\
    df1 = pass_target "isSuccess_Profitability" raw_df
            (pass_target "isSuccess_Execution" raw_df
               (time_features timestamp to_datetime dt_hour dt_dayofweek np_sin np_cos
                  raw_df df0)).
Proof.
  unfold assemble_features. intros H.
  destruct (feature_map_columns int_of_str raw_df) as [df0|e]; [|discriminate].
  injection H as <-. by exists df0.
Qed.

Lemma generate_features_inv raw_df version df :
  generate raw_df version = Ok df ->
  exists df1, assemble raw_df = Ok df1 /\ impute series_mode df1 = Ok df.
Proof.
  unfold generate_features. intros H.
  destruct (assemble raw_df) as [df1|e]; [|discriminate].
  by exists df1.
Qed.

Lemma cyclical_all_none trig part period (stamps : list (option timestamp)) :
  Forall (fun t => t = None) stamps ->
  cyclical timestamp trig part period <$> stamps = replicate (length stamps) np_nan.
Proof. intros H. apply (fmap_const_on _ _ _ _ H). by intros t ->. Qed.

(** Without a timestamp that parses (the column [attemptTimestamp] is absent,
    or [to_datetime] turns every entry into NaT) the four cyclical time
    features are missing in every row of the returned matrix: the imputation
    loop has no median to fill them with. *)
Theorem generate_features_no_timestamp (raw_df df : DataFrame) (version : string) :
  match get_column "attemptTimestamp" raw_df with
  | Some s => Forall (fun c => to_datetime c = None) (series_cells s)
  | None => True
  end ->
  generate raw_df version = Ok df ->
  let n := match get_column "attemptTimestamp" raw_df with
           | Some s => length (series_cells s)
           | None => length (index raw_df)
           end in
  Forall (fun name => get_column name df = Some (SFloat64 (replicate n np_nan)))
    ["F39_hourOfDayUTC_Sin"; "F39_hourOfDayUTC_Cos";
     "F40_dayOfWeekUTC_Sin"; "F40_dayOfWeekUTC_Cos"].
Proof.
  intros Hnone H n.
  apply generate_features_inv in H as (df1 & H1 & Himpute).
  apply assemble_features_inv in H1 as (df0 & _ & ->).
  set (stamps := match get_column "attemptTimestamp" raw_df with
                 | Some s => to_datetime <$> series_cells s
                 | None => replicate (length (index raw_df)) None
                 end).
  assert (Hs : Forall (fun t => t = None) stamps /\ length stamps = n).
  { subst stamps n. destruct (get_column "attemptTimestamp" raw_df) as [s|].
    - split; [|by rewrite length_fmap]. apply Forall_fmap.
      eapply Forall_impl; [exact Hnone|]. done.
    - split; [|by rewrite length_replicate]. by apply Forall_replicate. }
  destruct Hs as [Hall Hlen].
  assert (Himp : forall trig part period,
            impute_column series_mode
              (SFloat64 (cyclical timestamp trig part period <$> stamps)) =
            Ok (SFloat64 (replicate n np_nan))).
  { intros trig part period. rewrite (cyclical_all_none _ _ _ _ Hall), Hlen.
    apply impute_all_nan. by apply Forall_replicate. }
  assert (Hcol : forall name s,
            get_column name
              (pass_target "isSuccess_Profitability" raw_df
                 (pass_target "isSuccess_Execution" raw_df
                    (time_features timestamp to_datetime dt_hour dt_dayofweek np_sin np_cos
                       raw_df df0))) = Some s ->
            impute_column series_mode s = Ok (SFloat64 (replicate n np_nan)) ->
            get_column name df = Some (SFloat64 (replicate n np_nan))).
  { intros name s Hs Hi. destruct (impute_get_column _ _ _ _ Himpute Hs) as (s' & Hs' & ->).
    congruence. }
  repeat apply Forall_cons_2; [..|apply Forall_nil_2];
    (eapply Hcol; [|apply Himp]); rewrite !pass_target_ne by done; unfold time_features;
    fold stamps; rewrite ?get_set_column_ne by done; apply get_set_column_eq.
Qed.

(** The two target columns come from [raw_df] under their fixed names: a
    target that [raw_df] does not have is a column of zeros, one that it has
    goes through the imputation loop like every other column, and so is
    returned as it is when it holds no missing value. *)
Theorem generate_features_targets (raw_df df : DataFrame) (version target : string) :
  target = "isSuccess_Execution" \/ target = "isSuccess_Profitability" ->
  generate raw_df version = Ok df ->
  match get_column target raw_df with
  | None => get_column target df = Some (SInt64 (replicate (length (index raw_df)) 0))
  | Some s =>
      (exists s', impute_column series_mode s = Ok s' /\ get_column target df = Some s') /\
      (bool_any (isnull s) = false -> get_column target df = Some s)
  end.
Proof.
  intros Ht H.
  apply generate_features_inv in H as (df1 & H1 & Himpute).
  apply assemble_features_inv in H1 as (df0 & _ & ->).
  assert (Hget : get_column target
            (pass_target "isSuccess_Profitability" raw_df
               (pass_target "isSuccess_Execution" raw_df
                  (time_features timestamp to_datetime dt_hour dt_dayofweek np_sin np_cos
                     raw_df df0))) =
          Some (match get_column target raw_df with
                | Some s => s
                | None => SInt64 (replicate (length (index raw_df)) 0)
                end)).
  { destruct Ht as [-> | ->].
    - rewrite pass_target_ne by done. unfold pass_target at 1.
      destruct (get_column "isSuccess_Execution" raw_df); apply get_set_column_eq.
    - unfold pass_target at 1.
      destruct (get_column "isSuccess_Profitability" raw_df); apply get_set_column_eq. }
  destruct (impute_get_column _ _ _ _ Himpute Hget) as (s' & Hs' & Hdf).
  destruct (get_column target raw_df) as [s|].
  - split; [eauto|]. intros Hn. rewrite impute_column_no_null in Hs' by done. congruence.
  - rewrite impute_column_no_null in Hs' by apply int_column_no_null. congruence.
Qed.


(** A rule that raises ends the extraction. *)
Lemma apply_rules_raise esp rules df name r :
  (name, r) ∈ rules ->
  r <> ProfitToGasRatio ->
  is_ok (rule_column int_of_str esp df r) = false ->
  is_ok (apply_rules int_of_str esp df rules) = false.
Proof.
  revert df. induction rules as [|[n r'] rules IH]; intros df Hin Hr Hc.
  - by apply elem_of_nil in Hin.
  - simpl. unfold apply_rule. simpl.
    destruct (rule_column int_of_str esp df r') as [col|e] eqn:Hcol; [|done]. simpl.
    apply elem_of_cons in Hin as [[= -> ->]|Hin]; [by rewrite Hcol in Hc|].
    apply (IH _ Hin Hr).
    by rewrite (rule_column_frame_indep _ _ _ df).
Qed.

(** [astype(int)] on a column that holds a null raises. *)
Lemma astype_int_infer_null (vals : list pyval) (x : pyval) :
  x ∈ vals -> x = PyNone \/ x = PyFloat np_nan ->
  is_ok (astype_int int_of_str (infer_objects vals)) = false.
Proof.
  intros Hin Hx.
  assert (Hobj : is_ok (astype_int int_of_str (SObject vals)) = false).
  { simpl. assert (Hm : is_ok (mapM (py_int int_of_str) vals) = false).
    { apply (mapM_raise _ _ x Hin). by destruct Hx as [-> | ->]. }
    by destruct (mapM _ vals). }
  assert (Hflt : is_ok (astype_int int_of_str (SFloat64 (cell_float <$> vals))) = false).
  { simpl.
    assert (Hm : is_ok (mapM (fun f => py_int int_of_str (PyFloat f)) (cell_float <$> vals))
                 = false).
    { apply (mapM_raise _ _ np_nan); [|done].
      apply list_elem_of_fmap. exists x. split; [|done]. by destruct Hx as [-> | ->]. }
    by destruct (mapM _ (cell_float <$> vals)). }
  assert (Hseen : seen_null (foldr see seen_nothing vals) = true \/
                  seen_nan (foldr see seen_nothing vals) = true).
  { destruct Hx as [-> | ->]; [left; by apply seen_null_elem | right; by apply seen_nan_elem]. }
  unfold infer_objects.
  destruct (seen_object _); [done|].
  destruct (seen_bool _).
  { destruct Hseen as [-> | ->]; by rewrite ?orb_true_r. }
  destruct (seen_nan _) eqn:Hnan; [done|]. simpl.
  destruct (seen_float _); [done|].
  destruct Hseen as [Hnull|]; [|done]. rewrite Hnull.
  by destruct (seen_int _).
Qed.

(** A flag that is present but null is no missing flag: [get_feature] returns
    the null, the default 0 is not used, and [astype(int)] raises on it.  One
    record with such a flag ([usesFlashLoan], [isCrossDexArbitrage] or
    [isNewTokenPair_Opportunistic] set to None or NaN) makes
    [generate_features] raise for the whole frame. *)
Theorem generate_features_null_flag (raw_df : DataFrame) (version : string)
  (i : nat) (m : gmap string pyval) (name key : string) (x : pyval) :
  (name, Flag key) ∈ feature_rules ->
  series_cells (esp_input_column raw_df) !! i = Some (PyDict m) ->
  m !! key = Some x ->
  x = PyNone \/ x = PyFloat np_nan ->
  is_ok (generate raw_df version) = false.
Proof.
  intros Hin Hi Hm Hx.
  assert (H0 : is_ok (feature_map_columns int_of_str raw_df) = false).
  { unfold feature_map_columns. apply (apply_rules_raise _ _ _ name (Flag key) Hin); [done|].
    simpl. unfold series_apply. apply (astype_int_infer_null _ x); [|done].
    apply list_elem_of_fmap. exists (PyDict m). split.
    - simpl. by rewrite Hm.
    - by eapply list_elem_of_lookup_2. }
  unfold generate_features, assemble_features.
  by destruct (feature_map_columns int_of_str raw_df).
Qed.

Hypothesis mode_not_null : forall v m, m ∈ series_mode v -> py_isnull m = false.


End FeatureFacts.

(** ** [ModelTrainer]: the backend of a trainer, the deferred build *)

Section TrainerFacts.

Variables keras_model xgb_model lgbm_model training_history : Type.
Variable keras_build : gmap string pyval -> result keras_model.
Variable xgb_new : option Z -> gmap string pyval -> result xgb_model.
Variable lgbm_new : option Z -> gmap string pyval -> result lgbm_model.
Variable keras_fit :
  keras_model -> gmap string pyval -> DataFrame -> Series ->
  option (DataFrame * Series) -> option pyval -> result (keras_model * training_history).
Variable xgb_fit :
  xgb_model -> gmap string pyval -> DataFrame -> Series ->
  option (DataFrame * Series * pyval) -> result xgb_model.
Variable lgbm_fit :
  lgbm_model -> gmap string pyval -> DataFrame -> Series ->
  option (DataFrame * Series * pyval) -> result lgbm_model.

Abbreviation Trainer := (ModelTrainer keras_model xgb_model lgbm_model training_history).
Abbreviation init :=
  (ModelTrainer_init keras_model xgb_model lgbm_model training_history
     keras_build xgb_new lgbm_new).
Abbreviation fit :=
  (train keras_model xgb_model lgbm_model training_history keras_build keras_fit
     xgb_fit lgbm_fit).

(** What the constructor leaves in the trainer. *)
Lemma init_backend mt params rs (t0 : Trainer) :
  init mt params rs = Ok t0 ->
  model_type t0 = mt /\ random_state _ _ _ _ t0 = rs /\ history _ _ _ _ t0 = None /\
  match get_model t0 with
  | Some (KerasModel _ _ _ _) => mt = "neural_network"
  | Some (XGBClassifier _ _ _ _) => mt = "xgboost"
  | Some (LGBMClassifier _ _ _ _) => mt = "lightgbm"
  | None => mt = "neural_network"
  end.
Proof.
  unfold ModelTrainer_init.
  destruct (decide (mt = "neural_network")) as [->|H1].
  { destruct (py_truthy _); [|by intros [= <-]].
    unfold build_neural_network. simpl.
    destruct (_ !! "input_dim") as [[]|]; try discriminate;
      intros H; by apply rbind_ok in H as (m0 & _ & [= <-]). }
  destruct (decide (mt = "xgboost")) as [->|H2].
  { intros H. by apply rbind_ok in H as (m & _ & [= <-]). }
  destruct (decide (mt = "lightgbm")) as [->|H3].
  { intros H. by apply rbind_ok in H as (m & _ & [= <-]). }
  discriminate.
Qed.

(** After the constructor and a call of [train] that returns, the trainer
    holds a model, and it is a model of the backend that [model_type] names:
    a Keras model for "neural_network", an [XGBClassifier] for "xgboost", an
    [LGBMClassifier] for "lightgbm".  [train] changes neither the model type
    nor the seed, and what it returns (the [history] field) is a training
    history for the network and [None] for the two tree models. *)
Theorem train_backend_matches_model_type mt params rs X_train y_train X_val y_val
  (t0 t : Trainer) :
  init mt params rs = Ok t0 ->
  fit t0 X_train y_train X_val y_val = Ok t ->
  model_type t = mt /\ random_state _ _ _ _ t = rs /\
  match get_model t with
  | Some (KerasModel _ _ _ _) => mt = "neural_network" /\ is_Some (history _ _ _ _ t)
  | Some (XGBClassifier _ _ _ _) => mt = "xgboost" /\ history _ _ _ _ t = None
  | Some (LGBMClassifier _ _ _ _) => mt = "lightgbm" /\ history _ _ _ _ t = None
  | None => False
  end.
Proof.
  intros Hinit. apply init_backend in Hinit as (Hmt & Hrs & Hh & Hm).
  unfold train. rewrite Hmt.
  destruct (decide (mt = "neural_network")) as [->|Hnn].
  - intros H. apply rbind_ok in H as (t1 & H1 & H).
    assert (Ht1 : model_type t1 = "neural_network" /\ random_state _ _ _ _ t1 = rs).
    { unfold get_model in Hm. destruct (model t0) as [[km|xm|lm]|] eqn:Hmod;
        try discriminate.
      - by injection H1 as <-.
      - unfold build_neural_network in H1. simpl in H1.
        rewrite lookup_insert_eq in H1. simpl in H1.
        by apply rbind_ok in H1 as (m & _ & [= <-]). }
    destruct Ht1 as [Hty Hr].
    destruct (model t1) as [[km|xm|lm]|]; try discriminate.
    apply rbind_ok in H as (mh & _ & [= <-]). simpl. eauto.
  - unfold get_model in Hm.
    case_bool_decide as Hin; [|discriminate].
    destruct (model t0) as [[km|xm|lm]|] eqn:Hmod; try done.
    + intros H. apply rbind_ok in H as (m' & _ & [= <-]). simpl. done.
    + intros H. apply rbind_ok in H as (m' & _ & [= <-]). simpl. done.
Qed.

(** A network without a usable [input_dim] (none given, or one that is
    falsy, such as 0) is not built by the constructor, which then cannot fail;
    [train] builds it with [input_dim] set to the number of columns of
    [X_train], and fits the model it has built.  With an [input_dim] that is
    given, the network is built by the constructor and [train] keeps it and
    the parameters, whatever the number of columns of [X_train] is. *)
Theorem neural_network_build (params : gmap string pyval) rs X_train y_train X_val y_val :
  let n := PyInt (Z.of_nat (length (columns X_train))) in
  let params' := <["input_dim" := n]> params in
  (py_truthy (default PyNone (params !! "input_dim")) = false ->
   exists t0 : Trainer,
     init "neural_network" (Some params) rs = Ok t0 /\
     get_model t0 = None /\ model_params _ _ _ _ t0 = params /\
     (forall e, keras_build params' = Raise e ->
        fit t0 X_train y_train X_val y_val = Raise e) /\
     (forall t, fit t0 X_train y_train X_val y_val = Ok t ->
        model_params _ _ _ _ t = params' /\
        exists m mh validation early_stopping,
          keras_build params' = Ok m /\
          keras_fit m params' X_train y_train validation early_stopping = Ok mh /\
          get_model t = Some (KerasModel _ _ _ mh.1) /\ history _ _ _ _ t = Some mh.2)) /\
  (py_truthy (default PyNone (params !! "input_dim")) = true ->
   forall t0 t : Trainer,
     init "neural_network" (Some params) rs = Ok t0 ->
     fit t0 X_train y_train X_val y_val = Ok t ->
     model_params _ _ _ _ t = params /\
     exists m mh validation early_stopping,
       keras_build params = Ok m /\ get_model t0 = Some (KerasModel _ _ _ m) /\
       keras_fit m params X_train y_train validation early_stopping = Ok mh /\
       get_model t = Some (KerasModel _ _ _ mh.1)).
Proof.
  intros n params'. split.
  - intros Hf. eexists. unfold ModelTrainer_init. simpl. rewrite Hf.
    split; [reflexivity|]. split; [done|]. split; [done|]. split.
    + intros e He. unfold train, build_neural_network. simpl.
      rewrite lookup_insert_eq. simpl. fold n params'. by rewrite He.
    + intros t. unfold train, build_neural_network. simpl.
      rewrite lookup_insert_eq. simpl. fold n params'.
      destruct (keras_build params') as [m|e] eqn:Hb; [|discriminate]. simpl.
      intros H. apply rbind_ok in H as (mh & Hfit & [= <-]). simpl.
      split; [done|]. eauto 10.
  - intros Ht t0 t. unfold ModelTrainer_init. simpl. rewrite Ht.
    unfold build_neural_network. simpl.
    destruct (params !! "input_dim") as [v|] eqn:Hd; [|done].
    destruct v as [|b|z|f|s|d|l]; try done;
      (intros H; apply rbind_ok in H as (km & Hb & [= <-]);
       unfold train; simpl;
       intros H; apply rbind_ok in H as (mh & Hfit & [= <-]); simpl;
       split; [done|]; eauto 10).
Qed.

(** A call of [train] that returns leaves a model in the trainer. *)
Lemma train_model_is_Some (t0 t : Trainer) X_train y_train X_val y_val :
  fit t0 X_train y_train X_val y_val = Ok t -> is_Some (get_model t).
Proof.
  unfold train.
  destruct (decide (model_type t0 = "neural_network")).
  - intros H. apply rbind_ok in H as (t1 & _ & H).
    destruct (model t1) as [[km|xm|lm]|]; try discriminate.
    apply rbind_ok in H as (mh & _ & [= <-]). by eexists.
  - case_bool_decide; [|discriminate].
    destruct (model t0) as [[km|xm|lm]|]; try discriminate;
      intros Hfit; apply rbind_ok in Hfit as (m' & _ & [= <-]); by eexists.
Qed.

End TrainerFacts.

(** ** [run_pipeline]: what a run writes, and when *)

Section RunFacts.

Variable int_of_str : string -> option Z.
Variable series_mode : list pyval -> list pyval.
Variable timestamp : Type.
Variable to_datetime : pyval -> option timestamp.
Variable dt_hour dt_dayofweek : timestamp -> Z.
Variable np_sin np_cos : float -> float.
Variable rng : Type.
Variable RandomState : Z -> rng.
Variable rng_permutation : rng -> nat -> list nat * rng.
Variable stratified_shuffle_split :
  rng -> series -> nat -> nat -> result (list nat * list nat) * rng.
Variable standard_fit : list float -> standard_column.
Variable minmax_fit : list float -> minmax_column.
Variables keras_model xgb_model lgbm_model training_history : Type.
Variable keras_build : gmap string pyval -> result keras_model.
Variable xgb_new : option Z -> gmap string pyval -> result xgb_model.
Variable lgbm_new : option Z -> gmap string pyval -> result lgbm_model.
Variable keras_fit :
  keras_model -> gmap string pyval -> DataFrame -> Series ->
  option (DataFrame * Series) -> option pyval -> result (keras_model * training_history).
Variable xgb_fit :
  xgb_model -> gmap string pyval -> DataFrame -> Series ->
  option (DataFrame * Series * pyval) -> result xgb_model.
Variable lgbm_fit :
  lgbm_model -> gmap string pyval -> DataFrame -> Series ->
  option (DataFrame * Series * pyval) -> result lgbm_model.
Variable firestore_stream : string -> string -> option Z -> result (list (gmap string pyval)).
Variable json_normalize : list (gmap string pyval) -> result DataFrame.
Variable evaluate_model :
  model_handle keras_model xgb_model lgbm_model -> option DataFrame -> Series -> string ->
  gmap string pyval.
Variable tfjs_save : keras_model -> string -> bool.
Variable now_strftime now_isoformat : string.

Abbreviation stages :=
  (run_stages int_of_str series_mode timestamp to_datetime dt_hour dt_dayofweek
     np_sin np_cos rng RandomState rng_permutation stratified_shuffle_split
     standard_fit minmax_fit keras_model xgb_model lgbm_model training_history
     keras_build xgb_new lgbm_new keras_fit xgb_fit lgbm_fit
     evaluate_model tfjs_save now_strftime now_isoformat).

Abbreviation World := (world rng keras_model xgb_model lgbm_model).

Lemma io_bind_inv {A B} (m : io rng keras_model xgb_model lgbm_model A)
  (k : A -> io rng keras_model xgb_model lgbm_model B) (w w' : World) (r : result B) :
  io_bind rng keras_model xgb_model lgbm_model m k w = (r, w') ->
  (exists e, m w = (Raise e, w') /\ r = Raise e) \/
  (exists a w1, m w = (Ok a, w1) /\ k a w1 = (r, w')).
Proof.
  unfold io_bind. destruct (m w) as [[a|e] w1].
  - intros H. right. by exists a, w1.
  - intros [= <- <-]. left. by exists e.
Qed.

Lemma emit_inv (ev : event keras_model xgb_model lgbm_model) (w w' : World) r :
  emit rng keras_model xgb_model lgbm_model ev w = (r, w') ->
  r = Ok tt /\ events w' = (events w ++ [ev])%list /\ np_random w' = np_random w.
Proof. by intros [= <- <-]. Qed.

Lemma lift_inv {A} (x : result A) (w w' : World) r :
  lift rng keras_model xgb_model lgbm_model x w = (r, w') -> r = x /\ w' = w.
Proof. by intros [= <- <-]. Qed.

Lemma split_train_test_inv X y test_size random_state (w w' : World) r :
  split_train_test rng RandomState rng_permutation stratified_shuffle_split
    keras_model xgb_model lgbm_model X y test_size random_state w = (r, w') ->
  events w' = events w /\
  exists r0,
    split_data rng RandomState rng_permutation stratified_shuffle_split
      (np_random w) X y test_size None random_state (Some y) = (r0, np_random w') /\
    r = match r0 with
        | Ok (TrainTest X_train X_test y_train y_test) =>
            Ok (X_train, X_test, y_train, y_test)
        | Ok (TrainValTest _ _ _ _ _ _) => Raise (ValueError "too many values to unpack")
        | Raise e => Raise e
        end.
Proof.
  unfold split_train_test.
  destruct (split_data _ _ _ _ _ _ _ _ _ _ _) as [r0 g] eqn:Hs.
  destruct r0 as [[a b c d|a b c d e f]|e]; intros [= <- <-]; simpl; eauto.
Qed.

Lemma save_model_inv config model_name m (w w' : World) r :
  save_model rng keras_model xgb_model lgbm_model tfjs_save config model_name m w = (r, w') ->
  np_random w' = np_random w /\
  exists written,
    events w' = (events w ++ written)%list /\
    if decide (cfg_model_type config = "neural_network") then
      r = Ok (Some (output_path (model_name +:+ "_tfjs")), None) /\
      written = match m with
                | Some (KerasModel _ _ _ km) =>
                    if tfjs_save km (output_path (model_name +:+ "_tfjs"))
                    then [EvWrite (output_path (model_name +:+ "_tfjs"))
                            (TfjsModel keras_model xgb_model lgbm_model km)]
                    else []
                | _ => []
                end
    else
      r = Ok (None, Some (output_path (model_name +:+ ".joblib"))) /\
      written = match m with
                | Some h => [EvWrite (output_path (model_name +:+ ".joblib"))
                               (NativeModel keras_model xgb_model lgbm_model h)]
                | None => []
                end.
Proof.
  unfold save_model. destruct (decide (cfg_model_type config = "neural_network")).
  - destruct m as [[km|xm|lm]|]; try (intros [= <- <-]; split; [done|]; exists [];
      by rewrite app_nil_r).
    destruct (tfjs_save km _); intros [= <- <-]; split; try done.
    + by eexists.
    + exists []. by rewrite app_nil_r.
  - destruct m as [h|]; intros [= <- <-]; split; try done.
    + by eexists.
    + exists []. by rewrite app_nil_r.
Qed.

Ltac run_step :=
  match goal with
  | H : io_bind _ _ _ _ _ _ _ = (_, _) |- _ =>
      apply io_bind_inv in H as [(? & H & ?)|(? & ? & ? & H)]
  | H : emit _ _ _ _ _ _ = (_, _) |- _ => apply emit_inv in H as (? & ? & ?)
  | H : lift _ _ _ _ _ _ = (_, _) |- _ => apply lift_inv in H as (? & ?)
  | H : split_train_test _ _ _ _ _ _ _ _ _ _ _ _ = (_, _) |- _ =>
      apply split_train_test_inv in H as (? & ? & ? & ?)
  | H : save_model _ _ _ _ _ _ _ _ _ = (_, _) |- _ =>
      apply save_model_inv in H as (? & ? & ? & ?)
  | H : context [let (_, _) := ?x in _] |- _ => is_var x; destruct x
  | H : (_, _) = (_, _) |- _ => injection H as ? ?
  end.

Ltac run_events :=
  repeat match goal with
  | H : events ?x = _ |- context [events ?x] => rewrite H
  end.

(** Every step of a run that can raise comes before the first file is
    written. *)
Lemma run_stages_raise config raw_df w e w' :
  stages config raw_df w = (Raise e, w') -> files_written w' = files_written w.
Proof.
  unfold run_stages. intros H.
  repeat run_step; subst; try discriminate;
    try match goal with
    | H : if decide _ then _ else _ |- _ => by destruct (decide _), H
    end;
    unfold files_written; run_events;
    rewrite ?omap_app; simpl; rewrite ?app_nil_r; done.
Qed.

(** The values a run that returns has gone through, and the events it leaves. *)
Lemma run_stages_ok config raw_df w w' :
  stages config raw_df w = (Ok tt, w') ->
  exists (raw1 features : DataFrame) (y_values : series)
         (X_train_val X_test : DataFrame) (y_train_val y_test : Series) (g1 : rng)
         (X_train X_val : DataFrame) (y_train y_val : Series)
         (X_train_s : DataFrame) (X_test_s X_val_s : option DataFrame) (sc : option scaler)
         (t0 t : ModelTrainer keras_model xgb_model lgbm_model training_history)
         (model_events : list (event keras_model xgb_model lgbm_model)),
    let X_features_df :=
      drop_columns [target_variable_execution config; target_variable_profitability config]
        features in
    let y_target_series := {| sindex := index features; values := y_values |} in
    let model_name :=
      output_model_name_base config +:+ "_" +:+ cfg_model_type config +:+ "_" +:+
      esp_model_version config +:+ "_" +:+ now_strftime in
    let tfjs_path := output_path (model_name +:+ "_tfjs") in
    let native_path := output_path (model_name +:+ ".joblib") in
    let scaler_path := output_path (model_name +:+ "_scaler.joblib") in
    let metadata_path := output_path (model_name +:+ "_metadata.json") in
    let nn := bool_decide (cfg_model_type config = "neural_network") in
    let metadata := {|
      md_model_name := model_name;
      md_model_type := cfg_model_type config;
      md_esp_model_version := esp_model_version config;
      md_feature_list_version := feature_list_version config;
      md_training_timestamp := now_isoformat;
      md_evaluation_results :=
        match get_model t with
        | Some m => evaluate_model m X_test_s y_test (cfg_model_type config)
        | None => {["error" := PyStr "Model training failed or model not returned."]}
        end;
      md_scaler_path := scaler_path;
      md_tfjs_model_path := if nn then Some tfjs_path else None;
      md_native_model_path := if nn then None else Some native_path;
      md_feature_columns_ordered := column_names X_features_df;
      md_scaler := export_scaler X_features_df sc
    |} in
    label_stage config raw_df = Ok raw1 /\
    generate_features int_of_str series_mode timestamp to_datetime dt_hour dt_dayofweek
      np_sin np_cos raw1 (feature_list_version config) = Ok features /\
    get_column (target_variable_execution config) features = Some y_values /\
    split_data rng RandomState rng_permutation stratified_shuffle_split (np_random w)
      X_features_df y_target_series (test_set_size_ratio config) None
      (cfg_random_state config) (Some y_target_series) =
      (Ok (TrainTest X_train_val X_test y_train_val y_test), g1) /\
    split_data rng RandomState rng_permutation stratified_shuffle_split g1
      X_train_val y_train_val (validation_set_size_ratio config) None
      (cfg_random_state config) (Some y_train_val) =
      (Ok (TrainTest X_train X_val y_train y_val), np_random w') /\
    scale_features standard_fit minmax_fit X_train (Some X_test) (Some X_val)
      (cfg_scaler_type config) None = Ok (X_train_s, X_test_s, X_val_s, sc) /\
    ModelTrainer_init keras_model xgb_model lgbm_model training_history
      keras_build xgb_new lgbm_new (cfg_model_type config) (Some (params_of config))
      (cfg_random_state config) = Ok t0 /\
    train keras_model xgb_model lgbm_model training_history keras_build keras_fit
      xgb_fit lgbm_fit t0 X_train_s y_train X_val_s (Some y_val) = Ok t /\
    model_events =
      (if nn then
         match get_model t with
         | Some (KerasModel _ _ _ km) =>
             if tfjs_save km tfjs_path
             then [EvWrite tfjs_path (TfjsModel keras_model xgb_model lgbm_model km)]
             else []
         | _ => []
         end
       else
         match get_model t with
         | Some h => [EvWrite native_path (NativeModel keras_model xgb_model lgbm_model h)]
         | None => []
         end) /\
    events w' =
      (events w ++
       [EvStage 2 "Labeling"; EvStage 3 "Feature Engineering";
        EvStage 4 "Data Preprocessing"; EvStage 5 "Model Training";
        EvStage 6 "Model Evaluation"; EvStage 7 "Model Serialization"] ++
       model_events ++
       [EvWrite scaler_path (ScalerBlob keras_model xgb_model lgbm_model sc);
        EvWrite metadata_path (MetadataDocument keras_model xgb_model lgbm_model metadata);
        EvPrint "--- ML Training Pipeline Finished (mock execution) ---"])%list.
Proof.
  unfold run_stages. intros H.
  repeat run_step; subst; try discriminate.
  repeat match goal with
  | H : Ok _ = match ?r with Ok _ => _ | Raise _ => _ end |- _ =>
      destruct r as [[? ? ? ?|? ? ? ? ? ?]|?]; try discriminate; injection H as <- <- <- <-
  end.
  match goal with
  | H : Ok _ = match get_column ?n ?d with Some _ => _ | None => _ end |- _ =>
      destruct (get_column n d) eqn:Hy; [injection H as ->|discriminate]
  end.
  repeat match goal with
  | H : np_random ?x = np_random ?y, H' : context [np_random ?x] |- _ =>
      lazymatch type of H' with
      | np_random x = np_random y => fail
      | _ => rewrite H in H'
      end
  end.
  do 19 eexists. cbv zeta.
  repeat match goal with
  | |- _ /\ _ => split
  | |- Ok _ = _ => eassumption
  | |- _ = Ok _ => symmetry; eassumption
  end; try eassumption.
  - repeat match goal with
    | H : np_random ?x = np_random ?y |- context [np_random ?x] => rewrite H
    end. eassumption.
  - reflexivity.
  - run_events.
    match goal with
    | H : if decide ?P then _ else _ |- _ =>
        destruct (decide P) as [Hnn|Hnn]; destruct H as [[= ->] ->];
        [rewrite !(bool_decide_eq_true_2 _ Hnn) | rewrite !(bool_decide_eq_false_2 _ Hnn)]
    end; simpl; by rewrite <- !(assoc (++)).
Qed.

Abbreviation run :=
  (run_pipeline_with int_of_str series_mode timestamp to_datetime dt_hour dt_dayofweek
     np_sin np_cos rng RandomState rng_permutation stratified_shuffle_split
     standard_fit minmax_fit keras_model xgb_model lgbm_model training_history
     keras_build xgb_new lgbm_new keras_fit xgb_fit lgbm_fit
     firestore_stream json_normalize evaluate_model tfjs_save now_strftime now_isoformat).

Abbreviation fetched config :=
  (fetch_from_firestore firestore_stream json_normalize (gcp_project_id config)
     (firestore_collection_train config) (max_documents_to_fetch config)).

Lemma run_inv config w r w' :
  run config w = (r, w') ->
  let w1 : World := {| events := events w ++ [EvStage 1 "Data Ingestion"];
                      np_random := np_random w |} in
  if df_empty (fetched config) then
    r = Ok tt /\ np_random w' = np_random w /\
    events w' =
      (events w ++ [EvStage 1 "Data Ingestion";
                    EvPrint "No data fetched (mock response was empty). Exiting."])%list
  else stages config (fetched config) w1 = (r, w').
Proof.
  unfold run_pipeline_with, io_bind, emit. simpl.
  destruct (df_empty (fetched config)); [|done].
  intros [= <- <-]. simpl. by rewrite <- (assoc (++)).
Qed.

(** A run that ends in an exception has written no file: labeling, feature
    engineering, the two splits, scaling, the construction of the trainer and
    the training all come before the first write, and nothing after the
    first write raises (the writes themselves taken as succeeding). *)
Theorem run_that_raises_writes_nothing config (w w' : World) e :
  run config w = (Raise e, w') ->
  files_written w' = files_written w.
Proof.
  intros H. apply run_inv in H. simpl in H.
  destruct (df_empty (fetched config)); [by destruct H|].
  apply run_stages_raise in H. rewrite H.
  unfold files_written. simpl. by rewrite omap_app, app_nil_r.
Qed.

(** A run that returns has either stopped after stage 1 and written
    nothing, or gone through the seven stages in order and written, in this
    order, the model, the scaler and the metadata document, all three under
    names that start with the model name.  The model is a joblib file for the
    tree models; for the network it is the TensorFlow.js directory, and it is
    missing when the converter failed. *)
Theorem run_all_or_nothing config (w w' : World) :
  run config w = (Ok tt, w') ->
  let model_name :=
    output_model_name_base config +:+ "_" +:+ cfg_model_type config +:+ "_" +:+
    esp_model_version config +:+ "_" +:+ now_strftime in
  (stages_entered w' = (stages_entered w ++ [1%nat])%list /\
   files_written w' = files_written w) \/
  (stages_entered w' = (stages_entered w ++ [1; 2; 3; 4; 5; 6; 7]%nat)%list /\
   exists model_files,
     files_written w' =
       (files_written w ++ model_files ++
        [output_path (model_name +:+ "_scaler.joblib");
         output_path (model_name +:+ "_metadata.json")])%list /\
     if decide (cfg_model_type config = "neural_network")
     then model_files = [] \/ model_files = [output_path (model_name +:+ "_tfjs")]
     else model_files = [output_path (model_name +:+ ".joblib")]).
Proof.
  intros H model_name. apply run_inv in H. simpl in H.
  destruct (df_empty (fetched config)).
  { left. destruct H as (_ & _ & Hev). unfold stages_entered, files_written.
    rewrite Hev, !omap_app. simpl. by rewrite app_nil_r. }
  right. apply run_stages_ok in H
    as (raw1 & features & yv & Xtv & Xte & ytv & yte & g1 & Xtr & Xva & ytr & yva &
        Xtrs & Xtes & Xvas & sc & t0 & t & model_events & H).
  cbv zeta in H. fold model_name in H.
  destruct H as (_ & _ & _ & _ & _ & _ & _ & Htrain & Hme & Hev).
  apply train_model_is_Some in Htrain as [h Hh].
  assert (Hstages : omap (fun ev : event keras_model xgb_model lgbm_model =>
                            match ev with EvStage n _ => Some n | _ => None end) model_events
                    = []).
  { rewrite Hme, Hh.
    destruct (bool_decide _); [destruct h as [km|xm|lm]; [destruct (tfjs_save _ _)|..]|];
      done. }
  split.
  { unfold stages_entered. rewrite Hev, !omap_app, Hstages. simpl.
    rewrite omap_app. simpl. by rewrite <- (assoc (++)). }
  exists (omap (fun ev : event keras_model xgb_model lgbm_model =>
                  match ev with EvWrite path _ => Some path | _ => None end) model_events).
  split.
  { unfold files_written. rewrite Hev, !omap_app. simpl.
    rewrite omap_app. simpl. by rewrite app_nil_r. }
  rewrite Hme, Hh. destruct (decide (cfg_model_type config = "neural_network")) as [Hnn|Hnn].
  - rewrite (bool_decide_eq_true_2 _ Hnn).
    destruct h as [km|xm|lm]; [destruct (tfjs_save _ _)|..]; simpl; auto.
  - by rewrite (bool_decide_eq_false_2 _ Hnn).
Qed.

Lemma drop_columns_names (names : list string) (df : DataFrame) :
  column_names (drop_columns names df) = filter (fun n => n ∉ names) (column_names df).
Proof.
  unfold column_names, drop_columns. simpl.
  induction (columns df) as [|[n c] cols IH]; [done|].
  rewrite fmap_cons, !filter_cons. simpl.
  destruct (decide (n ∉ names)); [rewrite fmap_cons; simpl; by f_equal | done].
Qed.

Lemma numeric_cols_scaled_subseteq (X : DataFrame) :
  numeric_cols_scaled X ⊆ column_names X.
Proof.
  unfold numeric_cols_scaled, column_names. intros n Hn.
  apply list_elem_of_fmap in Hn as ([n' c] & -> & [_ Hin]%list_elem_of_filter).
  apply list_elem_of_fmap. by exists (n', c).
Qed.

(** The metadata document of a run that went through the seven stages.  It
    is written last, after the scaler, whose path it records.  It names a
    TensorFlow.js path for the network and a joblib path for the tree models,
    never both.  Its evaluation results are what [evaluate_model] returned for
    the trained model, never the "Model training failed" fallback.  Every
    scaled feature it lists is one of its ordered feature columns; and with the
    target names of the hardcoded configuration these are the 51 columns of the
    feature matrix, the two targets left out. *)
Theorem run_metadata config (w w' : World) :
  run config w = (Ok tt, w') ->
  df_empty (fetched config) = false ->
  let model_name :=
    output_model_name_base config +:+ "_" +:+ cfg_model_type config +:+ "_" +:+
    esp_model_version config +:+ "_" +:+ now_strftime in
  exists before sc md,
    events w' =
      (before ++
       [EvWrite (output_path (model_name +:+ "_scaler.joblib"))
          (ScalerBlob keras_model xgb_model lgbm_model sc);
        EvWrite (output_path (model_name +:+ "_metadata.json"))
          (MetadataDocument keras_model xgb_model lgbm_model md);
        EvPrint "--- ML Training Pipeline Finished (mock execution) ---"])%list /\
    md_model_name md = model_name /\
    md_scaler_path md = output_path (model_name +:+ "_scaler.joblib") /\
    (md_tfjs_model_path md, md_native_model_path md) =
      (if decide (cfg_model_type config = "neural_network")
       then (Some (output_path (model_name +:+ "_tfjs")), None)
       else (None, Some (output_path (model_name +:+ ".joblib")))) /\
    (exists m X_test_s y_test,
       md_evaluation_results md = evaluate_model m X_test_s y_test (cfg_model_type config)) /\
    (sc = None -> md_scaler md = None) /\
    (forall e, md_scaler md = Some e ->
       numeric_features_scaled e ⊆ md_feature_columns_ordered md) /\
    (target_variable_execution config = "isSuccess_Execution" ->
     target_variable_profitability config = "isSuccess_Profitability" ->
     md_feature_columns_ordered md =
       (feature_rules.*1 ++
        ["F39_hourOfDayUTC_Sin"; "F39_hourOfDayUTC_Cos";
         "F40_dayOfWeekUTC_Sin"; "F40_dayOfWeekUTC_Cos"])%list /\
     length (md_feature_columns_ordered md) = 51%nat).
Proof.
  intros H Hne model_name. apply run_inv in H. simpl in H. rewrite Hne in H.
  apply run_stages_ok in H
    as (raw1 & features & yv & Xtv & Xte & ytv & yte & g1 & Xtr & Xva & ytr & yva &
        Xtrs & Xtes & Xvas & sc & t0 & t & model_events & H).
  cbv zeta in H. fold model_name in H.
  destruct H as (_ & Hgen & _ & _ & _ & _ & _ & Htrain & Hme & Hev).
  apply train_model_is_Some in Htrain as [h Hh].
  eexists _, sc, _. split.
  { rewrite Hev. rewrite !(assoc (++)). reflexivity. }
  simpl. split; [done|]. split; [done|]. split.
  { by destruct (decide _) as [Hnn|Hnn];
      [rewrite !(bool_decide_eq_true_2 _ Hnn) | rewrite !(bool_decide_eq_false_2 _ Hnn)]. }
  split; [rewrite Hh; eauto|]. split; [by intros ->|]. split.
  { intros e He. unfold export_scaler in He.
    destruct sc as [[[p|]|[p|]]|]; try discriminate; injection He as <-; simpl;
      apply numeric_cols_scaled_subseteq. }
  intros -> ->. rewrite drop_columns_names.
  destruct (generate_features_names _ _ _ _ _ _ _ _ _ _ _ Hgen) as [_ ->].
  split; by vm_compute.
Qed.

(** When the TensorFlow.js converter writes nothing (the package is missing,
    or the conversion fails: [save_for_tfjs] prints and goes on), a run with
    the network still returns: it writes the scaler and the metadata only, and
    the metadata records a TensorFlow.js model path at which there is no
    model. *)
Theorem run_without_tfjs_converter config (w w' : World) :
  (forall km path, tfjs_save km path = false) ->
  cfg_model_type config = "neural_network" ->
  df_empty (fetched config) = false ->
  run config w = (Ok tt, w') ->
  let model_name :=
    output_model_name_base config +:+ "_" +:+ cfg_model_type config +:+ "_" +:+
    esp_model_version config +:+ "_" +:+ now_strftime in
  files_written w' =
    (files_written w ++
     [output_path (model_name +:+ "_scaler.joblib");
      output_path (model_name +:+ "_metadata.json")])%list /\
  exists md,
    last (events w') = Some (EvPrint "--- ML Training Pipeline Finished (mock execution) ---") /\
    EvWrite (output_path (model_name +:+ "_metadata.json"))
      (MetadataDocument keras_model xgb_model lgbm_model md) ∈ events w' /\
    md_tfjs_model_path md = Some (output_path (model_name +:+ "_tfjs")).
Proof.
  intros Hsave Hnn Hne H model_name. apply run_inv in H. simpl in H. rewrite Hne in H.
  apply run_stages_ok in H
    as (raw1 & features & yv & Xtv & Xte & ytv & yte & g1 & Xtr & Xva & ytr & yva &
        Xtrs & Xtes & Xvas & sc & t0 & t & model_events & H).
  cbv zeta in H. fold model_name in H.
  destruct H as (_ & _ & _ & _ & _ & _ & _ & _ & Hme & Hev).
  rewrite (bool_decide_eq_true_2 _ Hnn) in Hme, Hev.
  assert (Hnil : model_events = []).
  { rewrite Hme. destruct (get_model t) as [[km|xm|lm]|]; try done. by rewrite Hsave. }
  rewrite Hnil in Hev. clear Hme Hnil. simpl in Hev. split.
  { unfold files_written. rewrite Hev, !omap_app. simpl.
    by rewrite app_nil_r. }
  eexists. rewrite Hev. split; [|split].
  - by rewrite last_app.
  - rewrite elem_of_app. right. rewrite !elem_of_cons. tauto.
  - done.
Qed.

End RunFacts.

(** ** Stage 2: the labels *)

Lemma infer_objects_ints (vals : list pyval) :
  Forall (fun c => exists z, c = PyInt z) vals ->
  series_cells (infer_objects vals) = vals.
Proof.
  intros Hall.
  assert (Hs : foldr see seen_nothing vals =
               {| seen_null := false; seen_nan := false; seen_float := false;
                  seen_int := match vals with [] => false | _ => true end;
                  seen_bool := false; seen_object := false |}).
  { induction Hall as [|c vals [z ->] _ IH]; [done|]. simpl. rewrite IH. done. }
  assert (Hid : PyInt <$> (cell_int <$> vals) = vals).
  { clear Hs. induction Hall as [|c vals [z ->] _ IH]; [done|].
    rewrite !fmap_cons. simpl. by rewrite IH. }
  unfold infer_objects. rewrite Hs. simpl.
  destruct vals as [|c vals]; [done|]. exact Hid.
Qed.

Lemma label_execution_binary (x : pyval) :
  (label_execution x = PyInt 1 /\ x = PyStr "SUCCESS_ON_CHAIN") \/
  (label_execution x = PyInt 0 /\ x <> PyStr "SUCCESS_ON_CHAIN").
Proof.
  destruct x as [| | | |s| |]; try (by right).
  simpl. destruct (decide (s = "SUCCESS_ON_CHAIN")) as [->|Hne]; [by left|].
  right. split; [done|]. by intros [= ->].
Qed.

Lemma label_profitability_binary (threshold : float) (x y : pyval) :
  label_profitability threshold x = Ok y ->
  (y = PyInt 1 /\ exists f, py_to_float x = Ok f /\ PrimFloat.ltb threshold f = true) \/
  (y = PyInt 0 /\ forall f, py_to_float x = Ok f -> PrimFloat.ltb threshold f = false).
Proof.
  destruct x as [|b|z|f| | |]; simpl; try discriminate.
  - intros [= <-]. right. split; [done|]. discriminate.
  - destruct (PrimFloat.ltb _ _) eqn:Hlt; intros [= <-]; [left|right]; split; try done.
    + eauto.
    + by intros ? [= <-].
  - destruct (PrimFloat.ltb _ _) eqn:Hlt; intros [= <-]; [left|right]; split; try done.
    + eauto.
    + by intros ? [= <-].
  - destruct (PrimFloat.ltb _ _) eqn:Hlt; intros [= <-]; [left|right]; split; try done.
    + eauto.
    + by intros ? [= <-].
Qed.

(** The labels of stage 2, under the target names of the hardcoded
    configuration.  Both target columns hold 0 or 1 in every row and nothing
    else, whatever the records hold.  The execution label of a row is 1 exactly
    when its status is the string "SUCCESS_ON_CHAIN" (a missing status is a
    failure); the profitability label is 1 exactly when the realised profit is
    a number strictly above the threshold (a missing profit, or a profit equal
    to the threshold, is 0).  Without the source column every label is 0.  The
    index of the frame is kept. *)
Theorem label_stage_labels (config : Config) (raw_df raw1 : DataFrame) :
  target_variable_execution config = "isSuccess_Execution" ->
  target_variable_profitability config = "isSuccess_Profitability" ->
  label_stage config raw_df = Ok raw1 ->
  index raw1 = index raw_df /\
  exists ex pr,
    get_column "isSuccess_Execution" raw1 = Some ex /\
    get_column "isSuccess_Profitability" raw1 = Some pr /\
    Forall (fun c => c = PyInt 0 \/ c = PyInt 1) (series_cells ex) /\
    Forall (fun c => c = PyInt 0 \/ c = PyInt 1) (series_cells pr) /\
    match get_column "executionDetails.executionStatus" raw_df with
    | Some s =>
        forall i x, series_cells s !! i = Some x ->
          (series_cells ex !! i = Some (PyInt 1) /\ x = PyStr "SUCCESS_ON_CHAIN") \/
          (series_cells ex !! i = Some (PyInt 0) /\ x <> PyStr "SUCCESS_ON_CHAIN")
    | None => ex = SInt64 (replicate (length (index raw_df)) 0)
    end /\
    match get_column "executionDetails.actualNetProfitLossUsd" raw_df with
    | Some s =>
        forall i x, series_cells s !! i = Some x ->
          (series_cells pr !! i = Some (PyInt 1) /\
           exists f, py_to_float x = Ok f /\
             PrimFloat.ltb (min_acceptable_profit_post_execution_usd config) f = true) \/
          (series_cells pr !! i = Some (PyInt 0) /\
           forall f, py_to_float x = Ok f ->
             PrimFloat.ltb (min_acceptable_profit_post_execution_usd config) f = false)
    | None => pr = SInt64 (replicate (length (index raw_df)) 0)
    end.
Proof.
  intros Hte Htp. unfold label_stage. rewrite Hte, Htp. intros H.
  apply rbind_ok in H as (pr & Hpr & [= <-]).
  split; [done|].
  set (ex := match get_column "executionDetails.executionStatus" raw_df with
             | Some s => series_apply label_execution s
             | None => zeros (length (index raw_df))
             end) in *.
  rewrite get_set_column_ne in Hpr by done.
  exists ex, pr.
  rewrite get_set_column_ne, !get_set_column_eq by done.
  split; [done|]. split; [done|].
  assert (Hzeros : forall n, Forall (fun c => c = PyInt 0 \/ c = PyInt 1)
                               (series_cells (zeros n))).
  { intros n. unfold zeros. simpl. rewrite fmap_replicate. apply Forall_replicate. by left. }
  assert (Hex : series_cells ex =
                match get_column "executionDetails.executionStatus" raw_df with
                | Some s => label_execution <$> series_cells s
                | None => replicate (length (index raw_df)) (PyInt 0)
                end).
  { subst ex. destruct (get_column "executionDetails.executionStatus" raw_df) as [s|].
    - unfold series_apply. apply infer_objects_ints. apply Forall_fmap, Forall_forall.
      intros x _. simpl. destruct (label_execution_binary x) as [[-> _]|[-> _]]; eauto.
    - unfold zeros. simpl. by rewrite fmap_replicate. }
  split.
  { rewrite Hex. destruct (get_column "executionDetails.executionStatus" raw_df) as [s|].
    - apply Forall_fmap, Forall_forall. intros x _. simpl.
      destruct (label_execution_binary x) as [[-> _]|[-> _]]; auto.
    - apply Forall_replicate. by left. }
  split.
  { destruct (get_column "executionDetails.actualNetProfitLossUsd" raw_df) as [s|].
    - apply rbind_ok in Hpr as (cells & Hcells & [= <-]).
      destruct (mapM_ok_lookup _ _ _ Hcells) as [_ Hl].
      assert (Hb : Forall (fun c => c = PyInt 0 \/ c = PyInt 1) cells).
      { apply Forall_lookup. intros i y Hy.
        destruct (series_cells s !! i) as [x|] eqn:Hx.
        - destruct (Hl i x Hx) as (y' & Hy' & Hly). rewrite Hy in Hly. injection Hly as <-.
          destruct (label_profitability_binary _ _ _ Hy') as [[-> _]|[-> _]]; auto.
        - apply lookup_ge_None in Hx. apply lookup_lt_Some in Hy.
          apply mapM_ok_lookup in Hcells as [Hlen _]. lia. }
      rewrite infer_objects_ints; [done|].
      eapply Forall_impl; [exact Hb|]. intros c [-> | ->]; eauto.
    - injection Hpr as <-. apply Hzeros. }
  split.
  { destruct (get_column "executionDetails.executionStatus" raw_df) as [s|]; [|done].
    intros i x Hx. rewrite Hex, list_lookup_fmap, Hx. simpl.
    destruct (label_execution_binary x) as [[-> ->]|[-> Hne]]; auto. }
  destruct (get_column "executionDetails.actualNetProfitLossUsd" raw_df) as [s|].
  - apply rbind_ok in Hpr as (cells & Hcells & [= <-]).
    destruct (mapM_ok_lookup _ _ _ Hcells) as [_ Hl].
    assert (Hb : Forall (fun c => exists z, c = PyInt z) cells).
    { apply Forall_lookup. intros i y Hy.
      destruct (series_cells s !! i) as [x|] eqn:Hx.
      - destruct (Hl i x Hx) as (y' & Hy' & Hly). rewrite Hy in Hly. injection Hly as <-.
        destruct (label_profitability_binary _ _ _ Hy') as [[-> _]|[-> _]]; eauto.
      - apply lookup_ge_None in Hx. apply lookup_lt_Some in Hy.
        apply mapM_ok_lookup in Hcells as [Hlen _]. lia. }
    rewrite (infer_objects_ints _ Hb).
    intros i x Hx. destruct (Hl i x Hx) as (y & Hy & Hly). rewrite Hly.
    destruct (label_profitability_binary _ _ _ Hy) as [[-> ?]|[-> ?]]; auto.
  - by injection Hpr as <-.
Qed.

(** ** [fetch_from_firestore]: the guard on the feature map, the limit *)

Lemma ensure_feature_map_dict (doc : gmap string pyval) :
  exists m, ensure_feature_map doc !! "espInputFeatures" = Some (PyDict m).
Proof.
  unfold ensure_feature_map.
  destruct (doc !! "espInputFeatures") as [[| | | | |m|]|] eqn:H;
    try (exists ∅; by rewrite lookup_insert_eq).
  by exists m.
Qed.

Section IngestionFacts.

Variable firestore_stream : string -> string -> option Z -> result (list (gmap string pyval)).

(** What the ingestion hands to [json_normalize], and how it reads its limit.
    Every document it passes on has a mapping under [espInputFeatures]: a
    mapping that was there is kept, anything else (no entry, a null, a string)
    is replaced by the empty mapping; no other field of a document is touched,
    and no document is added, dropped or reordered.  [json_normalize] is never
    called on an empty list.  A limit of 0 is no limit. *)
Theorem fetch_from_firestore_guard (project_id collection_name : string) (limit : option Z) :
  (forall doc : gmap string pyval,
     (exists m, ensure_feature_map doc !! "espInputFeatures" = Some (PyDict m) /\
        match doc !! "espInputFeatures" with
        | Some (PyDict m0) => m = m0
        | _ => m = ∅
        end) /\
     (forall key, key <> "espInputFeatures" -> ensure_feature_map doc !! key = doc !! key) /\
     ensure_feature_map (ensure_feature_map doc) = ensure_feature_map doc) /\
  (forall jn1 jn2 : list (gmap string pyval) -> result DataFrame,
     (forall docs,
        docs <> [] ->
        Forall (fun doc => exists m, doc !! "espInputFeatures" = Some (PyDict m)) docs ->
        jn1 docs = jn2 docs) ->
     fetch_from_firestore firestore_stream jn1 project_id collection_name limit =
     fetch_from_firestore firestore_stream jn2 project_id collection_name limit) /\
  (forall jn docs df,
     firestore_stream project_id collection_name (effective_limit limit) = Ok docs ->
     jn (ensure_feature_map <$> docs) = Ok df ->
     docs <> [] ->
     fetch_from_firestore firestore_stream jn project_id collection_name limit = df) /\
  (forall jn,
     fetch_from_firestore firestore_stream jn project_id collection_name (Some 0) =
     fetch_from_firestore firestore_stream jn project_id collection_name None).
Proof.
  split; [|split; [|split]].
  - intros doc. split; [|split].
    + unfold ensure_feature_map.
      destruct (doc !! "espInputFeatures") as [[| | | | |m|]|] eqn:H;
        try (exists ∅; by rewrite lookup_insert_eq).
      by exists m.
    + intros key Hne. unfold ensure_feature_map.
      destruct (doc !! "espInputFeatures") as [[| | | | |m|]|];
        try done; by rewrite lookup_insert_ne.
    + destruct (ensure_feature_map_dict doc) as [m Hm].
      unfold ensure_feature_map at 1. by rewrite Hm.
  - intros jn1 jn2 Hjn. unfold fetch_from_firestore.
    destruct (firestore_stream _ _ _) as [docs|e]; [|done].
    destruct docs as [|d docs]; [done|]. rewrite fmap_cons.
    rewrite Hjn; [done | done |].
    rewrite <- fmap_cons. apply Forall_fmap, Forall_forall. intros doc _.
    apply ensure_feature_map_dict.
  - intros jn docs df Hs Hjn Hne. unfold fetch_from_firestore. rewrite Hs.
    destruct docs as [|d docs]; [done|]. rewrite fmap_cons in *. by rewrite Hjn.
  - done.
Qed.

End IngestionFacts.

(** ** The feature matrix of a run, and the scaler parameters it exports *)

Lemma iloc_dtypes (p : list nat) (X : DataFrame) : dtypes (iloc p X) = dtypes X.
Proof.
  unfold dtypes, iloc. simpl. rewrite <- list_fmap_compose.
  apply list_fmap_ext. intros i [n c] _. by destruct c.
Qed.

Lemma drop_columns_dtypes (names : list string) (df : DataFrame) :
  dtypes (drop_columns names df) = filter (fun d => d.1 ∉ names) (dtypes df).
Proof.
  unfold dtypes, drop_columns. simpl.
  induction (columns df) as [|[n c] cols IH]; [done|].
  rewrite fmap_cons, !filter_cons. simpl.
  destruct (decide (n ∉ names)); [rewrite fmap_cons; simpl; by f_equal | done].
Qed.

Lemma dtypes_names (df : DataFrame) : (dtypes df).*1 = column_names df.
Proof.
  unfold dtypes, column_names. rewrite <- list_fmap_compose.
  apply list_fmap_ext. by intros i [n c] _.
Qed.

Lemma np_number_select_all (X : DataFrame) :
  Forall (fun d : string * dtype => np_number_dtype d.2 = true) (dtypes X) ->
  select_number_columns X = column_names X.
Proof.
  intros H. rewrite select_number_columns_dtypes, <- dtypes_names.
  induction H as [|d l Hd _ IH]; [done|].
  by rewrite filter_cons, decide_True, !fmap_cons, IH.
Qed.

Section SplitDtypes.

Variable rng : Type.
Variable RandomState : Z -> rng.
Variable rng_permutation : rng -> nat -> list nat * rng.
Variable stratified_shuffle_split :
  rng -> series -> nat -> nat -> result (list nat * list nat) * rng.

(** The partitions of a split have the columns of the frame that was split. *)
Lemma split_data_dtypes g X y test_size random_state stratify Xa Xb ya yb g' :
  split_data rng RandomState rng_permutation stratified_shuffle_split
    g X y test_size None random_state stratify = (Ok (TrainTest Xa Xb ya yb), g') ->
  dtypes Xa = dtypes X /\ dtypes Xb = dtypes X.
Proof.
  unfold split_data.
  destruct (train_test_split _ _ _ _ _ _ _ _ _ _) as [[[[[Xtv Xte] ytv] yte]|e] g1] eqn:H1;
    [|intros [=]].
  intros [= <- <- <- <- <-].
  apply train_test_split_rows in H1 as (p & q & -> & -> & _).
  rewrite !iloc_dtypes. by destruct (bool_decide _).
Qed.

End SplitDtypes.

Section DefaultMatrix.

Variable int_of_str : string -> option Z.
Variable series_mode : list pyval -> list pyval.
Variable timestamp : Type.
Variable to_datetime : pyval -> option timestamp.
Variable dt_hour dt_dayofweek : timestamp -> Z.
Variable np_sin np_cos : float -> float.

(** The loop body keeps the names and the dtypes. *)
Lemma impute_dtypes (df df' : DataFrame) :
  impute series_mode df = Ok df' -> dtypes df' = dtypes df.
Proof.
  unfold impute. intros H. apply rbind_ok in H as (cols & Hcols & [= <-]).
  unfold dtypes. simpl.
  revert cols Hcols. induction (columns df) as [|[n c] l IH]; intros cols Hcols.
  { by injection Hcols as <-. }
  rewrite mapM_cons in Hcols. simpl in Hcols.
  destruct (impute_column series_mode c) as [c'|e] eqn:Hc; [|discriminate]. simpl in Hcols.
  destruct (mapM _ l) as [k|e] eqn:Hl; [|discriminate]. injection Hcols as <-.
  rewrite !fmap_cons, (IH k eq_refl). simpl. unfold prod_map. simpl.
  by rewrite (impute_column_dtype _ _ _ Hc).
Qed.

(** Without a feature map in any record, every assignment of sections A to E
    makes a column of floats or of integers. *)
Lemma rule_column_number_lacking (esp : series) (df : DataFrame) (r : rule) (col : series) :
  Forall (fun x => lacks_feature_map x = true) (series_cells esp) ->
  series_cells esp <> [] ->
  Forall (fun c : string * series => is_np_number c.2 = true) (columns df) ->
  rule_column int_of_str esp df r = Ok col ->
  is_np_number col = true.
Proof.
  intros Hall Hne Hdf. destruct r as [key|key|key|]; simpl; unfold series_apply.
  - rewrite (fmap_const_on _ _ (PyFloat np_nan) _ Hall)
      by (intros; by apply get_feature_lacks).
    rewrite infer_objects_replicate_nan. intros [= <-].
    by destruct (series_cells esp).
  - intros H. by apply astype_int_SInt64 in H as [v ->].
  - intros H. by apply astype_int_SInt64 in H as [v ->].
  - destruct (get_column "A1_estimatedNetProfitUsd_PreEsp" df) as [a1|] eqn:H1;
      [|discriminate].
    destruct (get_column "A2_estimatedGasCostUsd_Initial" df) as [a2|] eqn:H2;
      [|discriminate].
    apply lookup_column_elem_of in H1, H2. rewrite Forall_forall in Hdf.
    apply Hdf in H1, H2. simpl in H1, H2.
    unfold profit_to_gas_ratio. intros H. apply rbind_ok in H as (d & _ & H).
    destruct a1, a2; try discriminate; simpl in H;
      repeat (apply rbind_ok in H as (? & _ & H)); by injection H as <-.
Qed.

Lemma apply_rules_number_lacking (esp : series) (rules : list (string * rule))
  (df df' : DataFrame) :
  Forall (fun x => lacks_feature_map x = true) (series_cells esp) ->
  series_cells esp <> [] ->
  Forall (fun c : string * series => is_np_number c.2 = true) (columns df) ->
  apply_rules int_of_str esp df rules = Ok df' ->
  Forall (fun c : string * series => is_np_number c.2 = true) (columns df').
Proof.
  intros Hall Hne. revert df. induction rules as [|[n r] rules IH]; intros df Hdf H.
  { by injection H as <-. }
  simpl in H. unfold apply_rule in H. simpl in H.
  destruct (rule_column int_of_str esp df r) as [col|e] eqn:Hcol; [|discriminate].
  simpl in H. refine (IH _ _ H). simpl. apply Forall_assign; [done|].
  simpl. by eapply rule_column_number_lacking.
Qed.

(** The matrix that [generate_features] returns for a frame without a column
    of feature maps: but for the two targets, columns of floats and integers. *)
Lemma generate_features_number_lacking (raw_df df : DataFrame) (version : string) :
  get_column "espInputFeatures" raw_df = None ->
  index raw_df <> [] ->
  generate_features int_of_str series_mode timestamp to_datetime dt_hour dt_dayofweek
    np_sin np_cos raw_df version = Ok df ->
  Forall (fun d : string * dtype => np_number_dtype d.2 = true)
    (dtypes (drop_columns ["isSuccess_Execution"; "isSuccess_Profitability"] df)).
Proof.
  intros Hnone Hidx H.
  apply generate_features_inv in H as (df1 & H1 & Himpute).
  apply assemble_features_inv in H1 as (df0 & H0 & ->).
  rewrite drop_columns_dtypes, (impute_dtypes _ _ Himpute).
  set (P := fun c : string * series =>
              c.1 ∈ ["isSuccess_Execution"; "isSuccess_Profitability"] \/
              is_np_number c.2 = true).
  assert (Hesp : esp_input_column raw_df =
                 SObject (replicate (length (index raw_df)) (PyDict ∅))).
  { unfold esp_input_column. by rewrite Hnone. }
  assert (Hcols : Forall P (columns df0)).
  { unfold feature_map_columns in H0. rewrite Hesp in H0.
    eapply Forall_impl.
    - eapply apply_rules_number_lacking; [| | |exact H0]; simpl.
      + by apply Forall_replicate.
      + by destruct (index raw_df).
      + constructor.
    - intros c Hc. by right. }
  assert (Hpass : forall target d,
            target ∈ ["isSuccess_Execution"; "isSuccess_Profitability"] ->
            Forall P (columns d) -> Forall P (columns (pass_target target raw_df d))).
  { intros target d Ht Hd. unfold pass_target.
    destruct (get_column target raw_df) as [s|]; simpl;
      (apply Forall_assign; [done|]); by left. }
  assert (Hall : Forall P (columns
    (pass_target "isSuccess_Profitability" raw_df
       (pass_target "isSuccess_Execution" raw_df
          (time_features timestamp to_datetime dt_hour dt_dayofweek np_sin np_cos
             raw_df df0))))).
  { apply Hpass; [set_solver|]. apply Hpass; [set_solver|]. unfold time_features. simpl.
    repeat (apply Forall_assign; [|by right]). done. }
  unfold dtypes. apply Forall_forall. intros d [Hd Hin]%list_elem_of_filter.
  apply list_elem_of_fmap in Hin as ([n c] & -> & Hin).
  rewrite Forall_forall in Hall. destruct (Hall _ Hin) as [Ht|Hn]; [done|].
  simpl in *. by destruct c.
Qed.

End DefaultMatrix.

Section ExportedParameters.

Variable int_of_str : string -> option Z.
Variable series_mode : list pyval -> list pyval.
Variable timestamp : Type.
Variable to_datetime : pyval -> option timestamp.
Variable dt_hour dt_dayofweek : timestamp -> Z.
Variable np_sin np_cos : float -> float.
Variable rng : Type.
Variable RandomState : Z -> rng.
Variable rng_permutation : rng -> nat -> list nat * rng.
Variable stratified_shuffle_split :
  rng -> series -> nat -> nat -> result (list nat * list nat) * rng.
Variable standard_fit : list float -> standard_column.
Variable minmax_fit : list float -> minmax_column.
Variables keras_model xgb_model lgbm_model training_history : Type.
Variable keras_build : gmap string pyval -> result keras_model.
Variable xgb_new : option Z -> gmap string pyval -> result xgb_model.
Variable lgbm_new : option Z -> gmap string pyval -> result lgbm_model.
Variable keras_fit :
  keras_model -> gmap string pyval -> DataFrame -> Series ->
  option (DataFrame * Series) -> option pyval -> result (keras_model * training_history).
Variable xgb_fit :
  xgb_model -> gmap string pyval -> DataFrame -> Series ->
  option (DataFrame * Series * pyval) -> result xgb_model.
Variable lgbm_fit :
  lgbm_model -> gmap string pyval -> DataFrame -> Series ->
  option (DataFrame * Series * pyval) -> result lgbm_model.
Variable firestore_stream : string -> string -> option Z -> result (list (gmap string pyval)).
Variable json_normalize : list (gmap string pyval) -> result DataFrame.
Variable evaluate_model :
  model_handle keras_model xgb_model lgbm_model -> option DataFrame -> Series -> string ->
  gmap string pyval.
Variable tfjs_save : keras_model -> string -> bool.
Variable now_strftime now_isoformat : string.

Abbreviation run :=
  (run_pipeline_with int_of_str series_mode timestamp to_datetime dt_hour dt_dayofweek
     np_sin np_cos rng RandomState rng_permutation stratified_shuffle_split
     standard_fit minmax_fit keras_model xgb_model lgbm_model training_history
     keras_build xgb_new lgbm_new keras_fit xgb_fit lgbm_fit
     firestore_stream json_normalize evaluate_model tfjs_save now_strftime now_isoformat).

Abbreviation fetched config :=
  (fetch_from_firestore firestore_stream json_normalize (gcp_project_id config)
     (firestore_collection_train config) (max_documents_to_fetch config)).

Abbreviation split := (split_data rng RandomState rng_permutation stratified_shuffle_split).

Abbreviation World := (world rng keras_model xgb_model lgbm_model).

(** What pandas' [json_normalize] does with a field that holds a dict in
    every record: its entries become columns named [field.key], and no column
    is named after the field itself. *)
Abbreviation flattens_feature_maps :=
  (forall docs df,
     Forall (fun d : gmap string pyval =>
               exists m, d !! "espInputFeatures" = Some (PyDict m)) docs ->
     json_normalize docs = Ok df ->
     get_column "espInputFeatures" df = None).

(** The frame of a run has no column [espInputFeatures]: the ingestion puts a
    dict under that field in every record, and the normalization flattens
    it. *)
Lemma fetched_without_feature_map_column (project_id collection_name : string)
  (limit : option Z) :
  flattens_feature_maps ->
  get_column "espInputFeatures"
    (fetch_from_firestore firestore_stream json_normalize project_id collection_name limit)
  = None.
Proof.
  intros Hflat. unfold fetch_from_firestore.
  destruct (firestore_stream _ _ _) as [docs|e]; [|done].
  destruct (ensure_feature_map <$> docs) as [|d l] eqn:Hl; [done|].
  destruct (json_normalize (d :: l)) as [df|e] eqn:Hj; [|done].
  refine (Hflat _ _ _ Hj). rewrite <- Hl.
  apply Forall_fmap, Forall_forall. intros doc _. apply ensure_feature_map_dict.
Qed.

Lemma label_stage_other_column (config : Config) (raw_df raw1 : DataFrame) (name : string) :
  label_stage config raw_df = Ok raw1 ->
  name <> target_variable_execution config ->
  name <> target_variable_profitability config ->
  get_column name raw1 = get_column name raw_df /\ index raw1 = index raw_df.
Proof.
  unfold label_stage. intros H Hn1 Hn2. apply rbind_ok in H as (prof & _ & [= <-]).
  split; [|done]. by rewrite !get_set_column_ne.
Qed.

(** C1: the exported scaler parameters of a run.  The frame of a run has no
    column [espInputFeatures] (the normalization has flattened the dict that
    the ingestion puts there, see [fetched_without_feature_map_column]).  Such
    a run with the standardization scaler that goes through its seven stages
    (the target names those of the hardcoded configuration) writes a metadata
    document whose scaler block names the 51 feature columns, all of them
    scaled, and maps each name to the mean and the scale that the fitted
    scaler (the one written beside it) holds for that column: recomputing
    [(x - mean) / scale] from the exported pair gives, bit for bit, what the
    scaler's own transform gives for any value [x] of that column.  It is
    also the value found in the scaled test and validation frames of the run,
    at every row, for the value that [scale_features] passes to the transform
    (the raw value, or 0 where it is missing). *)
Theorem C1_run_exports_fitted_parameters (config : Config) (w w' : World) :
  get_column "espInputFeatures" (fetched config) = None ->
  cfg_scaler_type config = "standard" ->
  target_variable_execution config = "isSuccess_Execution" ->
  target_variable_profitability config = "isSuccess_Profitability" ->
  df_empty (fetched config) = false ->
  run config w = (Ok tt, w') ->
  exists (raw1 features : DataFrame) (y_values : series)
         (X_train_val X_test : DataFrame) (y_train_val y_test : Series) (g1 : rng)
         (X_train X_val : DataFrame) (y_train y_val : Series)
         (X_train_s X_test_s X_val_s : DataFrame) (sc : scaler)
         (before : list (event keras_model xgb_model lgbm_model))
         (md : Metadata) (e : ScalerExport),
    let X_features_df :=
      drop_columns ["isSuccess_Execution"; "isSuccess_Profitability"] features in
    let y_target_series := {| sindex := index features; values := y_values |} in
    label_stage config (fetched config) = Ok raw1 /\
    generate_features int_of_str series_mode timestamp to_datetime dt_hour dt_dayofweek
      np_sin np_cos raw1 (feature_list_version config) = Ok features /\
    get_column "isSuccess_Execution" features = Some y_values /\
    split (np_random w) X_features_df y_target_series (test_set_size_ratio config) None
      (cfg_random_state config) (Some y_target_series) =
      (Ok (TrainTest X_train_val X_test y_train_val y_test), g1) /\
    split g1 X_train_val y_train_val (validation_set_size_ratio config) None
      (cfg_random_state config) (Some y_train_val) =
      (Ok (TrainTest X_train X_val y_train y_val), np_random w') /\
    scale_features standard_fit minmax_fit X_train (Some X_test) (Some X_val)
      "standard" None = Ok (X_train_s, Some X_test_s, Some X_val_s, Some sc) /\
    events w' =
      (before ++
       [EvWrite (md_scaler_path md) (ScalerBlob keras_model xgb_model lgbm_model (Some sc));
        EvWrite (output_path (md_model_name md +:+ "_metadata.json"))
          (MetadataDocument keras_model xgb_model lgbm_model md);
        EvPrint "--- ML Training Pipeline Finished (mock execution) ---"])%list /\
    md_scaler md = Some e /\
    scaler_type_tag e = "standard" /\
    numeric_features_scaled e = md_feature_columns_ordered md /\
    md_feature_columns_ordered md =
      (feature_rules.*1 ++
       ["F39_hourOfDayUTC_Sin"; "F39_hourOfDayUTC_Cos";
        "F40_dayOfWeekUTC_Sin"; "F40_dayOfWeekUTC_Cos"])%list /\
    forall j name,
      numeric_features_scaled e !! j = Some name ->
      exists mean scale,
        exported_param e "mean" name = Some mean /\
        exported_param e "scale" name = Some scale /\
        (forall x, scaler_cell sc j x = Some ((x - mean) / scale)%float) /\
        (forall held_out held_out_s i x,
           (held_out, held_out_s) ∈ [(X_test, X_test_s); (X_val, X_val_s)] ->
           numeric_at held_out name i = Some x ->
           exists col',
             get_column name held_out_s = Some (SFloat64 col') /\
             col' !! i =
               Some (((if PrimFloat.is_nan x then 0 else x) - mean) / scale)%float).
Proof.
  intros Hflat Hstd Ht1 Ht2 Hne H.
  apply run_inv in H. simpl in H. rewrite Hne in H.
  apply run_stages_ok in H
    as (raw1 & features & yv & Xtv & Xte & ytv & yte & g1 & Xtr & Xva & ytr & yva &
        Xtrs & Xtes & Xvas & sc & t0 & t & model_events & H).
  cbv zeta in H. rewrite Ht1, Ht2, Hstd in H.
  destruct H as (Hlabel & Hgen & Hy & Hs1 & Hs2 & Hscale & _ & _ & _ & Hev).
  simpl in Hs1, Hs2.
  set (X := drop_columns ["isSuccess_Execution"; "isSuccess_Profitability"] features) in *.
  (* the raw frame has rows, and no column of feature maps *)
  destruct (label_stage_other_column config _ raw1 "espInputFeatures" Hlabel)
    as [Hcol Hidx]; [by rewrite Ht1 | by rewrite Ht2 |].
  rewrite Hflat in Hcol.
  assert (Hrows : index raw1 <> []).
  { rewrite Hidx. unfold df_empty in Hne. by destruct (index (fetched config)). }
  (* the feature matrix: 51 distinct columns of floats and integers *)
  pose proof (generate_features_number_lacking int_of_str series_mode timestamp
                to_datetime dt_hour dt_dayofweek np_sin np_cos raw1 features
                (feature_list_version config) Hcol Hrows Hgen) as Hnum.
  fold X in Hnum.
  assert (Hnames : column_names X =
            (feature_rules.*1 ++
             ["F39_hourOfDayUTC_Sin"; "F39_hourOfDayUTC_Cos";
              "F40_dayOfWeekUTC_Sin"; "F40_dayOfWeekUTC_Cos"])%list).
  { unfold X. rewrite drop_columns_names.
    destruct (generate_features_names _ _ _ _ _ _ _ _ _ _ _ Hgen) as [_ ->].
    by vm_compute. }
  assert (Hnd : NoDup (column_names X)).
  { rewrite Hnames. apply (bool_decide_unpack _). by vm_compute. }
  assert (Hbool : Forall (fun c : string * dtype => c.2 <> bool_) (dtypes X)).
  { eapply Forall_impl; [exact Hnum|]. intros [n d] Hd. simpl in *. by destruct d. }
  destruct (split_data_dtypes _ _ _ _ _ _ _ _ _ _ _ _ _ _ _ Hs1) as [Hd1 _].
  destruct (split_data_dtypes _ _ _ _ _ _ _ _ _ _ _ _ _ _ _ Hs2) as [Hd2 _].
  assert (Hdt : dtypes Xtr = dtypes X) by congruence.
  assert (Hsel : select_number_columns Xtr = column_names X).
  { rewrite np_number_select_all by (by rewrite Hdt).
    by rewrite <- !dtypes_names, Hdt. }
  (* the scaler is fitted, and both held-out frames are transformed *)
  pose proof Hscale as Hinv.
  apply scale_features_fit_inv in Hinv
    as [(Hnil & _)|(_ & sc0 & data & fitted & _ & _ & _ & -> & _ & Hte & Hva)].
  { rewrite Hsel, Hnames in Hnil. discriminate. }
  simpl in Hte, Hva.
  destruct (transform_frame fitted _ Xte) as [Xte_s|?] eqn:Htest; [|discriminate].
  destruct (transform_frame fitted _ Xva) as [Xva_s|?] eqn:Hval; [|discriminate].
  injection Hte as <-. injection Hva as <-.
  destruct (export_faithful_without_boolean_column standard_fit minmax_fit
              X Xtr Xte (Some Xva) Xtrs Xte_s (Some Xva_s) fitted Hnd Hbool Hdt Hscale)
    as (e & He & Htag & Hcols & Hparams).
  rewrite Hsel in Hcols.
  match type of Hev with
  | context [MetadataDocument _ _ _ ?m] => set (md := m) in *
  end.
  eexists raw1, features, yv, Xtv, Xte, ytv, yte, g1, Xtr, Xva, ytr, yva,
    Xtrs, Xte_s, Xva_s, fitted, _, md, e.
  cbv zeta. fold X.
  split; [done|]. split; [done|]. split; [done|]. split; [done|]. split; [done|].
  split; [done|]. split.
  { rewrite Hev. rewrite !(assoc (++)). reflexivity. }
  simpl. split; [done|]. split; [done|]. split; [done|]. split; [done|].
  intros j name Hj. rewrite Hcols, <- Hsel in Hj.
  destruct (Hparams j name Hj) as (mean & scale & Hm & Hs & Hcell & _).
  exists mean, scale. split; [done|]. split; [done|]. split; [done|].
  assert (Hnd' : NoDup (select_number_columns Xtr)) by (by rewrite Hsel).
  intros held_out held_out_s i x Hin Hx.
  assert (Htr : transform_frame fitted (select_number_columns Xtr) held_out = Ok held_out_s).
  { apply elem_of_cons in Hin as [[= -> ->]|Hin]; [done|].
    apply elem_of_cons in Hin as [[= -> ->]|Hin]; [done|]. by apply elem_of_nil in Hin. }
  destruct (transform_frame_lookup _ _ _ _ _ _ _ _ Hnd' Htr Hj Hx)
    as (col' & y & Hg & Hy' & Hc).
  rewrite Hcell in Hc. injection Hc as <-. eauto.
Qed.

End ExportedParameters.

(** ** [evaluate_model] *)

Lemma float_eqb_one (x : float) : PrimFloat.eqb x 1 = true -> x = 1%float.
Proof.
  rewrite FloatAxioms.eqb_spec. intros H.
  rewrite <- (SF2Prim_Prim2SF x).
  set (o := Prim2SF 1) in H. vm_compute in o. subst o.
  destruct (Prim2SF x) as [s|s| |s m e]; try (by destruct s); try done.
  unfold SFeqb, SFcompare in H.
  destruct s; [done|].
  destruct (e ?= -52) eqn:He; [|exfalso; clear -H; discriminate H..]. 
  apply Z.compare_eq in He.
  destruct (PosDef.Pos.compare_cont Eq m 4503599627370496) eqn:Hm;  [|exfalso; clear -H; discriminate H..]. 
  apply (Pos.compare_eq m) in Hm.
  subst. vm_compute. reflexivity.
Qed.

Import Evaluator.

Lemma float_is_its_bool_cases (x : float) :
  float_is_its_bool x = true <-> x = 0%float \/ x = (-0)%float \/ x = 1%float.
Proof.
  unfold float_is_its_bool. split.
  - destruct (PrimFloat.eqb x 0) eqn:H0.
    + intros _. apply float_eqb_zero_cases in H0. tauto.
    + intros H1%float_eqb_one. tauto.
  - by intros [->|[->| ->]].
Qed.

Lemma int_is_its_bool_cases (z : Z) : int_is_its_bool z = true <-> z = 0 \/ z = 1.
Proof. unfold int_is_its_bool. destruct (Z.eqb_spec z 0); lia. Qed.

Lemma unique_subseteq {A} (same : A -> A -> bool) (v : list A) : unique same v ⊆ v.
Proof.
  induction v as [|x v IH]; simpl; [done|].
  destruct (existsb _ _).
  - by apply list_subseteq_cons.
  - intros y [->|Hy]%elem_of_cons; apply elem_of_cons; [by left|right; by apply IH].
Qed.

Lemma NoDup_bool_length (l : list bool) : NoDup l -> (length l <= 2)%nat.
Proof.
  intros H. destruct l as [|a [|b [|c l]]]; simpl; try lia. exfalso.
  apply NoDup_cons in H as [Ha H]. apply NoDup_cons in H as [Hb _].
  apply not_elem_of_cons in Ha as [Hab Ha]. apply not_elem_of_cons in Ha as [Hac _].
  apply not_elem_of_cons in Hb as [Hbc _]. by destruct a, b, c.
Qed.

Lemma unique_two_classes {A} (same : A -> A -> bool) (c : A -> bool) (v : list A) :
  (forall x y, x ∈ v -> y ∈ v -> c x = c y -> same x y = true) ->
  (length (unique same v) <= 2)%nat.
Proof.
  intros Hc. rewrite <- (length_fmap c). apply NoDup_bool_length.
  induction v as [|x v IH]; simpl; [constructor|].
  assert (IH' : NoDup (c <$> unique same v)).
  { apply IH. intros a b Ha Hb. apply Hc; apply elem_of_cons; by right. }
  destruct (existsb (same x) (unique same v)) eqn:He; [done|].
  rewrite fmap_cons. apply NoDup_cons. split; [|done].
  intros (y & Hy & Hin)%list_elem_of_fmap.
  assert (existsb (same x) (unique same v) = true); [|congruence].
  apply existsb_exists. exists y. split.
  - by apply list_elem_of_In.
  - apply Hc; [apply elem_of_cons; by left| |done]. apply elem_of_cons. right.
    by apply (unique_subseteq same).
Qed.

Lemma array_equal_astype_bool_entries (p : ndarray) :
  array_equal_astype_bool p =
  forallb float_is_its_bool (float_entries p) && forallb int_is_its_bool (int_entries p).
Proof. destruct p; simpl; by rewrite ?andb_true_r. Qed.

Lemma hard_entries_unique_count (p : ndarray) :
  array_equal_astype_bool p = true -> (unique_count p <= 2)%nat.
Proof.
  rewrite array_equal_astype_bool_entries, andb_true_iff, !forallb_forall.
  intros [Hf Hi]. unfold unique_count. destruct (is_floating p).
  - apply (unique_two_classes _ (fun x => PrimFloat.eqb x 0)).
    intros x y Hx%list_elem_of_In%Hf%float_is_its_bool_cases
      Hy%list_elem_of_In%Hf%float_is_its_bool_cases.
    destruct Hx as [->|[->| ->]], Hy as [->|[->| ->]]; by vm_compute.
  - apply (unique_two_classes _ (fun z => z =? 0)).
    intros x y Hx%list_elem_of_In%Hi%int_is_its_bool_cases
      Hy%list_elem_of_In%Hi%int_is_its_bool_cases.
    destruct Hx as [->| ->], Hy as [->| ->]; by vm_compute.
Qed.

(** When the evaluator takes the predicted probabilities for hard class
    labels: exactly when every entry of the array is 0 (of either sign) or 1.
    The number of distinct values, which the source tests as well, never
    decides: an array that equals its own truth values has at most two. *)
Theorem hard_predictions_are_zeros_and_ones (p : ndarray) :
  (is_proba_meaningful p = false <->
   Forall (fun x => x = 0 \/ x = -0 \/ x = 1)%float (float_entries p) /\
   Forall (fun z => z = 0 \/ z = 1) (int_entries p)) /\
  is_proba_meaningful p = negb (array_equal_astype_bool p).
Proof.
  assert (E : is_proba_meaningful p = negb (array_equal_astype_bool p)).
  { unfold is_proba_meaningful.
    destruct (array_equal_astype_bool p) eqn:H; [|done].
    apply hard_entries_unique_count in H.
    by destruct (Nat.leb_spec (unique_count p) 2); [|lia]. }
  split; [|done]. rewrite E, negb_false_iff, array_equal_astype_bool_entries.
  rewrite andb_true_iff, !forallb_forall, !Forall_forall.
  split; intros [Hf Hi]; split.
  - intros x Hx. by apply float_is_its_bool_cases, Hf, list_elem_of_In.
  - intros z Hz. by apply int_is_its_bool_cases, Hi, list_elem_of_In.
  - intros x Hx. by apply float_is_its_bool_cases, Hf, list_elem_of_In.
  - intros z Hz. by apply int_is_its_bool_cases, Hi, list_elem_of_In.
Qed.

Lemma above_half_binary (x : float) : above_half x = 0 \/ above_half x = 1.
Proof. unfold above_half. destruct (PrimFloat.ltb _ _); auto. Qed.

Lemma int_above_half_binary (z : Z) : int_above_half z = 0 \/ int_above_half z = 1.
Proof. unfold int_above_half. destruct (0 <? z); auto. Qed.

Lemma int_above_half_fixed (v : list Z) :
  Forall (fun z => z = 0 \/ z = 1) v -> int_above_half <$> v = v.
Proof.
  induction 1 as [|z v Hz _ IH]; [done|]. rewrite fmap_cons, IH.
  by destruct Hz as [->| ->].
Qed.

Lemma concat_fmap_fmap {A B} (f : A -> B) (rows : list (list A)) :
  concat ((fun row : list A => f <$> row) <$> rows) = f <$> concat rows.
Proof.
  induction rows as [|r rows IH]; [done|]. by rewrite fmap_cons, !concat_cons, fmap_app, IH.
Qed.

(** The class predictions that all metrics are computed from: an integer
    array of the shape of the predicted probabilities, with a 1 where the
    entry is above 0.5 and a 0 elsewhere, also where the entry is exactly 0.5
    or NaN.  Integer predictions that are class labels 0 and 1 are kept as
    they are; any other integer label is turned into 0 (when it is 0 or
    negative) or 1. *)
Theorem threshold_classes_binary (p : ndarray) :
  is_floating (threshold_classes p) = false /\
  ndim (threshold_classes p) = ndim p /\
  int_entries (threshold_classes p) =
    ((above_half <$> float_entries p) ++ (int_above_half <$> int_entries p))%list /\
  Forall (fun z => z = 0 \/ z = 1) (int_entries (threshold_classes p)) /\
  above_half 0.5 = 0 /\ above_half np_nan = 0 /\
  (forall z, int_above_half z = 1 <-> 1 <= z) /\
  (is_floating p = false ->
   Forall (fun z => z = 0 \/ z = 1) (int_entries p) ->
   threshold_classes p = p).
Proof.
  assert (E : int_entries (threshold_classes p) =
    ((above_half <$> float_entries p) ++ (int_above_half <$> int_entries p))%list).
  { destruct p; simpl; rewrite ?concat_fmap_fmap, ?app_nil_r; done. }
  split; [by destruct p|]. split; [by destruct p|]. split; [done|].
  split; [|split; [done|split; [done|split]]].
  - rewrite E. apply Forall_app. split; apply Forall_fmap, Forall_forall; intros x _.
    + apply above_half_binary.
    + apply int_above_half_binary.
  - intros z. unfold int_above_half. destruct (Z.ltb_spec 0 z); split; (done || lia).
  - destruct p as [v|v|w rows|w rows]; try done; simpl; intros _ H.
    + by rewrite int_above_half_fixed.
    + f_equal. clear E. induction rows as [|r rows IH]; [done|].
      rewrite concat_cons in H. apply Forall_app in H as [Hr H].
      rewrite fmap_cons, (IH H), int_above_half_fixed; done.
Qed.

Section EvaluatorFacts.

Variable accuracy_score precision_score recall_score f1_score roc_auc_score log_loss :
  Series -> ndarray -> result float.
Variable confusion_matrix : Series -> ndarray -> result (list (list Z)).
Variable exn_str : exn -> string.

#[local] Abbreviation evaluate :=
  (evaluate_model accuracy_score precision_score recall_score f1_score roc_auc_score
     log_loss confusion_matrix exn_str).

#[local] Ltac report_dom :=
  split; [lia|];
  rewrite ?dom_insert_L, dom_empty_L; simpl; set_solver.

(** The entries of an evaluation report.  A prediction that fails gives the
    report that holds the text of the exception under "error_prediction" and
    nothing else.  Otherwise the metrics are stored in one fixed order, and
    the report holds those computed before the first one that failed,
    followed by "error_metrics_calculation"; only the report of a run in which
    none failed has all seven, and no error entry. *)
Theorem evaluate_model_report_keys (model : predictor) (X_test : option DataFrame)
  (y_test : Series) (model_type : string) :
  let report := evaluate model X_test y_test model_type in
  let metrics := ["accuracy"; "precision"; "recall"; "f1_score"; "roc_auc"; "log_loss";
                  "confusion_matrix"] in
  (exists e, predict_probabilities model X_test model_type = Raise e /\
     report = {["error_prediction" := PyStr (exn_str e)]}) \/
  (is_ok (predict_probabilities model X_test model_type) = true /\
   exists n : nat,
     (n <= 7)%nat /\
     dom report = (list_to_set (take n metrics) ∪
                   (if (n <? 7)%nat then {["error_metrics_calculation"]} else ∅) : gset string)).
Proof.
  intros report metrics. subst report. unfold evaluate_model.
  destruct (predict_probabilities model X_test model_type) as [p|e]; [right|left; eauto].
  split; [done|]. unfold compute_metrics, log_loss_of_classes, store.
  set (c := threshold_classes p). clearbody c.
  destruct (accuracy_score y_test c); simpl; [|exists 0%nat; report_dom].
  destruct (precision_score y_test c); simpl; [|exists 1%nat; report_dom].
  destruct (recall_score y_test c); simpl; [|exists 2%nat; report_dom].
  destruct (f1_score y_test c); simpl; [|exists 3%nat; report_dom].
  destruct (is_proba_meaningful p).
  - destruct (roc_auc_score y_test p); simpl; [|exists 4%nat; report_dom].
    destruct (log_loss y_test p); simpl; [|exists 5%nat; report_dom].
    destruct (confusion_matrix y_test c); simpl; [exists 7%nat|exists 6%nat]; report_dom.
  - destruct (roc_auc_score y_test c); simpl; [|exists 4%nat; report_dom].
    destruct (log_loss y_test (astype_float c)) as [v|err]; simpl.
    + destruct (confusion_matrix y_test c); simpl; [exists 7%nat|exists 6%nat]; report_dom.
    + destruct (is_value_error err); simpl; [|exists 5%nat; report_dom].
      destruct (confusion_matrix y_test c); simpl; [exists 7%nat|exists 6%nat]; report_dom.
Qed.

End EvaluatorFacts.

(** ** Concrete runs of the further properties *)

(** The four sample rows with a validation fraction of zero: one test row,
    three training rows. *)
Lemma split_data_two_way_witness :
  index Sample.X = sindex Sample.y /\
  PrimFloat.ltb 0 0 = false /\
  exists X_train X_test y_train y_test g',
    split_data nat Sample.RandomState Sample.rng_permutation Sample.stratified_shuffle_split
      0%nat Sample.X Sample.y 0.25%float (Some 0%float) (Some 42) None =
    (Ok (TrainTest X_train X_test y_train y_test), g').
Proof.
  split; [reflexivity|]. split; [reflexivity|].
  destruct (split_data_two_way nat Sample.RandomState Sample.rng_permutation
              Sample.stratified_shuffle_split sample_permutation_spec sample_stratified_spec
              0%nat Sample.X Sample.y 0.25%float (Some 0%float) (Some 42)
              eq_refl eq_refl) as [_ H].
  apply (H 3 1)%nat. reflexivity.
Defined.

(** The sample rows against labels indexed from 10 on: the partitions carry
    the positions 0 to 3. *)
Lemma split_data_misaligned_inputs_witness :
  let y := {| sindex := [10; 11; 12; 13]; values := values Sample.y |} in
  index Sample.X <> sindex y /\
  exists X_train X_test y_train y_test g',
    split_data nat Sample.RandomState Sample.rng_permutation Sample.stratified_shuffle_split
      0%nat Sample.X y 0.25%float None (Some 42) None =
      (Ok (TrainTest X_train X_test y_train y_test), g') /\
    index X_train ++ index X_test ≡ₚ [0; 1; 2; 3] /\
    sindex y_train = index X_train /\ sindex y_test = index X_test.
Proof.
  intros y.
  assert (Hne : index Sample.X <> sindex y) by discriminate.
  split; [exact Hne|].
  destruct (split_data nat Sample.RandomState Sample.rng_permutation
              Sample.stratified_shuffle_split 0%nat Sample.X y 0.25%float None (Some 42) None)
    as [[[X_train X_test y_train y_test|]|e] g'] eqn:H;
    try (vm_compute in H; discriminate).
  exists X_train, X_test, y_train, y_test, g'. split; [reflexivity|].
  exact (proj2 (split_data_misaligned_inputs nat Sample.RandomState Sample.rng_permutation
              Sample.stratified_shuffle_split sample_permutation_spec sample_stratified_spec
              0%nat Sample.X y 0.25%float None (Some 42) None Hne) _ _ H).
Defined.

(** The sample rows with a validation fraction of a quarter: the test row of
    the three-way call is the test row of the two-way call. *)
Lemma split_data_test_set_first_witness :
  exists X_train X_val X_test y_train y_val y_test g' X_train_val y_train_val g1,
    split_data nat Sample.RandomState Sample.rng_permutation Sample.stratified_shuffle_split
      0%nat Sample.X Sample.y 0.25%float (Some 0.25%float) (Some 42) None =
      (Ok (TrainValTest X_train X_val X_test y_train y_val y_test), g') /\
    split_data nat Sample.RandomState Sample.rng_permutation Sample.stratified_shuffle_split
      0%nat Sample.X Sample.y 0.25%float None (Some 42) None =
      (Ok (TrainTest X_train_val X_test y_train_val y_test), g1) /\
    index X_train ++ index X_val ≡ₚ index X_train_val.
Proof.
  destruct (split_data nat Sample.RandomState Sample.rng_permutation
              Sample.stratified_shuffle_split 0%nat Sample.X Sample.y 0.25%float
              (Some 0.25%float) (Some 42) None)
    as [[[|X_train X_val X_test y_train y_val y_test]|e] g'] eqn:H;
    try (vm_compute in H; discriminate).
  destruct (split_data_test_set_first nat Sample.RandomState Sample.rng_permutation
              Sample.stratified_shuffle_split sample_permutation_spec sample_stratified_spec
              _ _ _ _ _ _ _ _ _ _ _ _ _ _ H)
    as (X_train_val & y_train_val & g1 & q_train & q_val & H2 & _ & _ & _ & _ & _ & Hp).
  exists X_train, X_val, X_test, y_train, y_val, y_test, g', X_train_val, y_train_val, g1.
  split; [reflexivity|]. split; [exact H2 | exact Hp].
Defined.

(** The two splits of stage 4 on the sample rows, a quarter each. *)
Lemma run_splits_are_one_three_way_split_witness :
  index Sample.X = sindex Sample.y /\
  PrimFloat.ltb 0 0.25 = true /\
  io_bind nat unit unit unit
    (split_train_test nat Sample.RandomState Sample.rng_permutation
       Sample.stratified_shuffle_split unit unit unit Sample.X Sample.y 0.25%float (Some 42))
    (fun s1 =>
       io_bind nat unit unit unit
         (split_train_test nat Sample.RandomState Sample.rng_permutation
            Sample.stratified_shuffle_split unit unit unit s1.1.1.1 s1.1.2 0.25%float
            (Some 42))
         (fun s2 =>
            io_ret nat unit unit unit
              (TrainValTest s2.1.1.1 s2.1.1.2 s1.1.1.2 s2.1.2 s2.2 s1.2)))
    Sample.start =
  ((split_data nat Sample.RandomState Sample.rng_permutation Sample.stratified_shuffle_split
      0%nat Sample.X Sample.y 0.25%float (Some 0.25%float) (Some 42) (Some Sample.y)).1,
   Sample.start).
Proof.
  split; [reflexivity|]. split; [reflexivity|].
  exact (run_splits_are_one_three_way_split nat Sample.RandomState Sample.rng_permutation
           Sample.stratified_shuffle_split unit unit unit Sample.start Sample.X Sample.y
           0.25%float 0.25%float (Some 42) eq_refl eq_refl).
Defined.

(** The sample matrix scaled alone: the string column is returned as it was,
    the integer column as floats. *)
Lemma scale_features_keeps_shape_witness :
  exists X_train_s sc v,
    scale_features Sample.standard_fit Sample.minmax_fit Sample.X None None "standard" None =
      Ok (X_train_s, None, None, sc) /\
    column_names X_train_s = ["profit"; "hops"; "venue"; "age"] /\
    index X_train_s = [0; 1; 2; 3] /\
    get_column "venue" X_train_s = get_column "venue" Sample.X /\
    get_column "hops" X_train_s = Some (SFloat64 v).
Proof.
  destruct (scale_features Sample.standard_fit Sample.minmax_fit Sample.X None None
              "standard" None) as [[[[X_train_s [X_test_s|]] [X_val_s|]] sc]|e] eqn:H;
    try (vm_compute in H; discriminate).
  destruct (scale_features_keeps_shape Sample.standard_fit Sample.minmax_fit
              Sample.X None None "standard" None X_train_s None None sc H)
    as ((Hnames & Hidx & Hother & Hnum) & _).
  destruct (Hnum "hops") as [v Hv].
  { apply (bool_decide_unpack _). vm_compute. exact I. }
  exists X_train_s, sc, v. split; [reflexivity|].
  split; [exact Hnames|]. split; [exact Hidx|]. split; [|exact Hv].
  apply Hother. apply (bool_decide_unpack _). vm_compute. exact I.
Defined.

(** A test frame without the column "hops" of the sample matrix. *)
Lemma scale_features_missing_column_witness :
  let X_test := {| index := [0]; columns := [("profit", SFloat64 [2%float])] |} in
  "hops" ∈ select_number_columns Sample.X /\
  get_column "hops" X_test = None /\
  is_ok (scale_features Sample.standard_fit Sample.minmax_fit Sample.X (Some X_test) None
           "standard" None) = false.
Proof.
  intros X_test.
  assert (Hin : "hops" ∈ select_number_columns Sample.X).
  { apply (bool_decide_unpack _). vm_compute. exact I. }
  split; [exact Hin|]. split; [reflexivity|].
  exact (scale_features_missing_column Sample.standard_fit Sample.minmax_fit
           Sample.X (Some X_test) None "standard" None X_test "hops"
           (or_introl eq_refl) Hin eq_refl).
Defined.

(** The matrix of the six sample documents. *)
Lemma generate_features_schema_witness :
  exists df,
    generate_features Sample.int_of_str Sample.series_mode Z Sample.to_datetime
      Sample.dt_hour Sample.dt_dayofweek Sample.np_sin Sample.np_cos
      Sample.raw_df "v1" = Ok df /\
    index df = [0; 1; 2; 3; 4; 5] /\
    length (columns df) = 53%nat /\
    last (column_names df) = Some "isSuccess_Profitability".
Proof.
  destruct (generate_features Sample.int_of_str Sample.series_mode Z Sample.to_datetime
              Sample.dt_hour Sample.dt_dayofweek Sample.np_sin Sample.np_cos
              Sample.raw_df "v1") as [df|e] eqn:H; [|vm_compute in H; discriminate].
  destruct (generate_features_schema Sample.int_of_str Sample.series_mode Z
              Sample.to_datetime Sample.dt_hour Sample.dt_dayofweek Sample.np_sin
              Sample.np_cos Sample.raw_df df "v1" H) as (Hidx & Hnames & Hlen).
  exists df. split; [reflexivity|]. split; [exact Hidx|]. split; [exact Hlen|].
  rewrite Hnames. reflexivity.
Defined.

(** A raw frame without the column [attemptTimestamp]. *)
Lemma generate_features_no_timestamp_witness :
  get_column "attemptTimestamp" Sample.ragged_df = None /\
  exists df,
    generate_features Sample.int_of_str Sample.series_mode Z Sample.to_datetime
      Sample.dt_hour Sample.dt_dayofweek Sample.np_sin Sample.np_cos
      Sample.ragged_df "v1" = Ok df /\
    get_column "F39_hourOfDayUTC_Sin" df = Some (SFloat64 [np_nan; np_nan; np_nan]) /\
    get_column "F40_dayOfWeekUTC_Cos" df = Some (SFloat64 [np_nan; np_nan; np_nan]).
Proof.
  split; [reflexivity|].
  destruct (generate_features Sample.int_of_str Sample.series_mode Z Sample.to_datetime
              Sample.dt_hour Sample.dt_dayofweek Sample.np_sin Sample.np_cos
              Sample.ragged_df "v1") as [df|e] eqn:H; [|vm_compute in H; discriminate].
  pose proof (generate_features_no_timestamp Sample.int_of_str Sample.series_mode Z
                Sample.to_datetime Sample.dt_hour Sample.dt_dayofweek Sample.np_sin
                Sample.np_cos Sample.ragged_df df "v1" I H) as Hall.
  exists df. split; [reflexivity|].
  apply Forall_cons in Hall as [H1 Hall]. apply Forall_cons in Hall as [_ Hall].
  apply Forall_cons in Hall as [_ Hall]. apply Forall_cons in Hall as [H4 _].
  split; [exact H1 | exact H4].
Defined.

(** The raw frame of the sample documents has no target column. *)
Lemma generate_features_targets_witness :
  get_column "isSuccess_Execution" Sample.raw_df = None /\
  exists df,
    generate_features Sample.int_of_str Sample.series_mode Z Sample.to_datetime
      Sample.dt_hour Sample.dt_dayofweek Sample.np_sin Sample.np_cos
      Sample.raw_df "v1" = Ok df /\
    get_column "isSuccess_Execution" df = Some (SInt64 [0; 0; 0; 0; 0; 0]).
Proof.
  split; [vm_compute; reflexivity|].
  destruct (generate_features Sample.int_of_str Sample.series_mode Z Sample.to_datetime
              Sample.dt_hour Sample.dt_dayofweek Sample.np_sin Sample.np_cos
              Sample.raw_df "v1") as [df|e] eqn:H; [|vm_compute in H; discriminate].
  pose proof (generate_features_targets Sample.int_of_str Sample.series_mode Z
                Sample.to_datetime Sample.dt_hour Sample.dt_dayofweek Sample.np_sin
                Sample.np_cos Sample.raw_df df "v1" "isSuccess_Execution"
                (or_introl eq_refl) H) as Ht.
  exists df. split; [reflexivity|].
  set (o := get_column "isSuccess_Execution" Sample.raw_df) in Ht.
  vm_compute in o. subst o. exact Ht.
Defined.

(** One record whose flash-loan flag is null. *)
Lemma generate_features_null_flag_witness :
  let raw_df := {| index := [0];
                   columns := [("espInputFeatures",
                                SObject [PyDict {["usesFlashLoan" := PyNone]}])] |} in
  ("A5_usesFlashLoan", Flag "usesFlashLoan") ∈ feature_rules /\
  is_ok (generate_features Sample.int_of_str Sample.series_mode Z Sample.to_datetime
           Sample.dt_hour Sample.dt_dayofweek Sample.np_sin Sample.np_cos
           raw_df "v1") = false.
Proof.
  intros raw_df.
  assert (Hin : ("A5_usesFlashLoan", Flag "usesFlashLoan") ∈ feature_rules).
  { apply (bool_decide_unpack _). vm_compute. exact I. }
  split; [exact Hin|].
  apply (generate_features_null_flag Sample.int_of_str Sample.series_mode Z
           Sample.to_datetime Sample.dt_hour Sample.dt_dayofweek Sample.np_sin
           Sample.np_cos raw_df "v1" 0%nat {["usesFlashLoan" := PyNone]}
           "A5_usesFlashLoan" "usesFlashLoan" PyNone Hin).
  - reflexivity.
  - vm_compute. reflexivity.
  - left. reflexivity.
Defined.



(** A seeded gradient-boosting trainer on the sample matrix. *)
Lemma train_backend_matches_model_type_witness :
  exists t0 t,
    ModelTrainer_init unit unit unit unit Sample.keras_build Sample.xgb_new Sample.lgbm_new
      "xgboost" None (Some 42) = Ok t0 /\
    train unit unit unit unit Sample.keras_build Sample.keras_fit Sample.tree_fit
      Sample.tree_fit t0 Sample.X Sample.y None None = Ok t /\
    model_type t = "xgboost" /\ random_state _ _ _ _ t = Some 42 /\
    get_model t = Some (XGBClassifier _ _ _ tt) /\ history _ _ _ _ t = None.
Proof.
  destruct (ModelTrainer_init unit unit unit unit Sample.keras_build Sample.xgb_new
              Sample.lgbm_new "xgboost" None (Some 42)) as [t0|e] eqn:H0;
    [|vm_compute in H0; discriminate].
  destruct (train unit unit unit unit Sample.keras_build Sample.keras_fit Sample.tree_fit
              Sample.tree_fit t0 Sample.X Sample.y None None) as [t|e] eqn:H.
  2: { vm_compute in H0. injection H0 as <-. vm_compute in H. discriminate. }
  destruct (train_backend_matches_model_type unit unit unit unit Sample.keras_build
              Sample.xgb_new Sample.lgbm_new Sample.keras_fit Sample.tree_fit Sample.tree_fit
              "xgboost" None (Some 42) Sample.X Sample.y None None t0 t H0 H)
    as (Hmt & Hrs & Hm).
  exists t0, t. split; [reflexivity|]. split; [exact H|].
  split; [exact Hmt|]. split; [exact Hrs|].
  destruct (get_model t) as [[[]|[]|[]]|]; try (by destruct Hm as [[=] _]); [|done].
  by destruct Hm.
Defined.

(** A run on two documents: the second split of stage 4 is refused, and
    nothing has been written. *)
Lemma run_that_raises_writes_nothing_witness :
  exists e w',
    Sample.run_on (take 2 Sample.documents) (hardcoded_config "project") = (Raise e, w') /\
    files_written w' = [].
Proof.
  destruct (Sample.run_on (take 2 Sample.documents) (hardcoded_config "project"))
    as [[[]|e] w'] eqn:H; [vm_compute in H; discriminate|].
  exists e, w'. split; [reflexivity|].
  unfold Sample.run_on in H.
  apply run_that_raises_writes_nothing in H. exact H.
Defined.

(** The run on the six sample documents goes through the seven stages. *)
Lemma run_all_or_nothing_witness :
  let w' := (Sample.run (hardcoded_config "project")).2 in
  Sample.run (hardcoded_config "project") = (Ok tt, w') /\
  (stages_entered w' = [1%nat] /\ files_written w' = [] \/
   stages_entered w' = [1; 2; 3; 4; 5; 6; 7]%nat /\
   exists model_files,
     files_written w' =
       (model_files ++
        ["trained_models/esp_model_neural_network_v1.0.0_20230101_100000_scaler.joblib";
         "trained_models/esp_model_neural_network_v1.0.0_20230101_100000_metadata.json"])%list /\
     (model_files = [] \/
      model_files =
        ["trained_models/esp_model_neural_network_v1.0.0_20230101_100000_tfjs"])).
Proof.
  intros w'.
  assert (H1 : (Sample.run (hardcoded_config "project")).1 = Ok tt)
    by (vm_compute; reflexivity).
  assert (H : Sample.run (hardcoded_config "project") = (Ok tt, w')).
  { rewrite <- H1. apply surjective_pairing. }
  split; [exact H|].
  unfold Sample.run in H.
  apply run_all_or_nothing in H.
  exact H.
Defined.

(** The metadata document of the run on the sample documents. *)
Lemma run_metadata_witness :
  let w' := (Sample.run (hardcoded_config "project")).2 in
  Sample.run (hardcoded_config "project") = (Ok tt, w') /\
  df_empty Sample.raw_df = false /\
  exists before sc md,
    events w' =
      (before ++
       [EvWrite "trained_models/esp_model_neural_network_v1.0.0_20230101_100000_scaler.joblib"
          (ScalerBlob unit unit unit sc);
        EvWrite "trained_models/esp_model_neural_network_v1.0.0_20230101_100000_metadata.json"
          (MetadataDocument unit unit unit md);
        EvPrint "--- ML Training Pipeline Finished (mock execution) ---"])%list /\
    md_model_name md = "esp_model_neural_network_v1.0.0_20230101_100000" /\
    md_tfjs_model_path md =
      Some "trained_models/esp_model_neural_network_v1.0.0_20230101_100000_tfjs" /\
    md_native_model_path md = None /\
    length (md_feature_columns_ordered md) = 51%nat.
Proof.
  intros w'.
  assert (H1 : (Sample.run (hardcoded_config "project")).1 = Ok tt)
    by (vm_compute; reflexivity).
  assert (H : Sample.run (hardcoded_config "project") = (Ok tt, w')).
  { rewrite <- H1. apply surjective_pairing. }
  assert (Hne : df_empty Sample.raw_df = false) by (vm_compute; reflexivity).
  split; [exact H|]. split; [exact Hne|].
  unfold Sample.run in H.
  apply run_metadata in H; [|exact Hne].
  destruct H as (before & sc & md & Hev & Hname & _ & Hpaths & _ & _ & _ & Hcols).
  exists before, sc, md. split; [exact Hev|]. split; [exact Hname|].
  injection Hpaths as Htfjs Hnative.
  split; [exact Htfjs|]. split; [exact Hnative|].
  exact (proj2 (Hcols eq_refl eq_refl)).
Defined.

(** The run on the sample documents with a converter that writes nothing. *)
Lemma run_without_tfjs_converter_witness :
  let run :=
    run_pipeline_with Sample.int_of_str Sample.series_mode Z Sample.to_datetime
      Sample.dt_hour Sample.dt_dayofweek Sample.np_sin Sample.np_cos
      nat Sample.RandomState Sample.rng_permutation Sample.stratified_shuffle_split
      Sample.standard_fit Sample.minmax_fit unit unit unit unit
      Sample.keras_build Sample.xgb_new Sample.lgbm_new
      Sample.keras_fit Sample.tree_fit Sample.tree_fit
      Sample.firestore_stream Sample.json_normalize Sample.evaluate_model
      (fun _ _ => false)
      "20230101_100000" "2023-01-01T10:00:00" (hardcoded_config "project") Sample.start in
  run = (Ok tt, run.2) /\
  cfg_model_type (hardcoded_config "project") = "neural_network" /\
  df_empty Sample.raw_df = false /\
  files_written run.2 =
    ["trained_models/esp_model_neural_network_v1.0.0_20230101_100000_scaler.joblib";
     "trained_models/esp_model_neural_network_v1.0.0_20230101_100000_metadata.json"] /\
  exists md,
    EvWrite "trained_models/esp_model_neural_network_v1.0.0_20230101_100000_metadata.json"
      (MetadataDocument unit unit unit md) ∈ events run.2 /\
    md_tfjs_model_path md =
      Some "trained_models/esp_model_neural_network_v1.0.0_20230101_100000_tfjs".
Proof.
  intros run.
  assert (H1 : run.1 = Ok tt) by (vm_compute; reflexivity).
  assert (H : run = (Ok tt, run.2)).
  { rewrite <- H1. apply surjective_pairing. }
  assert (Hne : df_empty Sample.raw_df = false) by (vm_compute; reflexivity).
  split; [exact H|]. split; [reflexivity|]. split; [exact Hne|].
  unfold run in H at 1.
  apply run_without_tfjs_converter in H; [|reflexivity|reflexivity|exact Hne].
  destruct H as (Hfiles & md & _ & Hin & Hpath).
  split; [exact Hfiles|]. exists md. split; [exact Hin | exact Hpath].
Defined.

(** The labels of the six sample documents. *)
Lemma label_stage_labels_witness :
  exists raw1 ex,
    label_stage (hardcoded_config "project") Sample.raw_df = Ok raw1 /\
    index raw1 = [0; 1; 2; 3; 4; 5] /\
    get_column "isSuccess_Execution" raw1 = Some ex /\
    Forall (fun c => c = PyInt 0 \/ c = PyInt 1) (series_cells ex).
Proof.
  destruct (label_stage (hardcoded_config "project") Sample.raw_df) as [raw1|e] eqn:H;
    [|vm_compute in H; discriminate].
  destruct (label_stage_labels (hardcoded_config "project") Sample.raw_df raw1
              eq_refl eq_refl H) as (Hidx & ex & pr & Hex & _ & Hb & _).
  exists raw1, ex. split; [reflexivity|]. split; [exact Hidx|]. split; [exact Hex | exact Hb].
Defined.

(** ** The sample normalization flattens the feature maps *)

Lemma append_without_dot (k s t : string) :
  (forall i, String.get i t <> String.get 0 ".") -> k +:+ "." +:+ s <> t.
Proof.
  revert t. induction k as [|a k IH]; intros t Ht H.
  - apply (Ht 0%nat). by rewrite <- H.
  - destruct t as [|b t]; [discriminate|]. simpl in H. injection H as _ H.
    apply (IH t); [|done]. intros i. apply (Ht (S i)).
Qed.

Lemma feature_map_field_without_dot (i : nat) :
  String.get i "espInputFeatures" <> String.get 0 ".".
Proof. do 17 (destruct i as [|i]; [discriminate|]). discriminate. Qed.

Lemma lookup_column_fmap_None (f : string -> series) (keys : list string) (name : string) :
  name ∉ keys -> lookup_column name ((fun key => (key, f key)) <$> keys) = None.
Proof.
  induction keys as [|k keys IH]; [done|].
  intros [Hk Hn]%not_elem_of_cons. rewrite fmap_cons. simpl.
  rewrite decide_False by done. by apply IH.
Qed.

Lemma sample_json_normalize_flattens (docs : list (gmap string pyval)) (df : DataFrame) :
  Forall (fun d : gmap string pyval =>
            exists m, d !! "espInputFeatures" = Some (PyDict m)) docs ->
  Sample.json_normalize docs = Ok df ->
  get_column "espInputFeatures" df = None.
Proof.
  intros Hdocs [= <-]. unfold get_column. simpl. apply lookup_column_fmap_None.
  rewrite elem_of_remove_dups, list_elem_of_join.
  intros (keys & Hin & Hkeys).
  apply list_elem_of_fmap in Hkeys as (r & -> & Hr).
  apply list_elem_of_fmap in Hr as (d & -> & Hd).
  rewrite Forall_forall in Hdocs. destruct (Hdocs d Hd) as [m Hm].
  apply list_elem_of_fmap in Hin as ([k v] & Hk & Hin). simpl in Hk. subst k.
  unfold Sample.flatten_doc in Hin. apply list_elem_of_join in Hin as (l & Hin & Hl).
  apply list_elem_of_fmap in Hl as ([k x] & -> & Hkx). simpl in Hin.
  apply elem_of_map_to_list in Hkx.
  destruct x as [| | | | |m'|];
    try (apply elem_of_cons in Hin as [[= <- ->]|Hin];
         [congruence | by apply elem_of_nil in Hin]).
  apply list_elem_of_fmap in Hin as ([k2 v2] & [= Hname _] & _). simpl in Hname.
  symmetry in Hname. revert Hname. apply append_without_dot.
  apply feature_map_field_without_dot.
Qed.

(** The run on the sample documents: the exported parameters of the first
    feature column replay the scaler that was written. *)
Lemma C1_witness :
  let w' := (Sample.run (hardcoded_config "project")).2 in
  Sample.run (hardcoded_config "project") = (Ok tt, w') /\
  get_column "espInputFeatures" Sample.raw_df = None /\
  df_empty Sample.raw_df = false /\
  exists (sc : scaler) (md : Metadata) (e : ScalerExport) before,
    events w' =
      (before ++
       [EvWrite (md_scaler_path md) (ScalerBlob unit unit unit (Some sc));
        EvWrite (output_path (md_model_name md +:+ "_metadata.json"))
          (MetadataDocument unit unit unit md);
        EvPrint "--- ML Training Pipeline Finished (mock execution) ---"])%list /\
    md_scaler md = Some e /\
    length (numeric_features_scaled e) = 51%nat /\
    exists mean scale,
      exported_param e "mean" "A1_estimatedNetProfitUsd_PreEsp" = Some mean /\
      exported_param e "scale" "A1_estimatedNetProfitUsd_PreEsp" = Some scale /\
      forall x, scaler_cell sc 0 x = Some ((x - mean) / scale)%float.
Proof.
  intros w'.
  assert (H1 : (Sample.run (hardcoded_config "project")).1 = Ok tt)
    by (vm_compute; reflexivity).
  assert (H : Sample.run (hardcoded_config "project") = (Ok tt, w')).
  { rewrite <- H1. apply surjective_pairing. }
  assert (Hne : df_empty Sample.raw_df = false) by (vm_compute; reflexivity).
  assert (Hcol : get_column "espInputFeatures" Sample.raw_df = None).
  { apply fetched_without_feature_map_column. exact sample_json_normalize_flattens. }
  split; [exact H|]. split; [exact Hcol|]. split; [exact Hne|].
  unfold Sample.run in H.
  apply C1_run_exports_fitted_parameters in H;
    [|exact Hcol|reflexivity|reflexivity|reflexivity|exact Hne].
  destruct H as (raw1 & features & yv & Xtv & Xte & ytv & yte & g1 & Xtr & Xva & ytr & yva &
                 Xtrs & Xtes & Xvas & sc & before & md & e & H).
  cbv zeta in H.
  destruct H as (_ & _ & _ & _ & _ & _ & Hev & He & _ & Hcols & Hord & Hparams).
  exists sc, md, e, before. split; [exact Hev|]. split; [exact He|].
  split; [rewrite Hcols, Hord; reflexivity|].
  destruct (Hparams 0%nat "A1_estimatedNetProfitUsd_PreEsp") as (mean & scale & Hm & Hs & Hc & _).
  { rewrite Hcols, Hord. reflexivity. }
  exists mean, scale. split; [exact Hm|]. split; [exact Hs|]. exact Hc.
Defined.
